(** * Phelomia batch processing: a shallow embedding of [src/batch_processing.py]

    The development models [BatchProcessor] and its per-job driver coroutine
    and proves (or refutes) the properties the design document states about
    them.

    Modelling conventions.
    - Python floats.  The arithmetic of the source is written once, over a
      class [Arith] of float operations with two readings: [binary64], the
      doubles of CPython (Rocq's primitive floats, the same IEEE 754
      arithmetic), and [exact], the rationals [Q] without rounding.  The
      state of the processor ([progress], the timestamps of a job) is kept in
      the exact reading, and what is stated about it is what rounding
      preserves: order, bounds, the constants 0 and 100, and which branch is
      taken.  Where the digits matter (the job id built from
      [int(time.time() * 1000)], the value of the completion estimate) the
      [binary64] reading is used.
    - [BatchJob] objects are mutable and shared between [active_jobs],
      [job_history] and the driver task, so they live in an object store
      ([objects]) and the collections hold references.
    - Python exceptions are values of [Exn]; code that may raise runs in the
      state-and-exception monad [M], in which a raise keeps the mutations done
      so far, as in Python.
    - The clock, the outcome of each work unit run by the thread pool and the
      outcome of the file write are inputs of the environment ([Env]).
    - The logger is left out.  Of the module-level [analytics] object,
      [submit_batch_job] looks up an attribute that [UsageAnalytics] does not
      have, which is modelled; the calls of the driver to
      [analytics.track_document_processed] are taken to return, as they do
      when no performance log was loaded.  The tracker behind [analytics] is
      modelled on its own in the last part.
    - The driver coroutine is cut into steps (start, sub-batch dispatch, one
      collected future, finalisation) so that calls arriving from other
      threads can be interleaved between them.  A run of the single-threaded
      event loop, where the whole driver is atomic, is one such interleaving. *)

From Stdlib Require Import Floats.
From Stdlib Require Import QArith Lqa ZArith.
From stdpp Require Import gmap strings list fin_maps pretty.

Local Open Scope string_scope.

(** ** Exceptions and the result of a computation *)

Inductive Exn :=
  | KeyError (key : string)
  | ZeroDivisionError
  | ValueError (msg : string)
  | TypeError (msg : string)
  | OSError (msg : string)
  | TimeoutError
  | RuntimeError (msg : string)
  | OverflowError (msg : string)
  | AttributeError (msg : string).

(** [str(e)] *)
Definition str_exn (e : Exn) : string :=
  match e with
  | KeyError key => "'" +:+ key +:+ "'"
  | ZeroDivisionError => "division by zero"
  | ValueError msg => msg
  | TypeError msg => msg
  | OSError msg => msg
  | TimeoutError => ""
  | RuntimeError msg => msg
  | OverflowError msg => msg
  | AttributeError msg => msg
  end.

Inductive Res (A : Type) :=
  | Ok (a : A)
  | Raise (e : Exn).
Arguments Ok {A} a.
Arguments Raise {A} e.

Definition is_ok {A} (r : Res A) : bool :=
  match r with Ok _ => true | Raise _ => false end.

(** ** Float arithmetic *)

(** The operations on floats that the source uses: the conversion of an int
    operand, [-], [*], [/] on a non-zero divisor (the division by zero is
    raised by [f_truediv] below), [==] and [<]. *)
Class Arith (F : Type) := {
  of_int : Z → F;
  f_sub : F → F → F;
  f_mul : F → F → F;
  f_div : F → F → F;
  f_eqb : F → F → bool;
  f_ltb : F → F → bool
}.

(** The doubles of CPython.  An int operand is converted with rounding to
    nearest, which is exact below [2^53]; the operands of the source are the
    constants 0 and 100 and the file counts, far from the ints that Python
    refuses to convert. *)
Instance binary64 : Arith float :=
  {| of_int := λ z, SF2Prim (binary_normalize prec emax z 0 false);
     f_sub := PrimFloat.sub;
     f_mul := PrimFloat.mul;
     f_div := PrimFloat.div;
     f_eqb := PrimFloat.eqb;
     f_ltb := PrimFloat.ltb |}.

(** The same operations without rounding. *)
Instance exact : Arith Q :=
  {| of_int := inject_Z;
     f_sub := Qminus;
     f_mul := Qmult;
     f_div := Qdiv;
     f_eqb := Qeq_bool;
     f_ltb := λ x y, negb (Qle_bool y x) |}.

(** Truth value of an [Optional[float]]: [None] and zero are falsy. *)
Definition f_truthy {F} `{Arith F} (o : option F) : bool :=
  match o with
  | Some x => negb (f_eqb x (of_int 0))
  | None => false
  end.

(** [a / b] on floats. *)
Definition f_truediv {F} `{Arith F} (a b : F) : Res F :=
  if f_eqb b (of_int 0) then Raise ZeroDivisionError else Ok (f_div a b).

(** [max(0, x)]: [x] when [x > 0], and the first argument otherwise. *)
Definition f_max0 {F} `{Arith F} (x : F) : F :=
  if f_ltb (of_int 0) x then x else of_int 0.

(** [(completed_files / total_files) * 100], line 195; the quotient of two
    ints is the correctly rounded one, which for counts below [2^53] is the
    quotient of their conversions. *)
Definition progress_after {F} `{Arith F} (completed_files total_files : nat) : Res F :=
  if (total_files =? 0)%nat then Raise ZeroDivisionError
  else Ok (f_mul (f_div (of_int (Z.of_nat completed_files)) (of_int (Z.of_nat total_files)))
             (of_int 100)).

(** [int(x)] on a double: truncation towards zero; an infinity and a NaN
    raise. *)
Definition py_int (x : float) : Res Z :=
  match Prim2SF x with
  | S754_zero _ => Ok 0%Z
  | S754_finite s m e =>
      let magnitude :=
        if (0 <=? e)%Z then (Z.pos m * 2 ^ e)%Z else (Z.pos m / 2 ^ (- e))%Z in
      Ok (if s then (- magnitude)%Z else magnitude)
  | S754_infinity _ => Raise (OverflowError "cannot convert float infinity to integer")
  | S754_nan => Raise (ValueError "cannot convert float NaN to integer")
  end.

(** ** Data model *)

Inductive ProcessingStatus := PENDING | PROCESSING | COMPLETED | FAILED | CANCELLED.

Definition status_value (s : ProcessingStatus) : string :=
  match s with
  | PENDING => "pending"
  | PROCESSING => "processing"
  | COMPLETED => "completed"
  | FAILED => "failed"
  | CANCELLED => "cancelled"
  end.

Definition status_eqb (a b : ProcessingStatus) : bool :=
  match a, b with
  | PENDING, PENDING | PROCESSING, PROCESSING | COMPLETED, COMPLETED
  | FAILED, FAILED | CANCELLED, CANCELLED => true
  | _, _ => false
  end.

(** The dict returned by [_process_single_file]. *)
Record Payload := {
  p_file_path : string;
  p_analysis_types : list string;
  extracted_text : string;
  confidence : Q;
  processing_time : Q;
  file_size : Z;
  timestamp : Q;
  custom_analysis : option string
}.

(** An element of [job.results]: the dict tagged ["success"] or ["error"]. *)
Inductive ResultEntry :=
  | SuccessEntry (file_path : string) (result : Payload)
  | ErrorEntry (file_path : string) (error : string).

Definition entry_status (e : ResultEntry) : string :=
  match e with
  | SuccessEntry _ _ => "success"
  | ErrorEntry _ _ => "error"
  end.

Definition is_success (e : ResultEntry) : bool :=
  match e with SuccessEntry _ _ => true | ErrorEntry _ _ => false end.

Definition is_error (e : ResultEntry) : bool := negb (is_success e).

Record BatchJob := {
  job_id : string;
  file_paths : list string;
  analysis_types : list string;
  custom_prompt : option string;
  status : ProcessingStatus;
  progress : Q;
  start_time : option Q;
  end_time : option Q;
  results : list ResultEntry;
  errors : list string
}.

(** [BatchJob(job_id=..., file_paths=..., analysis_types=..., custom_prompt=...)]
    with the dataclass defaults and [__post_init__]. *)
Definition new_BatchJob (jid : string) (fps ats : list string) (cp : option string) : BatchJob :=
  {| job_id := jid; file_paths := fps; analysis_types := ats; custom_prompt := cp;
     status := PENDING; progress := 0; start_time := None; end_time := None;
     results := []; errors := [] |}.

Definition set_status (st : ProcessingStatus) (j : BatchJob) : BatchJob :=
  {| job_id := job_id j; file_paths := file_paths j; analysis_types := analysis_types j;
     custom_prompt := custom_prompt j; status := st; progress := progress j;
     start_time := start_time j; end_time := end_time j;
     results := results j; errors := errors j |}.

Definition set_progress (p : Q) (j : BatchJob) : BatchJob :=
  {| job_id := job_id j; file_paths := file_paths j; analysis_types := analysis_types j;
     custom_prompt := custom_prompt j; status := status j; progress := p;
     start_time := start_time j; end_time := end_time j;
     results := results j; errors := errors j |}.

Definition set_start_time (t : Q) (j : BatchJob) : BatchJob :=
  {| job_id := job_id j; file_paths := file_paths j; analysis_types := analysis_types j;
     custom_prompt := custom_prompt j; status := status j; progress := progress j;
     start_time := Some t; end_time := end_time j;
     results := results j; errors := errors j |}.

Definition set_end_time (t : Q) (j : BatchJob) : BatchJob :=
  {| job_id := job_id j; file_paths := file_paths j; analysis_types := analysis_types j;
     custom_prompt := custom_prompt j; status := status j; progress := progress j;
     start_time := start_time j; end_time := Some t;
     results := results j; errors := errors j |}.

(** [job.results.append(x)] *)
Definition append_result (x : ResultEntry) (j : BatchJob) : BatchJob :=
  {| job_id := job_id j; file_paths := file_paths j; analysis_types := analysis_types j;
     custom_prompt := custom_prompt j; status := status j; progress := progress j;
     start_time := start_time j; end_time := end_time j;
     results := (results j ++ [x])%list; errors := errors j |}.

(** [job.errors.append(x)] *)
Definition append_error (x : string) (j : BatchJob) : BatchJob :=
  {| job_id := job_id j; file_paths := file_paths j; analysis_types := analysis_types j;
     custom_prompt := custom_prompt j; status := status j; progress := progress j;
     start_time := start_time j; end_time := end_time j;
     results := results j; errors := (errors j ++ [x])%list |}.

(** Progress callback [cb(progress, completed_files, total_files)] and
    completion callback [cb(job)]: observers that either return ([None]) or
    raise. *)
Definition ProgressCallback := Q → nat → nat → option Exn.
Definition CompletionCallback := BatchJob → option Exn.

(** The [summary] block and the [job_data] dict dumped by [_save_job_results]. *)
Record Summary := {
  total_files : nat;
  successful_files : nat;
  failed_files : nat;
  total_errors : nat
}.

Record JobData := {
  d_job_id : string;
  d_file_paths : list string;
  d_analysis_types : list string;
  d_custom_prompt : option string;
  d_status : string;
  d_progress : Q;
  d_start_time : option Q;
  d_end_time : option Q;
  d_processing_time : option Q;
  d_results : list ResultEntry;
  d_errors : list string;
  d_summary : Summary
}.

(** The program point of a job's driver task ([_process_batch_job] together
    with the inlined [_process_files_with_progress]). *)
Inductive DriverTask :=
  | AtStart
  | AtLoop (i : nat) (completed_files : nat)
  | AtCollect (i : nat) (futures : list string) (completed_files : nat)
  | Finished.

Record BatchProcessor := {
  max_concurrent : nat;
  max_workers : nat;
  objects : gmap nat BatchJob;
  active_jobs : gmap string nat;
  job_history : list nat;
  progress_callbacks : gmap string ProgressCallback;
  completion_callbacks : gmap string CompletionCallback;
  result_files : gmap string (Q * JobData);
  tasks : gmap nat DriverTask
}.

Definition with_objects (f : gmap nat BatchJob → gmap nat BatchJob) (s : BatchProcessor) :=
  {| max_concurrent := max_concurrent s; max_workers := max_workers s;
     objects := f (objects s); active_jobs := active_jobs s;
     job_history := job_history s; progress_callbacks := progress_callbacks s;
     completion_callbacks := completion_callbacks s;
     result_files := result_files s; tasks := tasks s |}.

Definition with_active_jobs (f : gmap string nat → gmap string nat) (s : BatchProcessor) :=
  {| max_concurrent := max_concurrent s; max_workers := max_workers s;
     objects := objects s; active_jobs := f (active_jobs s);
     job_history := job_history s; progress_callbacks := progress_callbacks s;
     completion_callbacks := completion_callbacks s;
     result_files := result_files s; tasks := tasks s |}.

Definition with_job_history (f : list nat → list nat) (s : BatchProcessor) :=
  {| max_concurrent := max_concurrent s; max_workers := max_workers s;
     objects := objects s; active_jobs := active_jobs s;
     job_history := f (job_history s); progress_callbacks := progress_callbacks s;
     completion_callbacks := completion_callbacks s;
     result_files := result_files s; tasks := tasks s |}.

Definition with_progress_callbacks
    (f : gmap string ProgressCallback → gmap string ProgressCallback) (s : BatchProcessor) :=
  {| max_concurrent := max_concurrent s; max_workers := max_workers s;
     objects := objects s; active_jobs := active_jobs s;
     job_history := job_history s; progress_callbacks := f (progress_callbacks s);
     completion_callbacks := completion_callbacks s;
     result_files := result_files s; tasks := tasks s |}.

Definition with_completion_callbacks
    (f : gmap string CompletionCallback → gmap string CompletionCallback) (s : BatchProcessor) :=
  {| max_concurrent := max_concurrent s; max_workers := max_workers s;
     objects := objects s; active_jobs := active_jobs s;
     job_history := job_history s; progress_callbacks := progress_callbacks s;
     completion_callbacks := f (completion_callbacks s);
     result_files := result_files s; tasks := tasks s |}.

Definition with_result_files
    (f : gmap string (Q * JobData) → gmap string (Q * JobData)) (s : BatchProcessor) :=
  {| max_concurrent := max_concurrent s; max_workers := max_workers s;
     objects := objects s; active_jobs := active_jobs s;
     job_history := job_history s; progress_callbacks := progress_callbacks s;
     completion_callbacks := completion_callbacks s;
     result_files := f (result_files s); tasks := tasks s |}.

Definition with_tasks (f : gmap nat DriverTask → gmap nat DriverTask) (s : BatchProcessor) :=
  {| max_concurrent := max_concurrent s; max_workers := max_workers s;
     objects := objects s; active_jobs := active_jobs s;
     job_history := job_history s; progress_callbacks := progress_callbacks s;
     completion_callbacks := completion_callbacks s;
     result_files := result_files s; tasks := f (tasks s) |}.

(** ** The state-and-exception monad *)

Definition M (A : Type) : Type := BatchProcessor → Res A * BatchProcessor.

Definition ret {A} (a : A) : M A := λ s, (Ok a, s).

Definition bind {A B} (m : M A) (k : A → M B) : M B :=
  λ s, match m s with
       | (Ok a, s') => k a s'
       | (Raise e, s') => (Raise e, s')
       end.

Definition raise {A} (e : Exn) : M A := λ s, (Raise e, s).

(** [try: m  except Exception as e: h e] *)
Definition try_except {A} (m : M A) (h : Exn → M A) : M A :=
  λ s, match m s with
       | (Ok a, s') => (Ok a, s')
       | (Raise e, s') => h e s'
       end.

(** Reading an attribute of [self]. *)
Definition reads {A} (f : BatchProcessor → A) : M A := λ s, (Ok (f s), s).
Definition modify (f : BatchProcessor → BatchProcessor) : M unit := λ s, (Ok tt, f s).
Definition lift {A} (r : Res A) : M A := λ s, (r, s).

Notation "'let*' x ':=' m 'in' k" := (bind m (λ x, k))
  (at level 10, x name, m at level 100, k at level 200, only parsing).

Instance BatchJob_inhabited : Inhabited BatchJob := populate (new_BatchJob "" [] [] None).

(** Reading and mutating the object a reference points to. *)
Definition deref (r : nat) : M BatchJob := reads (λ s, objects s !!! r).
Definition mutate (r : nat) (f : BatchJob → BatchJob) : M unit :=
  modify (with_objects (alter f r)).
Definition set_task (r : nat) (t : DriverTask) : M unit :=
  modify (with_tasks <[r := t]>).

(** ** Python primitives *)

(** Truth value of an [Optional[float]] of the processor's state ([f_truthy]
    in the exact reading): [None] and [0.0] are falsy. *)
Definition truthy (o : option Q) : bool :=
  match o with
  | Some q => negb (Qeq_bool q 0)
  | None => false
  end.

(** [a - b] on two [Optional[float]] attributes. *)
Definition py_sub (a b : option Q) : Res Q :=
  match a, b with
  | Some x, Some y => Ok (x - y)%Q
  | _, _ => Raise (TypeError "unsupported operand type(s) for -")
  end.

(** [d[k]] and [del d[k]] on a dict. *)
Definition py_getitem {V} (d : gmap string V) (k : string) : Res V :=
  match d !! k with
  | Some v => Ok v
  | None => Raise (KeyError k)
  end.

Definition py_contains {V} (d : gmap string V) (k : string) : bool :=
  bool_decide (is_Some (d !! k)).

Definition del_active_job (k : string) : M unit :=
  let* active := reads active_jobs in
  if py_contains active k
  then modify (with_active_jobs (delete k))
  else raise (KeyError k).

(** ** [BatchProcessor.__init__] *)

(** [ThreadPoolExecutor(max_workers=...)] raises [ValueError] unless
    [max_workers > 0]. *)
Definition BatchProcessor_init (max_concurrent_jobs max_workers_ : nat) : Res BatchProcessor :=
  if (max_workers_ =? 0)%nat
  then Raise (ValueError "max_workers must be greater than 0")
  else Ok {| max_concurrent := max_concurrent_jobs; max_workers := max_workers_;
             objects := ∅; active_jobs := ∅; job_history := [];
             progress_callbacks := ∅; completion_callbacks := ∅;
             result_files := ∅; tasks := ∅ |}.

(** The module-level [batch_processor = BatchProcessor()]. *)
Definition batch_processor : BatchProcessor :=
  {| max_concurrent := 3; max_workers := 4;
     objects := ∅; active_jobs := ∅; job_history := [];
     progress_callbacks := ∅; completion_callbacks := ∅;
     result_files := ∅; tasks := ∅ |}.

(** ** [submit_batch_job] *)

(** [f"batch_{int(time.time() * 1000)}"], line 88; the clock reading is a
    double and so is its product with 1000. *)
Definition make_job_id (now_ : float) : Res string :=
  match py_int (now_ * 1000)%float with
  | Ok ms => Ok ("batch_" +:+ pretty ms)
  | Raise e => Raise e
  end.

(** The attributes of the module-level [analytics = UsageAnalytics()]
    (analytics.py, lines 277-317): the instance attribute [tracker] and the
    methods of the class, which defines no [__getattr__]. *)
Definition UsageAnalytics_attributes : list string :=
  ["tracker"; "track_document_processed"; "track_chat_interaction"; "track_file_upload";
   "get_dashboard_data"; "add_user_feedback"; "generate_report"].

(** The attribute lookup [analytics.<name>]. *)
Definition analytics_getattr (name : string) : Res unit :=
  if bool_decide (name ∈ UsageAnalytics_attributes) then Ok tt
  else Raise (AttributeError
                ("'UsageAnalytics' object has no attribute '" +:+ name +:+ "'")).

(** Allocation of a new object: a reference not yet in the store. *)
Definition alloc (j : BatchJob) : M nat :=
  λ s, let r := fresh (dom (objects s)) in
       (Ok r, with_objects <[r := j]> s).

(** [submit_batch_job], lines 88-107.  The call of line 105 looks up
    [track_feature_usage] on [analytics]; [PerformanceTracker] has such a
    method, [UsageAnalytics] has not. *)
Definition submit_batch_job (fps ats : list string) (cp : option string) (now_ : float)
  : M string :=
  let* jid := lift (make_job_id now_) in
  let* job := alloc (new_BatchJob jid fps ats cp) in
  let* _ := modify (with_active_jobs <[jid := job]>) in
  (* asyncio.create_task(self._process_batch_job(job)) *)
  let* _ := set_task job AtStart in
  let* _ := lift (analytics_getattr "track_feature_usage") in
  ret jid.

(** ** The driver: [_process_batch_job] and what it calls *)

(** What a driver step reads from outside the processor: the clock in the
    body ([now]) and in the [except] handler ([now_exc]), the outcome of the
    future being collected ([future.result(timeout=300)]: a payload, or the
    exception of the work unit or the timeout), and whether writing the result
    file fails. *)
Record Env := {
  now : Q;
  now_exc : Q;
  outcome : Res Payload;
  write_error : option Exn
}.

Definition call_callback (r : option Exn) : M unit :=
  match r with
  | Some e => raise e
  | None => ret tt
  end.

(** [batch_size = min(self.max_workers, 4)] *)
Definition batch_size (s : BatchProcessor) : nat := Nat.min (max_workers s) 4.

Definition make_job_data (job : BatchJob) : JobData :=
  {| d_job_id := job_id job;
     d_file_paths := file_paths job;
     d_analysis_types := analysis_types job;
     d_custom_prompt := custom_prompt job;
     d_status := status_value (status job);
     d_progress := progress job;
     d_start_time := start_time job;
     d_end_time := end_time job;
     d_processing_time :=
       if truthy (end_time job) && truthy (start_time job)
       then match py_sub (end_time job) (start_time job) with
            | Ok d => Some d
            | Raise _ => None
            end
       else None;
     d_results := results job;
     d_errors := errors job;
     d_summary :=
       {| total_files := length (file_paths job);
          successful_files := length (filter (λ e, is_success e = true) (results job));
          failed_files := length (filter (λ e, is_error e = true) (results job));
          total_errors := length (errors job) |} |}.

(** [_save_job_results]: the whole body is inside [try ... except Exception],
    whose handler only logs. *)
Definition save_job_results (r : nat) (env : Env) : M unit :=
  try_except
    (let* job := deref r in
     let results_file := "job_" +:+ job_id job +:+ ".json" in
     let job_data := make_job_data job in
     match write_error env with
     | Some e => raise e
     | None => modify (with_result_files <[results_file := (now env, job_data)]>)
     end)
    (λ _, ret tt).

(** The [except Exception as e] branch of [_process_batch_job]. *)
Definition process_batch_job_handler (r : nat) (env : Env) (e : Exn) : M unit :=
  let* _ := mutate r (set_status FAILED) in
  let* _ := mutate r (set_end_time (now_exc env)) in
  let* _ := mutate r (append_error (str_exn e)) in
  let* _ := modify (with_job_history (λ h, (h ++ [r])%list)) in
  let* job := deref r in
  let* active := reads active_jobs in
  let* _ := (if py_contains active (job_id job)
             then modify (with_active_jobs (delete (job_id job)))
             else ret tt) in
  set_task r Finished.

(** Lines 112-113 and the entry of [_process_files_with_progress]; the
    [range(0, total_files, batch_size)] object raises on a zero step. *)
Definition driver_start (r : nat) (env : Env) : M unit :=
  let* _ := mutate r (set_status PROCESSING) in
  let* _ := mutate r (set_start_time (now env)) in
  let* size := reads batch_size in
  if (size =? 0)%nat
  then raise (ValueError "range() arg 3 must not be zero")
  else set_task r (AtLoop 0 0).

(** One sub-batch is handed to the thread pool:
    [batch_files = job.file_paths[i:i + batch_size]] and an
    [executor.submit] per file. *)
Definition driver_dispatch (r i completed : nat) : M unit :=
  let* job := deref r in
  let* size := reads batch_size in
  let batch_files := take size (drop i (file_paths job)) in
  set_task r (AtCollect i batch_files completed).

(** Lines 121-139: the job is completed, saved and moved to history. *)
Definition driver_finish (r : nat) (env : Env) : M unit :=
  let* _ := mutate r (set_status COMPLETED) in
  let* _ := mutate r (set_end_time (now env)) in
  let* _ := mutate r (set_progress 100) in
  let* _ := save_job_results r env in
  let* _ := modify (with_job_history (λ h, (h ++ [r])%list)) in
  let* job := deref r in
  let* _ := del_active_job (job_id job) in
  let* callbacks := reads completion_callbacks in
  let* _ := (match callbacks !! job_id job with
             | Some cb => call_callback (cb job)
             | None => ret tt
             end) in
  let* _ := lift (py_sub (end_time job) (start_time job)) in
  set_task r Finished.

(** One turn of the inner loop, lines 177-199: the next future of the
    sub-batch is collected. *)
Definition driver_collect (r i : nat) (file_path : string) (rest : list string)
    (completed : nat) (env : Env) : M unit :=
  let* _ := (match outcome env with
             | Ok result => mutate r (append_result (SuccessEntry file_path result))
             | Raise e =>
                 let* _ := mutate r (append_error
                              ("Error processing " +:+ file_path +:+ ": " +:+ str_exn e)) in
                 mutate r (append_result (ErrorEntry file_path (str_exn e)))
             end) in
  let* job := deref r in
  let total := length (file_paths job) in
  let completed' := S completed in
  let* p := lift (progress_after completed' total) in
  let* _ := mutate r (set_progress p) in
  let* job := deref r in
  let* callbacks := reads progress_callbacks in
  let* _ := (match callbacks !! job_id job with
             | Some cb => call_callback (cb (progress job) completed' total)
             | None => ret tt
             end) in
  let* size := reads batch_size in
  match rest with
  | [] => set_task r (AtLoop (i + size) completed')
  | _ :: _ => set_task r (AtCollect i rest completed')
  end.

(** The body of the [try] from the task's current program point up to its
    next one. *)
Definition driver_body (r : nat) (t : DriverTask) (env : Env) : M unit :=
  match t with
  | AtStart => driver_start r env
  | AtLoop i completed =>
      let* job := deref r in
      if (i <? length (file_paths job))%nat
      then driver_dispatch r i completed
      else driver_finish r env
  | AtCollect i (file_path :: rest) completed =>
      driver_collect r i file_path rest completed env
  | AtCollect i [] completed =>
      let* size := reads batch_size in set_task r (AtLoop (i + size) completed)
  | Finished => ret tt
  end.

(** One step of the driver task of the job object [r]. *)
Definition driver_step (r : nat) (env : Env) : M unit :=
  let* ts := reads tasks in
  match ts !! r with
  | Some t => try_except (driver_body r t env) (process_batch_job_handler r env)
  | None => ret tt
  end.

(** ** Queries and the other operations *)

Inductive StatusDict :=
  | ActiveStatus (sd_job_id : string) (sd_status : string) (sd_progress : Q)
      (files_total files_completed n_errors : nat) (sd_start_time : option Q)
      (estimated_completion : option Q)
  | HistoryStatus (sd_job_id : string) (sd_status : string) (sd_progress : Q)
      (files_total files_completed n_errors : nat) (sd_start_time sd_end_time : option Q)
      (sd_processing_time : option Q).

(** [_estimate_completion_time(job)], lines 304-313, as a function of what
    it reads: [job.progress], [job.start_time] and the clock.  The int 0 that
    [max] returns is given as a float. *)
Definition estimate_completion_time {F} `{Arith F}
    (job_progress : F) (job_start_time : option F) (now_ : F) : Res (option F) :=
  if f_eqb job_progress (of_int 0) || negb (f_truthy job_start_time)
  then Ok None
  else
    match job_start_time with
    | None => Raise (TypeError "unsupported operand type(s) for -")
    | Some st =>
        let elapsed_time := f_sub now_ st in
        match f_truediv elapsed_time (f_div job_progress (of_int 100)) with
        | Raise e => Raise e
        | Ok estimated_total_time =>
            let estimated_remaining := f_sub estimated_total_time elapsed_time in
            Ok (Some (f_max0 estimated_remaining))
        end
    end.

(** [job.end_time - job.start_time if job.end_time and job.start_time else None] *)
Definition processing_time_of (job : BatchJob) : Res (option Q) :=
  if truthy (end_time job) && truthy (start_time job)
  then match py_sub (end_time job) (start_time job) with
       | Ok d => Ok (Some d)
       | Raise e => Raise e
       end
  else Ok None.

(** The [for job in self.job_history] loop of [get_job_status]. *)
Fixpoint find_in_history (objs : gmap nat BatchJob) (h : list nat) (jid : string)
  : Res (option StatusDict) :=
  match h with
  | [] => Ok None
  | r :: h' =>
      let job := objs !!! r in
      if String.eqb (job_id job) jid
      then match processing_time_of job with
           | Raise e => Raise e
           | Ok pt =>
               Ok (Some (HistoryStatus (job_id job) (status_value (status job))
                           (progress job) (length (file_paths job))
                           (length (results job)) (length (errors job))
                           (start_time job) (end_time job) pt))
           end
      else find_in_history objs h' jid
  end.

Definition get_job_status (s : BatchProcessor) (jid : string) (now_ : Q)
  : Res (option StatusDict) :=
  if py_contains (active_jobs s) jid
  then
    match py_getitem (active_jobs s) jid with
    | Raise e => Raise e
    | Ok r =>
        let job := objects s !!! r in
        match estimate_completion_time (progress job) (start_time job) now_ with
        | Raise e => Raise e
        | Ok est =>
            Ok (Some (ActiveStatus (job_id job) (status_value (status job))
                        (progress job) (length (file_paths job))
                        (length (results job)) (length (errors job))
                        (start_time job) est))
        end
    end
  else find_in_history (objects s) (job_history s) jid.

Definition cancel_job (jid : string) (now_ : Q) : M bool :=
  let* active := reads active_jobs in
  if py_contains active jid
  then
    let* job := lift (py_getitem active jid) in
    let* _ := mutate job (set_status CANCELLED) in
    let* _ := mutate job (set_end_time now_) in
    let* _ := modify (with_job_history (λ h, (h ++ [job])%list)) in
    let* _ := del_active_job jid in
    ret true
  else ret false.

(** [cleanup_old_jobs]; a result file carries its modification time. *)
Definition cleanup_old_jobs (days_old : Z) (now_ : Q) : M unit :=
  let cutoff_time := (now_ - inject_Z (days_old * 24 * 3600))%Q in
  let* objs := reads objects in
  let keep (r : nat) : bool :=
    match end_time (objs !!! r) with
    | Some t => negb (Qeq_bool t 0) && negb (Qle_bool t cutoff_time)
    | None => false
    end in
  let* _ := modify (with_job_history (List.filter keep)) in
  modify (with_result_files
            (filter (λ kv, Qle_bool cutoff_time (fst (snd kv)) = true))).

Definition register_progress_callback (jid : string) (cb : ProgressCallback) : M unit :=
  modify (with_progress_callbacks <[jid := cb]>).

Definition register_completion_callback (jid : string) (cb : CompletionCallback) : M unit :=
  modify (with_completion_callbacks <[jid := cb]>).

(** ** The processor as a transition system *)

Inductive Event :=
  | Submit (fps ats : list string) (cp : option string) (now_ : float)
  | DriverStep (r : nat) (env : Env)
  | Cancel (jid : string) (now_ : Q)
  | Cleanup (days_old : Z) (now_ : Q)
  | RegisterProgress (jid : string) (cb : ProgressCallback)
  | RegisterCompletion (jid : string) (cb : CompletionCallback).

Definition step (s : BatchProcessor) (ev : Event) : BatchProcessor :=
  match ev with
  | Submit fps ats cp t => snd (submit_batch_job fps ats cp t s)
  | DriverStep r env => snd (driver_step r env s)
  | Cancel jid t => snd (cancel_job jid t s)
  | Cleanup d t => snd (cleanup_old_jobs d t s)
  | RegisterProgress jid cb => snd (register_progress_callback jid cb s)
  | RegisterCompletion jid cb => snd (register_completion_callback jid cb s)
  end.

Definition run (s : BatchProcessor) (evs : list Event) : BatchProcessor :=
  fold_left step evs s.

(** States of a processor built by [__init__] and driven by any sequence of
    calls and driver steps. *)
Definition reachable (s : BatchProcessor) : Prop :=
  ∃ mc mw s0 evs, BatchProcessor_init mc mw = Ok s0 ∧ s = run s0 evs.

(** ** Whole runs of one driver *)

(** The surroundings of a run: the work unit at position [c] of the file list
    behaves as [work c file_path]; the clock and the disk are read at each
    step [k]. *)
Record World := {
  work : nat → string → Res Payload;
  clock : nat → Q;
  clock_exc : nat → Q;
  disk : nat → option Exn
}.

Definition env_at (w : World) (k : nat) (t : DriverTask) : Env :=
  {| now := clock w k;
     now_exc := clock_exc w k;
     outcome := match t with
                | AtCollect _ (file_path :: _) c => work w c file_path
                | _ => Raise TimeoutError
                end;
     write_error := disk w k |}.

(** The driver of [r] runs alone, from its current program point, for at most
    [fuel] steps; [k] numbers the steps. *)
Fixpoint drive (w : World) (fuel k r : nat) (s : BatchProcessor) : BatchProcessor :=
  match fuel with
  | O => s
  | S fuel' =>
      match tasks s !! r with
      | Some Finished | None => s
      | Some t => drive w fuel' (S k) r (snd (driver_step r (env_at w k t) s))
      end
  end.

(** What the report of a run over the files [fs], the first of which is at
    position [c], is expected to hold. *)
Definition entry_of (file_path : string) (o : Res Payload) : ResultEntry :=
  match o with
  | Ok p => SuccessEntry file_path p
  | Raise e => ErrorEntry file_path (str_exn e)
  end.

Definition error_of (file_path : string) (o : Res Payload) : list string :=
  match o with
  | Ok _ => []
  | Raise e => ["Error processing " +:+ file_path +:+ ": " +:+ str_exn e]
  end.

Fixpoint expected_results (wk : nat → string → Res Payload) (c : nat) (fs : list string)
  : list ResultEntry :=
  match fs with
  | [] => []
  | f :: rest => entry_of f (wk c f) :: expected_results wk (S c) rest
  end.

Fixpoint expected_errors (wk : nat → string → Res Payload) (c : nat) (fs : list string)
  : list string :=
  match fs with
  | [] => []
  | f :: rest => (error_of f (wk c f) ++ expected_errors wk (S c) rest)%list
  end.

(** The number of files whose work unit raises. *)
Fixpoint failures (wk : nat → string → Res Payload) (c : nat) (fs : list string) : nat :=
  match fs with
  | [] => 0
  | f :: rest => ((if is_ok (wk c f) then 0 else 1) + failures wk (S c) rest)%nat
  end.

(** ** Observations used in the statements *)

Definition in_active (s : BatchProcessor) (r : nat) : Prop :=
  ∃ k, active_jobs s !! k = Some r.

Definition in_history (s : BatchProcessor) (r : nat) : Prop :=
  r ∈ job_history s.

Definition is_cleanup (ev : Event) : bool :=
  match ev with Cleanup _ _ => true | _ => false end.

(** A step that completes the terminal transition of [r]: an accepted
    [cancel_job], or the driver step that leaves the task finished. *)
Definition terminal_transition (s : BatchProcessor) (ev : Event) (r : nat) : Prop :=
  match ev with
  | Cancel jid _ => active_jobs s !! jid = Some r
  | DriverStep r' _ =>
      r' = r ∧ (∃ t, tasks s !! r = Some t ∧ t ≠ Finished) ∧
      tasks (step s ev) !! r = Some Finished
  | _ => False
  end.

(** No job with identifier [jid] is in the active set or in history. *)
Definition unknown_job (s : BatchProcessor) (jid : string) : Prop :=
  active_jobs s !! jid = None ∧
  ∀ r, r ∈ job_history s → job_id (objects s !!! r) ≠ jid.

Definition known_job (s : BatchProcessor) (jid : string) : Prop :=
  is_Some (active_jobs s !! jid) ∨
  ∃ r, r ∈ job_history s ∧ job_id (objects s !!! r) = jid.

Definition sd_id (d : StatusDict) : string :=
  match d with
  | ActiveStatus jid _ _ _ _ _ _ _ => jid
  | HistoryStatus jid _ _ _ _ _ _ _ _ => jid
  end.

Definition sd_is_active (d : StatusDict) : bool :=
  match d with
  | ActiveStatus _ _ _ _ _ _ _ _ => true
  | HistoryStatus _ _ _ _ _ _ _ _ _ => false
  end.

(** Two processors that differ at most in the files on disk. *)
Definition same_memory (s1 s2 : BatchProcessor) : Prop :=
  max_concurrent s1 = max_concurrent s2 ∧ max_workers s1 = max_workers s2 ∧
  objects s1 = objects s2 ∧ active_jobs s1 = active_jobs s2 ∧
  job_history s1 = job_history s2 ∧
  progress_callbacks s1 = progress_callbacks s2 ∧
  completion_callbacks s1 = completion_callbacks s2 ∧
  tasks s1 = tasks s2.

Definition with_write_error (o : option Exn) (env : Env) : Env :=
  {| now := now env; now_exc := now_exc env; outcome := outcome env; write_error := o |}.

(** Two computations that, run from processors with the same memory, return
    the same and leave processors with the same memory. *)
Definition agree {A} (m1 m2 : M A) : Prop :=
  ∀ s1 s2, same_memory s1 s2 →
    fst (m1 s1) = fst (m2 s2) ∧ same_memory (snd (m1 s1)) (snd (m2 s2)).

(** ** The job updates of the driver, and the invariant of the processor *)

(** The processor [s] with the object and the task of [r], the history, the
    active set and the files replaced. *)
Definition nf (s : BatchProcessor) (r : nat) (j : BatchJob) (t : DriverTask)
    (h : list nat) (a : gmap string nat) (fl : gmap string (Q * JobData)) : BatchProcessor :=
  {| max_concurrent := max_concurrent s; max_workers := max_workers s;
     objects := <[r := j]> (objects s); active_jobs := a; job_history := h;
     progress_callbacks := progress_callbacks s;
     completion_callbacks := completion_callbacks s;
     result_files := fl; tasks := <[r := t]> (tasks s) |}.

Definition started (t : Q) (j : BatchJob) : BatchJob :=
  set_start_time t (set_status PROCESSING j).

Definition completed (t : Q) (j : BatchJob) : BatchJob :=
  set_progress 100 (set_end_time t (set_status COMPLETED j)).

Definition failed (e : Exn) (t : Q) (j : BatchJob) : BatchJob :=
  append_error (str_exn e) (set_end_time t (set_status FAILED j)).

Definition record_outcome (file_path : string) (o : Res Payload) (j : BatchJob) : BatchJob :=
  match o with
  | Ok result => append_result (SuccessEntry file_path result) j
  | Raise e =>
      append_result (ErrorEntry file_path (str_exn e))
        (append_error ("Error processing " +:+ file_path +:+ ": " +:+ str_exn e) j)
  end.

Definition nat_Q (n : nat) : Q := inject_Z (Z.of_nat n).

(** What relates a job object to the program point of its driver. *)
Definition job_ok (size : nat) (j : BatchJob) (t : DriverTask) : Prop :=
  (0 <= progress j)%Q ∧ (progress j <= 100)%Q ∧
  (status j = PENDING → t = AtStart) ∧
  (status j = COMPLETED → t = Finished ∧ (progress j == 100)%Q) ∧
  match t with
  | AtStart => (progress j == 0)%Q
  | AtLoop i c =>
      (c ≤ i)%nat ∧ (c ≤ length (file_paths j))%nat ∧
      (c = 0%nat → (progress j == 0)%Q) ∧
      (progress j * nat_Q (length (file_paths j)) == 100 * nat_Q c)%Q
  | AtCollect i fs c =>
      (c + length fs ≤ length (file_paths j))%nat ∧ (c + length fs ≤ i + size)%nat ∧
      (c = 0%nat → (progress j == 0)%Q) ∧
      (progress j * nat_Q (length (file_paths j)) == 100 * nat_Q c)%Q
  | Finished => True
  end.

Record Inv (s : BatchProcessor) : Prop := {
  inv_active : ∀ k r, active_jobs s !! k = Some r →
                 ∃ j, objects s !! r = Some j ∧ job_id j = k;
  inv_history : ∀ r, r ∈ job_history s →
                  is_Some (objects s !! r) ∧ ∀ k, active_jobs s !! k ≠ Some r;
  inv_tasks : ∀ r, is_Some (tasks s !! r) → is_Some (objects s !! r);
  inv_jobs : ∀ r j, objects s !! r = Some j →
               ∃ t, tasks s !! r = Some t ∧ job_ok (batch_size s) j t
}.

(** What one driver step of [r] does to a processor in which [r] is the job
    [j] at program point [t]. *)
Definition step_summary (s s' : BatchProcessor) (r : nat) (j : BatchJob) (t : DriverTask)
  : Prop :=
  ∃ j' t' n,
    objects s' = <[r := j']> (objects s) ∧
    tasks s' = <[r := t']> (tasks s) ∧
    job_history s' = (job_history s ++ replicate n r)%list ∧
    active_jobs s' = (if (n =? 0)%nat then active_jobs s
                      else delete (job_id j) (active_jobs s)) ∧
    max_workers s' = max_workers s ∧
    job_id j' = job_id j ∧ file_paths j' = file_paths j ∧
    (t ≠ Finished → t' = Finished → (0 < n)%nat) ∧
    (job_ok (batch_size s) j t →
       job_ok (batch_size s) j' t' ∧ (progress j <= progress j')%Q).

(** A step that leaves the job objects, the tasks and the active set alone
    and adds nothing to the history. *)
Definition quiet_step (s s' : BatchProcessor) : Prop :=
  objects s' = objects s ∧ tasks s' = tasks s ∧ active_jobs s' = active_jobs s ∧
  max_workers s' = max_workers s ∧
  ∀ r, r ∈ job_history s' → r ∈ job_history s.

(** A step that registers a new job object. *)
Definition submit_step (s s' : BatchProcessor) : Prop :=
  ∃ r jid fps ats cp,
    objects s !! r = None ∧
    objects s' = <[r := new_BatchJob jid fps ats cp]> (objects s) ∧
    tasks s' = <[r := AtStart]> (tasks s) ∧
    active_jobs s' = <[jid := r]> (active_jobs s) ∧
    job_history s' = job_history s ∧
    max_workers s' = max_workers s.

(** The driver's [completed_files] while it is in the loop. *)
Definition completed_count (t : DriverTask) : option nat :=
  match t with
  | AtLoop _ c => Some c
  | AtCollect _ _ c => Some c
  | AtStart | Finished => None
  end.

(** The job after the files [fs], the first of which is at position [c] of a
    list of [n] files, have been collected. *)
Fixpoint collect_all (wk : nat → string → Res Payload) (n c : nat) (fs : list string)
    (j : BatchJob) : BatchJob :=
  match fs with
  | [] => j
  | f :: rest =>
      collect_all wk n (S c) rest
        (set_progress (nat_Q (S c) / nat_Q n * 100) (record_outcome f (wk c f) j))
  end.

(** The callbacks registered for [jid], if any, return normally. *)
Definition callbacks_return (s : BatchProcessor) (jid : string) : Prop :=
  (∀ cb, progress_callbacks s !! jid = Some cb → ∀ p c n, cb p c n = None) ∧
  (∀ cb, completion_callbacks s !! jid = Some cb → ∀ j, cb j = None).

(** ** The design document's statements that the code does not meet *)

(** Submission of an empty file list fails, and creates no job: it leaves the
    job objects, the active set and the tasks alone. *)
Definition submit_rejects_empty (s : BatchProcessor) (ats : list string)
    (cp : option string) (t : float) : Prop :=
  is_ok (fst (submit_batch_job [] ats cp t s)) = false ∧
  objects (snd (submit_batch_job [] ats cp t s)) = objects s ∧
  active_jobs (snd (submit_batch_job [] ats cp t s)) = active_jobs s ∧
  tasks (snd (submit_batch_job [] ats cp t s)) = tasks s.

(** Two submissions, one after the other, give their jobs different
    identifiers. *)
Definition ids_differ (s : BatchProcessor) (fps1 ats1 : list string) (cp1 : option string)
    (t1 : float) (fps2 ats2 : list string) (cp2 : option string) (t2 : float) : Prop :=
  let s1 := snd (submit_batch_job fps1 ats1 cp1 t1 s) in
  let s2 := snd (submit_batch_job fps2 ats2 cp2 t2 s1) in
  job_id (objects s2 !!! fresh (dom (objects s))) ≠
  job_id (objects s2 !!! fresh (dom (objects s1))).


(** Progress as a fraction: within [0, 1], and 1 on a completed job. *)
Definition progress_is_fraction (s : BatchProcessor) : Prop :=
  ∀ r j, objects s !! r = Some j →
    (0 <= progress j)%Q ∧ (progress j <= 1)%Q ∧
    (status j = COMPLETED → (progress j == 1)%Q).

(** A job whose terminal transition is done is in exactly one of the two
    collections. *)
Definition in_exactly_one (s : BatchProcessor) (r : nat) : Prop :=
  (in_active s r ∧ ¬ in_history s r) ∨ (in_history s r ∧ ¬ in_active s r).

(** Whether the next step of the driver of [r] hands a further sub-batch to
    the pool (what must not happen once a cancellation has been accepted). *)
Definition dispatches_next (s : BatchProcessor) (r : nat) : bool :=
  match tasks s !! r with
  | Some (AtLoop i _) => (i <? length (file_paths (objects s !!! r)))%nat
  | _ => false
  end.

(** ** Concrete scenarios *)

Definition sample_payload (f : string) : Payload :=
  {| p_file_path := f; p_analysis_types := ["document"];
     extracted_text := "Extracted content from " +:+ f;
     confidence := 95 # 100; processing_time := 2; file_size := 0;
     timestamp := 10; custom_analysis := None |}.

Definition env_ok (f : string) (t : Q) : Env :=
  {| now := t; now_exc := t; outcome := Ok (sample_payload f); write_error := None |}.

Definition five_files : list string := ["a.png"; "b.png"; "c.png"; "d.png"; "e.png"].

(** Five files are submitted at time 1 and the first sub-batch of four is
    processed. *)
Definition first_batch_done : BatchProcessor :=
  run batch_processor
    [Submit five_files ["document"] None 1;
     DriverStep 0 (env_ok "" 2); DriverStep 0 (env_ok "" 2);
     DriverStep 0 (env_ok "a.png" 3); DriverStep 0 (env_ok "b.png" 3);
     DriverStep 0 (env_ok "c.png" 3); DriverStep 0 (env_ok "d.png" 3)].

(** ... then the job is cancelled from another thread ... *)
Definition cancelled_midway : BatchProcessor :=
  step first_batch_done (Cancel "batch_1000" 4).

(** ... and the driver goes on to the end. *)
Definition after_cancelled_run : BatchProcessor :=
  run cancelled_midway
    [DriverStep 0 (env_ok "" 5); DriverStep 0 (env_ok "e.png" 6); DriverStep 0 (env_ok "" 7)].

(** One file is submitted and processed to the end; thirty-one days later the
    history is cleaned. *)
Definition one_file_done : BatchProcessor :=
  run batch_processor
    [Submit ["a.png"] ["document"] None 1;
     DriverStep 0 (env_ok "" 2); DriverStep 0 (env_ok "" 2);
     DriverStep 0 (env_ok "a.png" 3); DriverStep 0 (env_ok "" 4)].

Definition thirty_one_days : Q := inject_Z (31 * 24 * 3600).

(** The one-file run just before the driver's last step, and after the
    clean-up that follows the run. *)
Definition one_file_collected : BatchProcessor :=
  run batch_processor
    [Submit ["a.png"] ["document"] None 1;
     DriverStep 0 (env_ok "" 2); DriverStep 0 (env_ok "" 2);
     DriverStep 0 (env_ok "a.png" 3)].

Definition one_file_evicted : BatchProcessor :=
  run (step one_file_collected (DriverStep 0 (env_ok "" 4)))
    [Cleanup 30 thirty_one_days].

(** A job of five files, and a job of no files, just submitted. *)
Definition five_submitted : BatchProcessor :=
  step batch_processor (Submit five_files ["document"] None 1).

Definition empty_submitted : BatchProcessor :=
  step batch_processor (Submit [] ["document"] None 1).

Definition sample_world : World :=
  {| work := λ c f, if (c =? 1)%nat then Raise TimeoutError else Ok (sample_payload f);
     clock := λ k, (inject_Z (Z.of_nat k) + 2)%Q;
     clock_exc := λ k, (inject_Z (Z.of_nat k) + 2)%Q;
     disk := λ _, None |}.

(** ** The listings: [get_active_jobs] and [get_job_history] *)

Record ActiveSummary := {
  as_job_id : string;
  as_status : string;
  as_progress : Q;
  as_files_total : nat;
  as_start_time : option Q
}.

Record HistorySummary := {
  hs_job_id : string;
  hs_status : string;
  hs_files_total : nat;
  hs_start_time : option Q;
  hs_end_time : option Q;
  hs_processing_time : option Q
}.

Definition active_summary (job : BatchJob) : ActiveSummary :=
  {| as_job_id := job_id job;
     as_status := status_value (status job);
     as_progress := progress job;
     as_files_total := length (file_paths job);
     as_start_time := start_time job |}.

(** [get_active_jobs]: one summary per value of [self.active_jobs].  The list
    is the one of [map_to_list]; Python's insertion order is not represented,
    so only statements that do not depend on the order are made about it. *)
Definition get_active_jobs (s : BatchProcessor) : list ActiveSummary :=
  (λ kr, active_summary (objects s !!! kr.2)) <$> map_to_list (active_jobs s).

(** [l[start:]] for an integer [start]: a negative start counts from the end
    and is clipped at the beginning of the list. *)
Definition py_slice_from {A} (start : Z) (l : list A) : list A :=
  if (start <? 0)%Z
  then drop (Z.to_nat (Z.max (Z.of_nat (length l) + start) 0)) l
  else drop (Z.to_nat start) l.

Definition history_summary (job : BatchJob) : Res HistorySummary :=
  match processing_time_of job with
  | Raise e => Raise e
  | Ok pt =>
      Ok {| hs_job_id := job_id job;
            hs_status := status_value (status job);
            hs_files_total := length (file_paths job);
            hs_start_time := start_time job;
            hs_end_time := end_time job;
            hs_processing_time := pt |}
  end.

(** The list comprehension of [get_job_history]. *)
Fixpoint history_summaries (objs : gmap nat BatchJob) (h : list nat)
  : Res (list HistorySummary) :=
  match h with
  | [] => Ok []
  | r :: h' =>
      match history_summary (objs !!! r) with
      | Raise e => Raise e
      | Ok x =>
          match history_summaries objs h' with
          | Raise e => Raise e
          | Ok xs => Ok (x :: xs)
          end
      end
  end.

(** [get_job_history(limit)]: the summaries of [self.job_history[-limit:]]. *)
Definition get_job_history (s : BatchProcessor) (limit : Z) : Res (list HistorySummary) :=
  history_summaries (objects s) (py_slice_from (- limit) (job_history s)).

(** ** One driver step, case by case *)

Definition collected (c : nat) (file_path : string) (o : Res Payload) (j : BatchJob)
  : BatchJob :=
  set_progress (nat_Q (S c) / nat_Q (length (file_paths j)) * 100)
    (record_outcome file_path o j).

Definition next_task (size i : nat) (rest : list string) (c : nat) : DriverTask :=
  match rest with
  | [] => AtLoop (i + size) (S c)
  | _ :: _ => AtCollect i rest (S c)
  end.

(** [step_case s env j t j' t' n]: in the processor [s], a driver step of a
    job [j] at program point [t] leaves the job [j'] at [t'] and appends it
    [n] times to the history. *)
Inductive step_case (s : BatchProcessor) (env : Env) (j : BatchJob)
  : DriverTask → BatchJob → DriverTask → nat → Prop :=
  | case_start :
      batch_size s ≠ 0%nat →
      step_case s env j AtStart (started (now env) j) (AtLoop 0 0) 0
  | case_start_raise :
      batch_size s = 0%nat →
      step_case s env j AtStart
        (failed (ValueError "range() arg 3 must not be zero") (now_exc env)
           (started (now env) j)) Finished 1
  | case_dispatch i c :
      (i < length (file_paths j))%nat →
      step_case s env j (AtLoop i c) j
        (AtCollect i (take (batch_size s) (drop i (file_paths j))) c) 0
  | case_finish i c st :
      (length (file_paths j) ≤ i)%nat →
      is_Some (active_jobs s !! job_id j) →
      (∀ cb, completion_callbacks s !! job_id j = Some cb →
             cb (completed (now env) j) = None) →
      start_time j = Some st →
      step_case s env j (AtLoop i c) (completed (now env) j) Finished 1
  | case_finish_not_active i c :
      (length (file_paths j) ≤ i)%nat →
      active_jobs s !! job_id j = None →
      step_case s env j (AtLoop i c)
        (failed (KeyError (job_id j)) (now_exc env) (completed (now env) j)) Finished 2
  | case_finish_callback i c cb e :
      (length (file_paths j) ≤ i)%nat →
      is_Some (active_jobs s !! job_id j) →
      completion_callbacks s !! job_id j = Some cb →
      cb (completed (now env) j) = Some e →
      step_case s env j (AtLoop i c)
        (failed e (now_exc env) (completed (now env) j)) Finished 2
  | case_finish_not_started i c :
      (length (file_paths j) ≤ i)%nat →
      is_Some (active_jobs s !! job_id j) →
      (∀ cb, completion_callbacks s !! job_id j = Some cb →
             cb (completed (now env) j) = None) →
      start_time j = None →
      step_case s env j (AtLoop i c)
        (failed (TypeError "unsupported operand type(s) for -") (now_exc env)
           (completed (now env) j)) Finished 2
  | case_collect i f rest c :
      length (file_paths j) ≠ 0%nat →
      (∀ cb, progress_callbacks s !! job_id j = Some cb →
             cb (progress (collected c f (outcome env) j)) (S c)
                (length (file_paths j)) = None) →
      step_case s env j (AtCollect i (f :: rest) c)
        (collected c f (outcome env) j) (next_task (batch_size s) i rest c) 0
  | case_collect_no_files i f rest c :
      length (file_paths j) = 0%nat →
      step_case s env j (AtCollect i (f :: rest) c)
        (failed ZeroDivisionError (now_exc env) (record_outcome f (outcome env) j))
        Finished 1
  | case_collect_callback i f rest c cb e :
      length (file_paths j) ≠ 0%nat →
      progress_callbacks s !! job_id j = Some cb →
      cb (progress (collected c f (outcome env) j)) (S c) (length (file_paths j)) = Some e →
      step_case s env j (AtCollect i (f :: rest) c)
        (failed e (now_exc env) (collected c f (outcome env) j)) Finished 1
  | case_collect_nil i c :
      step_case s env j (AtCollect i [] c) j (AtLoop (i + batch_size s) c) 0
  | case_finished :
      step_case s env j Finished j Finished 0.

(** The files on disk after a driver step: only the finalisation writes. *)
Definition files_after (s : BatchProcessor) (env : Env) (j : BatchJob) (t : DriverTask)
  : gmap string (Q * JobData) :=
  match t with
  | AtLoop i _ =>
      if (i <? length (file_paths j))%nat then result_files s
      else match write_error env with
           | Some _ => result_files s
           | None => <["job_" +:+ job_id j +:+ ".json" :=
                         (now env, make_job_data (completed (now env) j))]>
                       (result_files s)
           end
  | _ => result_files s
  end.

(** The number of entries of [job.results] tagged ["error"]. *)
Definition error_entries (j : BatchJob) : nat :=
  length (filter (λ e, is_error e = true) (results j)).

(** What relates the report of a job to the program point of its driver. *)
Definition report_ok (j : BatchJob) (t : DriverTask) : Prop :=
  (length (results j) ≤ length (file_paths j))%nat ∧
  match t with
  | AtStart => results j = [] ∧ errors j = []
  | AtLoop _ c | AtCollect _ _ c =>
      length (results j) = c ∧ length (errors j) = error_entries j
  | Finished => True
  end.

Definition Inv_report (s : BatchProcessor) : Prop :=
  ∀ r j t, objects s !! r = Some j → tasks s !! r = Some t → report_ok j t.

(** ** The analytics sink: [PerformanceTracker] and [UsageAnalytics] *)

(** A per-day dict of [daily_stats]: a [defaultdict(int)] made by the default
    factory of [daily_stats], or a plain dict put there by
    [_load_historical_data], whose [self.daily_stats.update(...)]
    (analytics.py, line 232) stores the dicts of the log file as they are. *)
Record DayStats := {
  is_defaultdict : bool;
  counts : gmap string Z
}.

Record PerformanceTracker := {
  stats : gmap string Q;
  processing_times : list Q;
  daily_stats : gmap string DayStats;
  error_counts : gmap string Z;
  total_requests : Z;
  successful_requests : Z;
  failed_requests : Z
}.

(** [d[k] += x] on a [defaultdict(int)]. *)
Definition add_stat (k : string) (x : Q) (d : gmap string Q) : gmap string Q :=
  <[k := (default 0%Q (d !! k) + x)%Q]> d.

Definition add_count (k : string) (d : gmap string Z) : gmap string Z :=
  <[k := (default 0%Z (d !! k) + 1)%Z]> d.

(** [d[k] += 1] on a per-day dict: on a missing key a [defaultdict(int)]
    starts from 0 and a plain dict raises. *)
Definition day_add_count (k : string) (d : DayStats) : Res DayStats :=
  if bool_decide (is_Some (counts d !! k)) || is_defaultdict d
  then Ok {| is_defaultdict := is_defaultdict d; counts := add_count k (counts d) |}
  else Raise (KeyError k).

(** [deque(maxlen=1000).append(x)]: a full deque drops its oldest element. *)
Definition deque_append (x : Q) (d : list Q) : list Q :=
  drop (length (d ++ [x])%list - 1000) (d ++ [x])%list.

(** [track_request_start(request_type)]; [now_] is [time.time()] and [today]
    the date [datetime.now().strftime('%Y-%m-%d')].  The request id is built
    before anything is counted. *)
Definition track_request_start (request_type : string) (now_ : float) (today : string)
    (p : PerformanceTracker) : Res string * PerformanceTracker :=
  match py_int (now_ * 1000)%float with
  | Raise e => (Raise e, p)
  | Ok ms =>
      (Ok (pretty ms +:+ "_" +:+ request_type),
       {| stats := add_stat ("daily_" +:+ today +:+ "_" +:+ request_type) 1
                     (add_stat ("requests_started_" +:+ request_type) 1 (stats p));
          processing_times := processing_times p;
          daily_stats := daily_stats p;
          error_counts := error_counts p;
          total_requests := total_requests p + 1;
          successful_requests := successful_requests p;
          failed_requests := failed_requests p |})
  end.

(** Truth value of an [Optional[str]]. *)
Definition truthy_str (o : option string) : bool :=
  match o with
  | Some s => negb (String.eqb s "")
  | None => false
  end.

Definition track_request_end (request_id : string) (success : bool)
    (execution_time : option Q) (error : option string) (p : PerformanceTracker)
  : PerformanceTracker :=
  let p1 :=
    if success
    then {| stats := add_stat "successful_requests" 1 (stats p);
            processing_times := processing_times p;
            daily_stats := daily_stats p;
            error_counts := error_counts p;
            total_requests := total_requests p;
            successful_requests := successful_requests p + 1;
            failed_requests := failed_requests p |}
    else {| stats := add_stat "failed_requests" 1 (stats p);
            processing_times := processing_times p;
            daily_stats := daily_stats p;
            error_counts :=
              match error with
              | Some e => if truthy_str error then add_count e (error_counts p)
                          else error_counts p
              | None => error_counts p
              end;
            total_requests := total_requests p;
            successful_requests := successful_requests p;
            failed_requests := failed_requests p + 1 |} in
  match execution_time with
  | Some t =>
      if truthy execution_time
      then {| stats := add_stat "total_processing_time" t (stats p1);
              processing_times := deque_append t (processing_times p1);
              daily_stats := daily_stats p1;
              error_counts := error_counts p1;
              total_requests := total_requests p1;
              successful_requests := successful_requests p1;
              failed_requests := failed_requests p1 |}
      else p1
  | None => p1
  end.

(** [track_feature_usage(feature)], lines 73-78.  Line 76 counts in [stats];
    line 78 is [self.daily_stats[today][feature] += 1]: [daily_stats] makes a
    [defaultdict(int)] for a day it does not have, and the day's dict then
    counts or, when it is a plain dict without the feature, raises, which
    leaves the count of line 76 in place (and [daily_stats] as it was: the
    day was there). *)
Definition track_feature_usage (feature : string) (today : string) (p : PerformanceTracker)
  : Res unit * PerformanceTracker :=
  let day := default {| is_defaultdict := true; counts := ∅ |} (daily_stats p !! today) in
  match day_add_count feature day with
  | Ok day' =>
      (Ok tt,
       {| stats := add_stat ("feature_" +:+ feature) 1 (stats p);
          processing_times := processing_times p;
          daily_stats := <[today := day']> (daily_stats p);
          error_counts := error_counts p;
          total_requests := total_requests p;
          successful_requests := successful_requests p;
          failed_requests := failed_requests p |})
  | Raise e =>
      (Raise e,
       {| stats := add_stat ("feature_" +:+ feature) 1 (stats p);
          processing_times := processing_times p;
          daily_stats := daily_stats p;
          error_counts := error_counts p;
          total_requests := total_requests p;
          successful_requests := successful_requests p;
          failed_requests := failed_requests p |})
  end.

Definition track_document_type (doc_type : string) (p : PerformanceTracker)
  : PerformanceTracker :=
  {| stats := add_stat ("document_type_" +:+ doc_type) 1 (stats p);
     processing_times := processing_times p;
     daily_stats := daily_stats p;
     error_counts := error_counts p;
     total_requests := total_requests p;
     successful_requests := successful_requests p;
     failed_requests := failed_requests p |}.

(** [UsageAnalytics.track_document_processed], as the batch driver calls it;
    [today1] and [today2] are the two readings of the date.  Nothing is
    caught: an exception of a step ends the call there. *)
Definition track_document_processed (doc_type : string) (processing_time_ : option Q)
    (success : bool) (error : option string) (now_ : float) (today1 today2 : string)
    (p : PerformanceTracker) : Res unit * PerformanceTracker :=
  match track_request_start "document_processing" now_ today1 p with
  | (Raise e, p1) => (Raise e, p1)
  | (Ok request_id, p1) =>
      match track_feature_usage "document_processing" today2 p1 with
      | (Raise e, p2) => (Raise e, p2)
      | (Ok _, p2) =>
          let p3 := track_document_type doc_type p2 in
          (Ok tt, track_request_end request_id success processing_time_ error p3)
      end
  end.

(** A tracker with nothing loaded from disk. *)
Definition new_tracker : PerformanceTracker :=
  {| stats := ∅; processing_times := []; daily_stats := ∅; error_counts := ∅;
     total_requests := 0; successful_requests := 0; failed_requests := 0 |}.

(** One file is submitted, callbacks that raise are registered for it, and the
    driver is run up to its first future, and, with a quiet progress callback,
    up to its finalisation. *)
Definition boom : Exn := RuntimeError "boom".

Definition noisy_progress : BatchProcessor :=
  run batch_processor
    [Submit ["a.png"] ["document"] None 1;
     RegisterProgress "batch_1000" (λ _ _ _, Some boom);
     DriverStep 0 (env_ok "" 2); DriverStep 0 (env_ok "" 2)].

Definition noisy_completion : BatchProcessor :=
  run batch_processor
    [Submit ["a.png"] ["document"] None 1;
     RegisterCompletion "batch_1000" (λ _, Some boom);
     DriverStep 0 (env_ok "" 2); DriverStep 0 (env_ok "" 2);
     DriverStep 0 (env_ok "a.png" 3)].

(** A call of [track_document_processed] with what it reads from outside. *)
Record DocCall := {
  dc_doc_type : string;
  dc_time : option Q;
  dc_success : bool;
  dc_error : option string;
  dc_now : float;
  dc_today1 : string;
  dc_today2 : string
}.

Definition track_document (c : DocCall) (p : PerformanceTracker)
  : Res unit * PerformanceTracker :=
  track_document_processed (dc_doc_type c) (dc_time c) (dc_success c) (dc_error c)
    (dc_now c) (dc_today1 c) (dc_today2 c) p.

(** The tracker after a sequence of [track_document_processed] calls, each
    made whether or not the one before raised. *)
Definition track_documents (calls : list DocCall) (p : PerformanceTracker)
  : PerformanceTracker :=
  fold_left (λ q c, snd (track_document c q)) calls p.

Definition count_if {A} (f : A → bool) (l : list A) : Z :=
  Z.of_nat (length (List.filter f l)).

(** A day of calls to [track_feature_usage]. *)
Definition track_features (features : list string) (today : string) (p : PerformanceTracker)
  : PerformanceTracker :=
  fold_left (λ q f, snd (track_feature_usage f today q)) features p.

(** No per-day dict of the tracker is a plain dict, as in a tracker that
    loaded no performance log. *)
Definition never_loaded (p : PerformanceTracker) : Prop :=
  ∀ day d, daily_stats p !! day = Some d → is_defaultdict d = true.

(** The count of [feature] on [today], 0 when there is none. *)
Definition daily_count (p : PerformanceTracker) (today feature : string) : Z :=
  match daily_stats p !! today with
  | Some d => default 0%Z (counts d !! feature)
  | None => 0%Z
  end.

(** A tracker that loaded a log in which one feature was counted today. *)
Definition loaded_tracker : PerformanceTracker :=
  {| stats := {[ "feature_chat" := 1%Q ]}; processing_times := [];
     daily_stats := {[ "2025-01-15" := {| is_defaultdict := false;
                                           counts := {[ "chat" := 1%Z ]} |} ]};
     error_counts := ∅;
     total_requests := 1; successful_requests := 1; failed_requests := 0 |}.

(** * Proofs *)

(** ** Submission *)

Lemma submit_batch_job_eq fps ats cp t s jid :
  make_job_id t = Ok jid →
  submit_batch_job fps ats cp t s =
  (Raise (AttributeError "'UsageAnalytics' object has no attribute 'track_feature_usage'"),
   with_tasks <[fresh (dom (objects s)) := AtStart]>
     (with_active_jobs <[jid := fresh (dom (objects s))]>
        (with_objects <[fresh (dom (objects s)) := new_BatchJob jid fps ats cp]> s))).
Proof. intros H. unfold submit_batch_job, bind, lift. by rewrite H. Qed.

Lemma submit_batch_job_no_id fps ats cp t s e :
  make_job_id t = Raise e → submit_batch_job fps ats cp t s = (Raise e, s).
Proof. intros H. unfold submit_batch_job, bind, lift. by rewrite H. Qed.

Lemma submit_objects fps ats cp t s jid :
  make_job_id t = Ok jid →
  objects (snd (submit_batch_job fps ats cp t s)) =
  <[fresh (dom (objects s)) := new_BatchJob jid fps ats cp]> (objects s).
Proof. intros H. by rewrite (submit_batch_job_eq _ _ _ _ _ _ H). Qed.

Lemma submit_active fps ats cp t s jid :
  make_job_id t = Ok jid →
  active_jobs (snd (submit_batch_job fps ats cp t s)) =
  <[jid := fresh (dom (objects s))]> (active_jobs s).
Proof. intros H. by rewrite (submit_batch_job_eq _ _ _ _ _ _ H). Qed.

Lemma submit_tasks fps ats cp t s jid :
  make_job_id t = Ok jid →
  tasks (snd (submit_batch_job fps ats cp t s)) =
  <[fresh (dom (objects s)) := AtStart]> (tasks s).
Proof. intros H. by rewrite (submit_batch_job_eq _ _ _ _ _ _ H). Qed.

Lemma submit_history fps ats cp t s :
  job_history (snd (submit_batch_job fps ats cp t s)) = job_history s.
Proof.
  destruct (make_job_id t) as [jid|e] eqn:H.
  - by rewrite (submit_batch_job_eq _ _ _ _ _ _ H).
  - by rewrite (submit_batch_job_no_id _ _ _ _ _ _ H).
Qed.

Lemma fresh_ref_unused (s : BatchProcessor) : objects s !! fresh (dom (objects s)) = None.
Proof. apply not_elem_of_dom, is_fresh. Qed.

Lemma make_job_id_ms (t : float) (jid : string) :
  make_job_id t = Ok jid ↔ ∃ ms, py_int (t * 1000)%float = Ok ms ∧ jid = "batch_" +:+ pretty ms.
Proof.
  unfold make_job_id. destruct (py_int _) as [ms|e]; split.
  - intros [= <-]. by exists ms.
  - intros (ms' & [= <-] & ->). done.
  - discriminate.
  - intros (ms' & ? & _). discriminate.
Qed.

(** C1, as the design document states it, fails: an empty submission to the
    module's processor creates a job and registers it in the active set. *)
Lemma submit_rejects_empty_fails :
  ¬ submit_rejects_empty batch_processor ["table"] None 1.
Proof.
  intros (_ & _ & H & _).
  apply (f_equal (λ a : gmap string nat, a !! "batch_1000")) in H.
  vm_compute in H. discriminate H.
Qed.

(** C1 (amended): [submit_batch_job] does not validate its input.  Called with
    an empty file list at a clock reading that gives the identifier [jid], it
    creates a job all the same: a new job object with no files, status
    Pending and progress 0 is registered in the active set under [jid], with
    its driver task created; the history is untouched. *)
Theorem submit_empty_registers_job (s : BatchProcessor) (ats : list string)
    (cp : option string) (t : float) (jid : string) :
  make_job_id t = Ok jid →
  let r := fresh (dom (objects s)) in
  let s' := snd (submit_batch_job [] ats cp t s) in
  objects s !! r = None ∧
  active_jobs s' !! jid = Some r ∧
  objects s' !! r = Some (new_BatchJob jid [] ats cp) ∧
  status (new_BatchJob jid [] ats cp) = PENDING ∧
  (progress (new_BatchJob jid [] ats cp) == 0)%Q ∧
  tasks s' !! r = Some AtStart ∧
  job_history s' = job_history s.
Proof.
  intros Hid r s'. subst s'. rewrite (submit_batch_job_eq _ _ _ _ _ _ Hid). cbn.
  split_and!; try done.
  - apply fresh_ref_unused.
  - apply lookup_insert_eq.
  - apply lookup_insert_eq.
  - apply lookup_insert_eq.
Qed.

Lemma submit_empty_registers_job_witness :
  let r := fresh (dom (objects batch_processor)) in
  let s' := snd (submit_batch_job [] ["table"] None 1 batch_processor) in
  objects batch_processor !! r = None ∧
  active_jobs s' !! "batch_1000" = Some r ∧
  objects s' !! r = Some (new_BatchJob "batch_1000" [] ["table"] None) ∧
  status (new_BatchJob "batch_1000" [] ["table"] None) = PENDING ∧
  (progress (new_BatchJob "batch_1000" [] ["table"] None) == 0)%Q ∧
  tasks s' !! r = Some AtStart ∧
  job_history s' = job_history batch_processor.
Proof.
  apply (submit_empty_registers_job batch_processor ["table"] None 1 "batch_1000").
  vm_compute. reflexivity.
Defined.

(** C4, as the design document states it, fails: two submissions within the
    same millisecond give their jobs the same identifier. *)
Lemma ids_differ_fails :
  ¬ ids_differ batch_processor ["a.png"] ["table"] None 1
               ["b.png"] ["table"] None 1.000244140625.
Proof. intros H. apply H. vm_compute. reflexivity. Qed.

(** C4 (amended): the identifier given to a job is [batch_] followed by
    [int(time.time() * 1000)] and nothing else.  Whatever the two processors
    and the inputs, a submission whose clock reading gives [ms1] creates a
    job object with identifier [batch_<ms1>] and registers it under that key,
    and the jobs of two submissions have different identifiers exactly when
    [ms1] and [ms2] differ. *)
Theorem job_ids_are_millisecond_stamps (s s' : BatchProcessor)
    (fps1 ats1 : list string) (cp1 : option string) (t1 : float)
    (fps2 ats2 : list string) (cp2 : option string) (t2 : float) (ms1 ms2 : Z) :
  py_int (t1 * 1000)%float = Ok ms1 →
  py_int (t2 * 1000)%float = Ok ms2 →
  let r1 := fresh (dom (objects s)) in
  let s1 := snd (submit_batch_job fps1 ats1 cp1 t1 s) in
  let r2 := fresh (dom (objects s')) in
  let s2 := snd (submit_batch_job fps2 ats2 cp2 t2 s') in
  job_id (objects s1 !!! r1) = "batch_" +:+ pretty ms1 ∧
  active_jobs s1 !! ("batch_" +:+ pretty ms1) = Some r1 ∧
  job_id (objects s2 !!! r2) = "batch_" +:+ pretty ms2 ∧
  active_jobs s2 !! ("batch_" +:+ pretty ms2) = Some r2 ∧
  (job_id (objects s1 !!! r1) ≠ job_id (objects s2 !!! r2) ↔ ms1 ≠ ms2).
Proof.
  intros H1 H2 r1 s1 r2 s2.
  assert (Hid1 : make_job_id t1 = Ok ("batch_" +:+ pretty ms1))
    by (apply make_job_id_ms; by exists ms1).
  assert (Hid2 : make_job_id t2 = Ok ("batch_" +:+ pretty ms2))
    by (apply make_job_id_ms; by exists ms2).
  subst s1 s2.
  rewrite (submit_batch_job_eq _ _ _ _ _ _ Hid1), (submit_batch_job_eq _ _ _ _ _ _ Hid2).
  cbn [snd objects active_jobs with_tasks with_active_jobs with_objects].
  rewrite !lookup_total_insert_eq, !lookup_insert_eq. cbn [job_id new_BatchJob].
  split_and!; try done. split.
  - intros Hne ->. by apply Hne.
  - intros Hne Heq. apply Hne.
    apply (inj (String.app "batch_")) in Heq. by apply (inj pretty) in Heq.
Qed.

Lemma job_ids_are_millisecond_stamps_witness :
  let r1 := fresh (dom (objects batch_processor)) in
  let s1 := snd (submit_batch_job ["a.png"] ["table"] None 1 batch_processor) in
  let r2 := fresh (dom (objects s1)) in
  let s2 := snd (submit_batch_job ["b.png"] ["table"] None 1.5 s1) in
  job_id (objects s1 !!! r1) = "batch_" +:+ pretty 1000%Z ∧
  active_jobs s1 !! ("batch_" +:+ pretty 1000%Z) = Some r1 ∧
  job_id (objects s2 !!! r2) = "batch_" +:+ pretty 1500%Z ∧
  active_jobs s2 !! ("batch_" +:+ pretty 1500%Z) = Some r2 ∧
  (job_id (objects s1 !!! r1) ≠ job_id (objects s2 !!! r2) ↔ 1000%Z ≠ 1500%Z).
Proof.
  apply (job_ids_are_millisecond_stamps batch_processor
           (snd (submit_batch_job ["a.png"] ["table"] None 1 batch_processor))
           ["a.png"] ["table"] None 1 ["b.png"] ["table"] None 1.5 1000 1500).
  - vm_compute. reflexivity.
  - vm_compute. reflexivity.
Defined.

(** ** Cancellation of a running job *)

(** C3: the code at the failing input.  Five files, sub-batches of four: the
    job is Running with the first sub-batch collected when [cancel_job]
    accepts the cancellation; the driver's next step hands the second
    sub-batch to the pool all the same, processes it, and the job ends up
    Failed on the [KeyError] of its own [del self.active_jobs[...]], three
    times in the history. *)
Theorem cancel_does_not_stop_dispatch :
  status (objects first_batch_done !!! 0%nat) = PROCESSING ∧
  fst (cancel_job "batch_1000" 4 first_batch_done) = Ok true ∧
  status (objects cancelled_midway !!! 0%nat) = CANCELLED ∧
  dispatches_next cancelled_midway 0 = true ∧
  tasks (step cancelled_midway (DriverStep 0 (env_ok "" 5))) !! 0%nat
    = Some (AtCollect 4 ["e.png"] 4) ∧
  length (results (objects cancelled_midway !!! 0%nat)) = 4%nat ∧
  length (results (objects after_cancelled_run !!! 0%nat)) = 5%nat ∧
  status (objects after_cancelled_run !!! 0%nat) = FAILED ∧
  errors (objects after_cancelled_run !!! 0%nat) = ["'batch_1000'"] ∧
  job_history after_cancelled_run = [0; 0; 0]%nat.
Proof. vm_compute. repeat split; reflexivity. Qed.

(** ** Persistence *)

Lemma same_memory_refl (s : BatchProcessor) : same_memory s s.
Proof. by repeat split. Qed.

Lemma agree_ret {A} (a : A) : agree (ret a) (ret a).
Proof. intros s1 s2 H. by split. Qed.

Lemma agree_raise {A} (e : Exn) : agree (@raise A e) (raise e).
Proof. intros s1 s2 H. by split. Qed.

Lemma agree_lift {A} (x : Res A) : agree (lift x) (lift x).
Proof. intros s1 s2 H. by split. Qed.

Lemma agree_bind {A B} (m1 m2 : M A) (k1 k2 : A → M B) :
  agree m1 m2 → (∀ a, agree (k1 a) (k2 a)) → agree (bind m1 k1) (bind m2 k2).
Proof.
  intros Hm Hk s1 s2 H. unfold bind.
  destruct (Hm s1 s2 H) as [Hr Hs].
  destruct (m1 s1) as [[a1|e1] s1'], (m2 s2) as [[a2|e2] s2']; simplify_eq/=; auto.
  by apply Hk.
Qed.

Lemma agree_try_except {A} (m1 m2 : M A) (h1 h2 : Exn → M A) :
  agree m1 m2 → (∀ e, agree (h1 e) (h2 e)) → agree (try_except m1 h1) (try_except m2 h2).
Proof.
  intros Hm Hh s1 s2 H. unfold try_except.
  destruct (Hm s1 s2 H) as [Hr Hs].
  destruct (m1 s1) as [[a1|e1] s1'], (m2 s2) as [[a2|e2] s2']; simplify_eq/=; auto.
  by apply Hh.
Qed.

Lemma agree_reads {A} (f : BatchProcessor → A) :
  (∀ s1 s2, same_memory s1 s2 → f s1 = f s2) → agree (reads f) (reads f).
Proof. intros Hf s1 s2 H. cbn. split; [f_equal; by apply Hf | done]. Qed.

Lemma agree_modify (f : BatchProcessor → BatchProcessor) :
  (∀ s1 s2, same_memory s1 s2 → same_memory (f s1) (f s2)) → agree (modify f) (modify f).
Proof. intros Hf s1 s2 H. cbn. split; [done | by apply Hf]. Qed.

Ltac same_memory_tac :=
  let H := fresh in
  intros ? ? H; unfold same_memory, batch_size in *; cbn;
  destruct H as (?&?&?&?&?&?&?&?); repeat split; congruence.

Ltac agree_tac :=
  repeat first
    [ apply agree_ret | apply agree_raise | apply agree_lift
    | apply agree_bind; [| intros ?]
    | apply agree_try_except; [| intros ?]
    | apply agree_reads; same_memory_tac
    | apply agree_modify; same_memory_tac
    | progress unfold deref, mutate, set_task, call_callback, del_active_job
    | match goal with |- agree (match ?x with _ => _ end) (match ?x with _ => _ end) =>
        destruct x end ].

Lemma agree_save_job_results (r : nat) (env : Env) (e : Exn) :
  agree (save_job_results r (with_write_error (Some e) env))
        (save_job_results r (with_write_error None env)).
Proof.
  intros s1 s2 H. cbn. split; [done|].
  destruct H as (?&?&?&?&?&?&?&?). by repeat split.
Qed.

Lemma agree_handler (r : nat) (env : Env) (o1 o2 : option Exn) (e : Exn) :
  agree (process_batch_job_handler r (with_write_error o1 env) e)
        (process_batch_job_handler r (with_write_error o2 env) e).
Proof. unfold process_batch_job_handler. cbn [now_exc with_write_error]. agree_tac. Qed.

Lemma agree_driver_body (r : nat) (t : DriverTask) (env : Env) (e : Exn) :
  agree (driver_body r t (with_write_error (Some e) env))
        (driver_body r t (with_write_error None env)).
Proof.
  destruct t as [| i c | i [|f fs] c |]; cbn [driver_body].
  - unfold driver_start. cbn [now with_write_error]. agree_tac.
  - apply agree_bind; [agree_tac | intros job].
    destruct (i <? length (file_paths job))%nat.
    + unfold driver_dispatch. agree_tac.
    + unfold driver_finish. cbn [now with_write_error].
      do 3 (apply agree_bind; [agree_tac | intros ?]).
      apply agree_bind; [apply agree_save_job_results | intros ?].
      agree_tac.
  - agree_tac.
  - unfold driver_collect. cbn [outcome with_write_error]. agree_tac.
  - agree_tac.
Qed.

(** C9: a failing write of the result file is absorbed.  Whatever the driver
    step (the finalisation is the one that saves), the step with a failing
    write and the step with a successful write return the same and leave the
    same memory: the same job objects (status, errors, results), active set,
    history, callbacks and tasks; the failing [_save_job_results] itself
    returns normally and changes nothing. *)
Theorem save_failure_isolated (s : BatchProcessor) (r : nat) (env : Env) (e : Exn) :
  let failed := driver_step r (with_write_error (Some e) env) s in
  let saved := driver_step r (with_write_error None env) s in
  fst failed = fst saved ∧
  same_memory (snd failed) (snd saved) ∧
  save_job_results r (with_write_error (Some e) env) s = (Ok tt, s).
Proof.
  cbn zeta. split_and!; [| | reflexivity].
  all: assert (Ha : agree (driver_step r (with_write_error (Some e) env))
                     (driver_step r (with_write_error None env))).
  1,3: unfold driver_step; apply agree_bind; [agree_tac | intros ts];
       destruct (ts !! r); [| apply agree_ret];
       apply agree_try_except; [apply agree_driver_body | intros ?; apply agree_handler].
  all: by destruct (Ha s s (same_memory_refl s)).
Qed.

(** ** Symbolic execution of the driver *)

Section exec.
Context (s : BatchProcessor) (r : nat).

Lemma nf_id (j : BatchJob) (t : DriverTask) :
  objects s !! r = Some j → tasks s !! r = Some t →
  s = nf s r j t (job_history s) (active_jobs s) (result_files s).
Proof.
  intros Hj Ht. destruct s; unfold nf; cbn in *.
  f_equal; symmetry; by apply insert_id.
Qed.

Lemma exec_ret {A B} (x : A) (k : A → M B) (s0 : BatchProcessor) :
  bind (ret x) k s0 = k x s0.
Proof. reflexivity. Qed.

Lemma exec_raise {A B} (e : Exn) (k : A → M B) (s0 : BatchProcessor) :
  bind (raise e) k s0 = (Raise e, s0).
Proof. reflexivity. Qed.

Lemma exec_lift_ok {A B} (x : A) (k : A → M B) (s0 : BatchProcessor) :
  bind (lift (Ok x)) k s0 = k x s0.
Proof. reflexivity. Qed.

Lemma exec_lift_raise {A B} (e : Exn) (k : A → M B) (s0 : BatchProcessor) :
  bind (lift (Raise e)) k s0 = (Raise e, s0).
Proof. reflexivity. Qed.

Lemma exec_reads {A B} (f : BatchProcessor → A) (k : A → M B) (s0 : BatchProcessor) :
  bind (reads f) k s0 = k (f s0) s0.
Proof. reflexivity. Qed.

Lemma exec_bind {A B C} (m : M A) (k1 : A → M B) (k2 : B → M C) (s0 : BatchProcessor) :
  bind (bind m k1) k2 s0 = bind m (λ x, bind (k1 x) k2) s0.
Proof. unfold bind. by destruct (m s0) as [[x|e] s1]. Qed.

Lemma exec_mutate {A} (f : BatchJob → BatchJob) (k : unit → M A) j t h a fl :
  bind (mutate r f) k (nf s r j t h a fl) = k tt (nf s r (f j) t h a fl).
Proof.
  unfold bind, mutate, modify, nf, with_objects; cbn. by rewrite alter_insert_eq.
Qed.

Lemma exec_deref {A} (k : BatchJob → M A) j t h a fl :
  bind (deref r) k (nf s r j t h a fl) = k j (nf s r j t h a fl).
Proof. unfold bind, deref, reads, nf; cbn. by rewrite lookup_total_insert_eq. Qed.

Lemma exec_set_task (t' : DriverTask) j t h a fl :
  set_task r t' (nf s r j t h a fl) = (Ok tt, nf s r j t' h a fl).
Proof. unfold set_task, modify, nf, with_tasks; cbn. by rewrite insert_insert_eq. Qed.

Lemma exec_history {A} (g : list nat → list nat) (k : unit → M A) j t h a fl :
  bind (modify (with_job_history g)) k (nf s r j t h a fl) = k tt (nf s r j t (g h) a fl).
Proof. reflexivity. Qed.

Lemma exec_active {A} (g : gmap string nat → gmap string nat) (k : unit → M A) j t h a fl :
  bind (modify (with_active_jobs g)) k (nf s r j t h a fl) = k tt (nf s r j t h (g a) fl).
Proof. reflexivity. Qed.

Lemma exec_save {A} (env : Env) (k : unit → M A) j t h a fl :
  bind (save_job_results r env) k (nf s r j t h a fl) =
  k tt (nf s r j t h a
          match write_error env with
          | Some _ => fl
          | None => <["job_" +:+ job_id j +:+ ".json" := (now env, make_job_data j)]> fl
          end).
Proof.
  unfold save_job_results, try_except. unfold bind at 1. rewrite exec_deref.
  by destruct (write_error env).
Qed.

(** The [except] branch. *)
Lemma exec_handler (env : Env) (e : Exn) j t h a fl :
  process_batch_job_handler r env e (nf s r j t h a fl) =
  (Ok tt, nf s r (failed e (now_exc env) j) Finished (h ++ [r]) (delete (job_id j) a) fl).
Proof.
  unfold process_batch_job_handler.
  rewrite !exec_mutate, exec_history, exec_deref, exec_reads. cbn [active_jobs nf].
  change (job_id (append_error _ _)) with (job_id j).
  unfold py_contains. case_bool_decide as Hin.
  - by rewrite exec_active, exec_set_task.
  - rewrite exec_ret, exec_set_task. rewrite delete_id; [done|].
    by apply eq_None_not_Some.
Qed.
End exec.

Lemma driver_step_nf (s : BatchProcessor) (r : nat) (env : Env) (j : BatchJob) (t : DriverTask) :
  objects s !! r = Some j → tasks s !! r = Some t →
  driver_step r env s =
  try_except (driver_body r t env) (process_batch_job_handler r env)
    (nf s r j t (job_history s) (active_jobs s) (result_files s)).
Proof.
  intros Hj Ht. unfold driver_step. rewrite exec_reads, Ht.
  f_equal. by apply nf_id.
Qed.

Lemma driver_step_idle (s : BatchProcessor) (r : nat) (env : Env) :
  tasks s !! r = None ∨ tasks s !! r = Some Finished → driver_step r env s = (Ok tt, s).
Proof.
  intros [H|H]; unfold driver_step; rewrite exec_reads, H; reflexivity.
Qed.

(** ** Arithmetic of the progress value *)

Lemma nat_Q_nonneg (n : nat) : (0 <= nat_Q n)%Q.
Proof. unfold nat_Q, Qle. cbn. lia. Qed.

Lemma nat_Q_pos (n : nat) : (0 < n)%nat → (0 < nat_Q n)%Q.
Proof. intros H. unfold nat_Q, Qlt. cbn. lia. Qed.

Lemma nat_Q_le (n m : nat) : (n ≤ m)%nat → (nat_Q n <= nat_Q m)%Q.
Proof. intros H. unfold nat_Q, Qle. cbn. lia. Qed.

Lemma nat_Q_S (n : nat) : (nat_Q (S n) == nat_Q n + 1)%Q.
Proof. unfold nat_Q. rewrite Nat2Z.inj_succ, <- Z.add_1_r, inject_Z_plus. reflexivity. Qed.

(** The progress of line 195 in the exact reading. *)
Lemma progress_after_exact (c N : nat) :
  progress_after c N =
  if (N =? 0)%nat then Raise ZeroDivisionError else Ok (nat_Q c / nat_Q N * 100)%Q.
Proof. reflexivity. Qed.

Lemma progress_after_collect (p : Q) (c N : nat) :
  (S c ≤ N)%nat → (p * nat_Q N == 100 * nat_Q c)%Q →
  (0 <= nat_Q (S c) / nat_Q N * 100)%Q ∧
  (nat_Q (S c) / nat_Q N * 100 <= 100)%Q ∧
  (nat_Q (S c) / nat_Q N * 100 * nat_Q N == 100 * nat_Q (S c))%Q ∧
  (p <= nat_Q (S c) / nat_Q N * 100)%Q.
Proof.
  intros Hc Hp.
  assert (HN : (0 < nat_Q N)%Q) by (apply nat_Q_pos; lia).
  assert (HcN : (nat_Q (S c) <= nat_Q N)%Q) by (by apply nat_Q_le).
  assert (Hc0 := nat_Q_nonneg (S c)).
  assert (HS := nat_Q_S c).
  assert (Hq : (nat_Q (S c) / nat_Q N * 100 * nat_Q N == 100 * nat_Q (S c))%Q).
  { field. intros H0. rewrite H0 in HN. by apply Qlt_irrefl in HN. }
  set (q := (nat_Q (S c) / nat_Q N * 100)%Q) in *.
  split_and!; [| |done|].
  - apply Qnot_lt_le. intros Hlt.
    assert ((q * nat_Q N < 0)%Q) by nra. nra.
  - apply Qnot_lt_le. intros Hlt.
    assert ((100 * nat_Q N < q * nat_Q N)%Q) by nra. nra.
  - apply Qnot_lt_le. intros Hlt.
    assert ((q * nat_Q N < p * nat_Q N)%Q) by nra. nra.
Qed.

(** ** One driver step, summarised *)

Lemma delete_absent (a : gmap string nat) (k : string) :
  py_contains a k = false → delete k a = a.
Proof.
  unfold py_contains. intros H. apply bool_decide_eq_false in H.
  apply delete_id. by apply eq_None_not_Some.
Qed.

Lemma job_ok_failed (size : nat) (e : Exn) (t : Q) (j : BatchJob) :
  (0 <= progress j)%Q → (progress j <= 100)%Q → job_ok size (failed e t j) Finished.
Proof. intros H0 H1. unfold job_ok. cbn. split_and!; try done. Qed.

Lemma batch_size_nf s r j t h a fl : batch_size (nf s r j t h a fl) = batch_size s.
Proof. reflexivity. Qed.

Lemma job_ok_started (size : nat) (t : Q) (j : BatchJob) :
  job_ok size j AtStart → job_ok size (started t j) (AtLoop 0 0).
Proof.
  intros (H0 & H1 & _ & _ & Hp). unfold job_ok.
  change (progress (started t j)) with (progress j).
  change (status (started t j)) with PROCESSING.
  split_and!; [done | done | discriminate | discriminate | lia | lia | done |].
  rewrite Hp. change (nat_Q 0) with 0%Q. ring.
Qed.

Lemma record_outcome_fields (f : string) (o : Res Payload) (j : BatchJob) :
  job_id (record_outcome f o j) = job_id j ∧
  file_paths (record_outcome f o j) = file_paths j ∧
  status (record_outcome f o j) = status j ∧
  progress (record_outcome f o j) = progress j ∧
  start_time (record_outcome f o j) = start_time j ∧
  end_time (record_outcome f o j) = end_time j.
Proof. by destruct o. Qed.

Lemma exec_record_outcome {A} (s : BatchProcessor) (r : nat) (f : string) (o : Res Payload)
    (k : unit → M A) j t h a fl :
  bind (match o with
        | Ok result => mutate r (append_result (SuccessEntry f result))
        | Raise e =>
            bind (mutate r (append_error ("Error processing " +:+ f +:+ ": " +:+ str_exn e)))
              (λ _, mutate r (append_result (ErrorEntry f (str_exn e))))
        end) k (nf s r j t h a fl) =
  k tt (nf s r (record_outcome f o j) t h a fl).
Proof.
  destruct o; [by rewrite exec_mutate|]. by rewrite exec_bind, !exec_mutate.
Qed.

Lemma job_ok_collected (size i : nat) (f : string) (rest : list string) (c : nat)
    (o : Res Payload) (j : BatchJob) :
  job_ok size j (AtCollect i (f :: rest) c) →
  let j2 := set_progress (nat_Q (S c) / nat_Q (length (file_paths j)) * 100)
              (record_outcome f o j) in
  job_ok size j2 (match rest with
                  | [] => AtLoop (i + size) (S c)
                  | _ :: _ => AtCollect i rest (S c)
                  end) ∧
  (progress j <= progress j2)%Q ∧ (0 <= progress j2)%Q ∧ (progress j2 <= 100)%Q.
Proof.
  intros (H0 & H1 & Hp & Hc & HN & Hi & Hz & Hq) j2.
  destruct (record_outcome_fields f o j) as (_ & Hfp & Hst & _).
  cbn [length] in HN, Hi.
  destruct (progress_after_collect (progress j) c (length (file_paths j)))
    as (Hq0 & Hq1 & Hq2 & Hq3); [lia | done |].
  assert (Hnp : status j2 = PENDING → False).
  { cbn. rewrite Hst. intros Hs. discriminate (Hp Hs). }
  assert (Hnc : status j2 = COMPLETED → False).
  { cbn. rewrite Hst. intros Hs. destruct (Hc Hs) as [Hd _]. discriminate Hd. }
  split_and!; try done.
  unfold job_ok. change (progress j2) with
    (nat_Q (S c) / nat_Q (length (file_paths j)) * 100)%Q.
  change (file_paths j2) with (file_paths (record_outcome f o j)). rewrite Hfp.
  split_and!; try done.
  destruct rest as [|f' rest']; cbn [length] in *; split_and!; try done; lia.
Qed.

Ltac summary_leaf n :=
  unfold step_summary; cbn [snd nf objects tasks job_history active_jobs max_workers];
  eexists _, _, n; split_and!;
  [ reflexivity | reflexivity
  | cbn [replicate]; rewrite <- ?app_assoc, ?app_nil_r; reflexivity
  | cbn [Nat.eqb] | reflexivity
  | first [reflexivity | cbn; apply record_outcome_fields]
  | first [reflexivity | cbn; apply record_outcome_fields] | | ].

Lemma driver_step_summary (s : BatchProcessor) (r : nat) (env : Env)
    (j : BatchJob) (t : DriverTask) :
  objects s !! r = Some j → tasks s !! r = Some t →
  step_summary s (snd (driver_step r env s)) r j t.
Proof.
  intros Hj Ht. rewrite (driver_step_nf s r env j t Hj Ht).
  unfold try_except.
  destruct t as [| i c | i [|f rest] c |]; cbn [driver_body].
  - (* start *)
    unfold driver_start. rewrite !exec_mutate, exec_reads, batch_size_nf.
    destruct (batch_size s =? 0)%nat.
    + unfold raise. cbv beta iota. rewrite exec_handler. summary_leaf 1%nat.
      * reflexivity.
      * lia.
      * intros (H0 & H1 & _). split; [by apply job_ok_failed | cbn; apply Qle_refl].
    + rewrite exec_set_task. summary_leaf 0%nat.
      * reflexivity.
      * discriminate.
      * intros Hok. split; [by apply job_ok_started | apply Qle_refl].
  - (* loop head *)
    rewrite exec_deref.
    destruct (i <? length (file_paths j))%nat eqn:Hlt.
    + (* dispatch *)
      apply Nat.ltb_lt in Hlt.
      unfold driver_dispatch. rewrite exec_deref, exec_reads, batch_size_nf, exec_set_task.
      summary_leaf 0%nat; [reflexivity | discriminate |].
      intros (H0 & H1 & Hp & Hc & Hi & HN & Hz & Hq). split; [| apply Qle_refl].
      unfold job_ok. split_and!; try done.
      * intros Hs. discriminate (Hp Hs).
      * intros Hs. destruct (Hc Hs) as [Hd _]. discriminate Hd.
      * rewrite length_take, length_drop. lia.
      * rewrite length_take, length_drop. lia.
    + (* finalisation *)
      unfold driver_finish.
      rewrite !exec_mutate, exec_save, exec_history, exec_deref.
      unfold del_active_job. rewrite exec_bind, exec_reads. cbn [active_jobs nf].
      fold (completed (now env) j). change (job_id (completed (now env) j)) with (job_id j).
      destruct (py_contains (active_jobs s) (job_id j)) eqn:Hin.
      * rewrite exec_active, exec_reads. cbn [completion_callbacks nf].
        assert (Hdone : (0 <= progress (completed (now env) j))%Q ∧
                        (progress (completed (now env) j) <= 100)%Q) by (by cbn).
        destruct (completion_callbacks s !! job_id j) as [cb|]; unfold call_callback;
          [destruct (cb (completed (now env) j)) as [e|] |].
        -- rewrite exec_raise. cbv beta iota. rewrite exec_handler.
           summary_leaf 2%nat; [apply delete_delete_eq | lia |].
           intros (H0 & H1 & _). split; [by apply job_ok_failed | done].
        -- rewrite exec_ret. change (end_time (completed (now env) j)) with (Some (now env)).
           change (start_time (completed (now env) j)) with (start_time j).
           destruct (start_time j) as [st|]; cbn [py_sub].
           ++ rewrite exec_lift_ok, exec_set_task.
              summary_leaf 1%nat; [reflexivity | lia |].
              intros (H0 & H1 & _). split; [| done].
              unfold job_ok. by cbn.
           ++ rewrite exec_lift_raise. cbv beta iota. rewrite exec_handler.
              summary_leaf 2%nat; [apply delete_delete_eq | lia |].
              intros (H0 & H1 & _). split; [by apply job_ok_failed | done].
        -- rewrite exec_ret. change (end_time (completed (now env) j)) with (Some (now env)).
           change (start_time (completed (now env) j)) with (start_time j).
           destruct (start_time j) as [st|]; cbn [py_sub].
           ++ rewrite exec_lift_ok, exec_set_task.
              summary_leaf 1%nat; [reflexivity | lia |].
              intros (H0 & H1 & _). split; [| done].
              unfold job_ok. by cbn.
           ++ rewrite exec_lift_raise. cbv beta iota. rewrite exec_handler.
              summary_leaf 2%nat; [apply delete_delete_eq | lia |].
              intros (H0 & H1 & _). split; [by apply job_ok_failed | done].
      * rewrite exec_raise. cbv beta iota. rewrite exec_handler.
        summary_leaf 2%nat; [reflexivity | lia |].
        intros (H0 & H1 & _). split; [by apply job_ok_failed | done].
  - (* an emptied sub-batch *)
    rewrite exec_reads, batch_size_nf, exec_set_task.
    summary_leaf 0%nat; [reflexivity | discriminate |].
    intros (H0 & H1 & Hp & Hc & HN & Hi & Hz & Hq). split; [| apply Qle_refl].
    cbn [length] in HN, Hi. unfold job_ok. split_and!; try done; try lia.
    + intros Hs. discriminate (Hp Hs).
    + intros Hs. destruct (Hc Hs) as [Hd _]. discriminate Hd.
  - (* one future collected *)
    unfold driver_collect. rewrite exec_record_outcome, exec_deref.
    destruct (record_outcome_fields f (outcome env) j) as (Hid & Hfp & Hst & Hpr & _).
    rewrite Hfp. rewrite progress_after_exact.
    destruct (length (file_paths j) =? 0)%nat eqn:HN0.
    + rewrite exec_lift_raise. cbv beta iota. rewrite exec_handler.
      summary_leaf 1%nat; [by rewrite Hid | lia |].
      intros (H0 & H1 & _). cbn. rewrite Hpr. split; [| apply Qle_refl].
      apply job_ok_failed; by rewrite Hpr.
    + rewrite exec_lift_ok, exec_mutate, exec_deref, exec_reads.
      cbn [progress_callbacks nf].
      set (j2 := set_progress _ (record_outcome f (outcome env) j)).
      assert (Hid2 : job_id j2 = job_id j) by done.
      assert (Hfp2 : file_paths j2 = file_paths j) by done.
      destruct (progress_callbacks s !! job_id j2) as [cb|]; unfold call_callback;
        [destruct (cb (progress j2) (S c) (length (file_paths j))) as [e|] |].
      * rewrite exec_raise. cbv beta iota. rewrite exec_handler.
        summary_leaf 1%nat; [by rewrite Hid2 | lia |].
        intros Hok. destruct (job_ok_collected _ _ _ _ _ (outcome env) _ Hok) as (_ & ? & ? & ?).
        split; [by apply job_ok_failed | done].
      * rewrite exec_ret, exec_reads, batch_size_nf.
        destruct rest as [|f' rest']; rewrite exec_set_task;
          (summary_leaf 0%nat; [reflexivity | discriminate |]);
          intros Hok;
          destruct (job_ok_collected _ _ _ _ _ (outcome env) _ Hok) as (? & ? & _); done.
      * rewrite exec_ret, exec_reads, batch_size_nf.
        destruct rest as [|f' rest']; rewrite exec_set_task;
          (summary_leaf 0%nat; [reflexivity | discriminate |]);
          intros Hok;
          destruct (job_ok_collected _ _ _ _ _ (outcome env) _ Hok) as (? & ? & _); done.
  - (* a finished task *)
    cbv beta iota. unfold ret.
    summary_leaf 0%nat; [reflexivity | done |].
    intros Hok. split; [done | apply Qle_refl].
Qed.

(** ** The invariant *)

Lemma cancel_job_eq (jid : string) (t : Q) (s : BatchProcessor) :
  cancel_job jid t s =
  match active_jobs s !! jid with
  | Some r =>
      (Ok true,
       with_active_jobs (delete jid)
         (with_job_history (λ h, (h ++ [r])%list)
            (with_objects (alter (set_end_time t) r)
               (with_objects (alter (set_status CANCELLED) r) s))))
  | None => (Ok false, s)
  end.
Proof.
  unfold cancel_job. rewrite exec_reads. unfold py_contains, py_getitem.
  destruct (active_jobs s !! jid) as [r|] eqn:Hr.
  - rewrite bool_decide_eq_true_2 by done.
    rewrite exec_lift_ok. unfold mutate, del_active_job, bind, modify, reads, ret; cbn.
    unfold py_contains. by rewrite Hr, bool_decide_eq_true_2.
  - rewrite bool_decide_eq_false_2; [done|]. by intros [? ?].
Qed.

Lemma cancel_job_summary (jid : string) (t : Q) (s : BatchProcessor) (r : nat) :
  Inv s → active_jobs s !! jid = Some r →
  ∃ j tk, objects s !! r = Some j ∧ tasks s !! r = Some tk ∧ job_id j = jid ∧
          step_summary s (snd (cancel_job jid t s)) r j tk.
Proof.
  intros HI Hr. destruct (inv_active s HI _ _ Hr) as (j & Hj & Hid).
  destruct (inv_jobs s HI _ _ Hj) as (tk & Htk & Hok).
  exists j, tk. split_and!; try done.
  rewrite cancel_job_eq, Hr.
  exists (set_end_time t (set_status CANCELLED j)), tk, 1%nat. cbn.
  split_and!; try done.
  - apply map_eq. intros r'. rewrite !lookup_alter, lookup_insert.
    repeat case_decide; simplify_eq; [by rewrite Hj | done].
  - symmetry. by apply insert_id.
  - by rewrite Hid.
  - intros (H0 & H1 & _ & _ & Hq). split; [| apply Qle_refl].
    unfold job_ok. cbn [status progress set_end_time set_status file_paths].
    split_and!; done.
Qed.

Lemma Inv_init (mc mw : nat) (s0 : BatchProcessor) :
  BatchProcessor_init mc mw = Ok s0 → Inv s0.
Proof.
  unfold BatchProcessor_init. destruct (mw =? 0)%nat; [discriminate|].
  intros [= <-]. split; cbn.
  - intros k r H. by rewrite lookup_empty in H.
  - intros r H. by apply elem_of_nil in H.
  - intros r [? H]. by rewrite lookup_empty in H.
  - intros r j H. by rewrite lookup_empty in H.
Qed.

Lemma Inv_quiet (s s' : BatchProcessor) : Inv s → quiet_step s s' → Inv s'.
Proof.
  intros [Ha Hh Ht Hj] (Eo & Et & Ea & Em & Hsub).
  split; unfold batch_size; rewrite ?Eo, ?Et, ?Ea, ?Em; try done.
  intros r Hr. apply Hh. by apply Hsub.
Qed.

Lemma Inv_submit (s s' : BatchProcessor) : Inv s → submit_step s s' → Inv s'.
Proof.
  intros [Ha Hh Ht Hj] (r & jid & fps & ats & cp & Hnew & Eo & Et & Ea & Eh & Em).
  split; unfold batch_size; rewrite ?Eo, ?Et, ?Ea, ?Eh, ?Em.
  - intros k r'. rewrite lookup_insert. case_decide as Hk.
    + intros [= <-]. subst k. rewrite lookup_insert_eq. by eexists.
    + intros H. destruct (Ha _ _ H) as (j & Hj' & Hid). exists j. split; [|done].
      rewrite lookup_insert_ne; [done|]. intros ->. congruence.
  - intros r' Hr'. destruct (Hh _ Hr') as [[j Hobj] Hact]. split.
    + rewrite lookup_insert_ne; [by eexists|]. intros ->. congruence.
    + intros k. rewrite lookup_insert. case_decide; [|done].
      intros [= ->]. congruence.
  - intros r'. rewrite !lookup_insert. case_decide; [by eexists|]. apply Ht.
  - intros r' j. rewrite !lookup_insert. case_decide.
    + intros [= <-]. eexists. split; [done|]. unfold job_ok. cbn.
      split_and!; try done.
    + apply Hj.
Qed.

Lemma Inv_summary (s s' : BatchProcessor) (r : nat) (j : BatchJob) (t : DriverTask) :
  Inv s → objects s !! r = Some j → tasks s !! r = Some t →
  step_summary s s' r j t → Inv s'.
Proof.
  intros [Ha Hh Ht Hj] Hobj Htk (j' & t' & n & Eo & Et & Eh & Ea & Em & Hid & Hfp & Hfin & Hok).
  destruct (Hj _ _ Hobj) as (t0 & Ht0 & Hjok). rewrite Htk in Ht0. injection Ht0 as <-.
  destruct (Hok Hjok) as [Hjok' _].
  assert (Hact : ∀ k r', active_jobs s' !! k = Some r' → active_jobs s !! k = Some r').
  { intros k r'. rewrite Ea. destruct (n =? 0)%nat; [done|].
    rewrite lookup_delete_Some. by intros [_ ?]. }
  split; unfold batch_size; rewrite ?Eo, ?Et, ?Eh, ?Em.
  - intros k r' H. apply Hact in H. destruct (Ha _ _ H) as (j1 & Hj1 & Hid1).
    rewrite lookup_insert. case_decide.
    + subst r'. exists j'. split; [done|]. congruence.
    + by exists j1.
  - intros r' Hr'. apply elem_of_app in Hr' as [Hr'|Hr'].
    + destruct (Hh _ Hr') as [Hobj' Hna]. split.
      * rewrite lookup_insert. case_decide; [by eexists | done].
      * intros k H. by apply Hact, Hna in H.
    + apply elem_of_replicate in Hr' as [-> Hn]. split.
      * rewrite lookup_insert_eq. by eexists.
      * intros k. rewrite Ea. apply Nat.eqb_neq in Hn. rewrite Hn.
        rewrite lookup_delete_Some. intros [Hne H].
        destruct (Ha _ _ H) as (j1 & Hj1 & Hid1). congruence.
  - intros r'. rewrite !lookup_insert. case_decide; [by eexists|]. apply Ht.
  - intros r' j1. rewrite !lookup_insert. case_decide.
    + intros [= <-]. by exists t'.
    + apply Hj.
Qed.

(** Every step has one of three shapes. *)
Lemma step_shape (s : BatchProcessor) (ev : Event) :
  Inv s →
  quiet_step s (step s ev) ∨ submit_step s (step s ev) ∨
  ∃ r j t, objects s !! r = Some j ∧ tasks s !! r = Some t ∧
           step_summary s (step s ev) r j t.
Proof.
  intros HI. destruct ev as [fps ats cp t | r env | jid t | d t | jid cb | jid cb]; cbn [step].
  - destruct (make_job_id t) as [jid|e] eqn:Hid.
    + right; left. rewrite (submit_batch_job_eq _ _ _ _ _ _ Hid). cbn.
      exists (fresh (dom (objects s))), jid, fps, ats, cp.
      split_and!; try done. apply fresh_ref_unused.
    + left. rewrite (submit_batch_job_no_id _ _ _ _ _ _ Hid). by repeat split.
  - destruct (tasks s !! r) as [t|] eqn:Ht.
    + destruct (inv_tasks s HI r) as [j Hj]; [by eexists|].
      right; right. exists r, j, t. split_and!; try done.
      by apply driver_step_summary.
    + left. rewrite driver_step_idle by auto. by repeat split.
  - destruct (active_jobs s !! jid) as [r|] eqn:Hr.
    + right; right. destruct (cancel_job_summary jid t s r HI Hr) as (j & tk & ? & ? & ? & ?).
      by exists r, j, tk.
    + left. rewrite cancel_job_eq, Hr. by repeat split.
  - left. cbn. repeat split. intros r Hr. cbn in Hr.
    apply list_elem_of_In, filter_In in Hr as [Hr _]. by apply list_elem_of_In.
  - left. by repeat split.
  - left. by repeat split.
Qed.

Lemma Inv_step (s : BatchProcessor) (ev : Event) : Inv s → Inv (step s ev).
Proof.
  intros HI. destruct (step_shape s ev HI) as [H | [H | (r & j & t & Hj & Ht & H)]].
  - by apply (Inv_quiet s).
  - by apply (Inv_submit s).
  - by apply (Inv_summary s _ r j t).
Qed.

Lemma Inv_run (evs : list Event) (s : BatchProcessor) : Inv s → Inv (run s evs).
Proof.
  revert s. induction evs as [|ev evs IH]; intros s HI; [done|].
  cbn. apply IH. by apply Inv_step.
Qed.

Lemma reachable_Inv (s : BatchProcessor) : reachable s → Inv s.
Proof.
  intros (mc & mw & s0 & evs & Hinit & ->). apply Inv_run. by apply (Inv_init mc mw).
Qed.

Lemma reachable_run (s : BatchProcessor) (evs : list Event) :
  reachable s → reachable (run s evs).
Proof.
  intros (mc & mw & s0 & evs0 & Hinit & ->).
  exists mc, mw, s0, (evs0 ++ evs)%list. split; [done|].
  unfold run. by rewrite fold_left_app.
Qed.

(** ** Progress *)

(** C2, as the design document states it, fails: the job of the one-file run
    is Completed with progress 100, not 1. *)
Lemma progress_is_fraction_fails : ¬ progress_is_fraction one_file_done.
Proof.
  intros H.
  destruct (H 0%nat (objects one_file_done !!! 0%nat)) as (_ & Hle & _).
  - vm_compute. reflexivity.
  - vm_compute in Hle. by apply Hle.
Qed.

Lemma step_progress_mono (s : BatchProcessor) (ev : Event) (r : nat) (j j' : BatchJob) :
  Inv s → objects s !! r = Some j → objects (step s ev) !! r = Some j' →
  (progress j <= progress j')%Q.
Proof.
  intros HI Hj Hj'.
  destruct (step_shape s ev HI) as [H | [H | (r0 & j0 & t0 & Hj0 & Ht0 & H)]].
  - destruct H as (Eo & _). rewrite Eo, Hj in Hj'. injection Hj' as <-. apply Qle_refl.
  - destruct H as (r0 & jid & fps & ats & cp & Hnew & Eo & _).
    rewrite Eo, lookup_insert_ne, Hj in Hj' by congruence.
    injection Hj' as <-. apply Qle_refl.
  - destruct H as (j1 & t1 & n & Eo & _ & _ & _ & _ & _ & _ & _ & Hok).
    rewrite Eo, lookup_insert in Hj'. case_decide.
    + subst r0. injection Hj' as <-. rewrite Hj in Hj0. injection Hj0 as <-.
      destruct (inv_jobs s HI _ _ Hj) as (t & Ht & Hjok).
      rewrite Ht0 in Ht. injection Ht as <-. by destruct (Hok Hjok).
    + rewrite Hj in Hj'. injection Hj' as <-. apply Qle_refl.
Qed.

(** C2 (amended): progress is a percentage.  In every state the processor can
    reach, every job has its progress within [0, 100], equal to 0 while the
    job is Pending and equal to 100 once it is Completed; and no step of the
    processor (a driver step in particular) ever lowers the progress of a
    job. *)
Theorem progress_is_percentage (s : BatchProcessor) :
  reachable s →
  (∀ r j, objects s !! r = Some j →
     (0 <= progress j)%Q ∧ (progress j <= 100)%Q ∧
     (status j = PENDING → (progress j == 0)%Q) ∧
     (status j = COMPLETED → (progress j == 100)%Q)) ∧
  (∀ ev r j j', objects s !! r = Some j → objects (step s ev) !! r = Some j' →
     (progress j <= progress j')%Q).
Proof.
  intros Hs. apply reachable_Inv in Hs. split.
  - intros r j Hj. destruct (inv_jobs s Hs _ _ Hj) as (t & Ht & H0 & H1 & Hp & Hc & Hm).
    split_and!; try done.
    + intros Hst. rewrite (Hp Hst) in Hm. done.
    + intros Hst. by destruct (Hc Hst).
  - intros ev r j j'. by apply step_progress_mono.
Qed.

Lemma progress_is_percentage_witness :
  (∀ r j, objects one_file_done !! r = Some j →
     (0 <= progress j)%Q ∧ (progress j <= 100)%Q ∧
     (status j = PENDING → (progress j == 0)%Q) ∧
     (status j = COMPLETED → (progress j == 100)%Q)) ∧
  (∀ ev r j j', objects one_file_done !! r = Some j →
     objects (step one_file_done ev) !! r = Some j' →
     (progress j <= progress j')%Q).
Proof.
  apply progress_is_percentage.
  exists 3%nat, 4%nat, batch_processor. eexists. split; reflexivity.
Defined.

(** ** The estimate *)


Lemma Qeq_bool_false (x y : Q) : ¬ (x == y)%Q → Qeq_bool x y = false.
Proof.
  intros H. destruct (Qeq_bool x y) eqn:E; [|done].
  by apply Qeq_bool_eq in E.
Qed.

(** The estimate in the exact reading, unfolded. *)
Lemma estimate_exact (p : Q) (st : option Q) (t : Q) :
  estimate_completion_time p st t =
  if Qeq_bool p 0 || negb (truthy st) then Ok None
  else match st with
       | None => Raise (TypeError "unsupported operand type(s) for -")
       | Some st =>
           if Qeq_bool (p / 100) 0 then Raise ZeroDivisionError
           else Ok (Some (if negb (Qle_bool ((t - st) / (p / 100) - (t - st)) 0)
                          then (t - st) / (p / 100) - (t - st) else 0)%Q)
       end.
Proof.
  unfold estimate_completion_time, f_truthy, f_truediv, f_max0.
  cbn [f_eqb f_sub f_div f_ltb of_int exact].
  change (inject_Z 0) with 0%Q. change (inject_Z 100) with 100%Q.
  destruct (Qeq_bool p 0); [done|]. destruct st as [st|]; [|done].
  cbn [truthy orb]. destruct (negb (Qeq_bool st 0)); [|done]. cbn [negb].
  by destruct (Qeq_bool (p / 100) 0).
Qed.





(** ** Status queries *)

Lemma estimate_never_raises (p : Q) (st : option Q) (t : Q) :
  ∃ o, estimate_completion_time p st t = Ok o ∧
       (o = None ↔ (p == 0)%Q ∨ truthy st = false).
Proof.
  rewrite estimate_exact.
  destruct (Qeq_bool p 0) eqn:Hp; cbn [orb].
  { eexists. split; [done|]. split; [|done]. intros _. left. by apply Qeq_bool_eq. }
  apply Qeq_bool_neq in Hp.
  destruct (truthy st) eqn:Hst; cbn [negb].
  2:{ eexists. split; [done|]. split; [|done]. intros _. by right. }
  destruct st as [st|]; [|discriminate].
  destruct (Qeq_bool (p / 100) 0) eqn:Hd.
  { apply Qeq_bool_eq in Hd. exfalso. apply Hp.
    assert (Hx : (p == p / 100 * 100)%Q) by field.
    rewrite Hx, Hd. ring. }
  eexists. split; [done|]. split; [discriminate|]. intros [H|H]; [done | discriminate].
Qed.

Lemma processing_time_never_raises (j : BatchJob) : ∃ o, processing_time_of j = Ok o.
Proof.
  unfold processing_time_of.
  destruct (end_time j) as [e|], (start_time j) as [b|]; cbn [truthy andb py_sub];
    try by eexists.
  - destruct (negb (Qeq_bool e 0) && negb (Qeq_bool b 0)); by eexists.
  - destruct (negb (Qeq_bool e 0)); by eexists.
Qed.

Lemma processing_time_unknown (j : BatchJob) (pt : option Q) :
  processing_time_of j = Ok pt →
  (pt = None ↔ truthy (end_time j) && truthy (start_time j) = false).
Proof.
  unfold processing_time_of.
  destruct (truthy (end_time j) && truthy (start_time j)) eqn:Hb.
  - destruct (end_time j) as [e|], (start_time j) as [b|]; cbn [py_sub];
      intros [= <-] || (cbn in Hb; rewrite ?andb_false_r in Hb; discriminate).
    split; discriminate.
  - by intros [= <-].
Qed.

Lemma find_in_history_unknown (objs : gmap nat BatchJob) (h : list nat) (jid : string) :
  (∀ r, r ∈ h → job_id (objs !!! r) ≠ jid) → find_in_history objs h jid = Ok None.
Proof.
  induction h as [|r h IH]; intros H; [done|]. cbn.
  destruct (String.eqb_spec (job_id (objs !!! r)) jid) as [E|E].
  - exfalso. apply (H r); [left | done].
  - apply IH. intros r' Hr'. apply H. by right.
Qed.

Lemma find_in_history_app (objs : gmap nat BatchJob) (h1 h2 : list nat) (jid : string) :
  (∀ r, r ∈ h1 → job_id (objs !!! r) ≠ jid) →
  find_in_history objs (h1 ++ h2) jid = find_in_history objs h2 jid.
Proof.
  induction h1 as [|r h1 IH]; intros H; [done|]. cbn.
  destruct (String.eqb_spec (job_id (objs !!! r)) jid) as [E|E].
  - exfalso. apply (H r); [left | done].
  - apply IH. intros r' Hr'. apply H. by right.
Qed.

(** C8: [get_job_status] never raises, and what it returns is the record of
    the job.  In a reachable state: for an identifier that is neither in the
    active set nor the identifier of a job in history it returns [None]; for
    an identifier of the active set it returns the dict of the active job,
    with its status value, progress, number of files, of results and of
    errors, its start time and an estimate that is [None] exactly when the
    progress is zero or the start time is unset or zero; for an identifier
    that is not in the active set it returns the dict of the first job of the
    history that carries it, with the same fields, the end time and a
    processing time that is [None] exactly when the end time or the start
    time is unset or zero. *)
Theorem get_job_status_not_found (s : BatchProcessor) (jid : string) (t : Q) :
  reachable s →
  (unknown_job s jid → get_job_status s jid t = Ok None) ∧
  (∀ r, active_jobs s !! jid = Some r →
     ∃ est,
       get_job_status s jid t =
       Ok (Some (ActiveStatus jid (status_value (status (objects s !!! r)))
                   (progress (objects s !!! r))
                   (length (file_paths (objects s !!! r)))
                   (length (results (objects s !!! r)))
                   (length (errors (objects s !!! r)))
                   (start_time (objects s !!! r)) est)) ∧
       (est = None ↔ (progress (objects s !!! r) == 0)%Q ∨
                      truthy (start_time (objects s !!! r)) = false)) ∧
  (∀ h1 r h2, active_jobs s !! jid = None →
     job_history s = (h1 ++ r :: h2)%list →
     (∀ r', r' ∈ h1 → job_id (objects s !!! r') ≠ jid) →
     job_id (objects s !!! r) = jid →
     ∃ pt,
       get_job_status s jid t =
       Ok (Some (HistoryStatus jid (status_value (status (objects s !!! r)))
                   (progress (objects s !!! r))
                   (length (file_paths (objects s !!! r)))
                   (length (results (objects s !!! r)))
                   (length (errors (objects s !!! r)))
                   (start_time (objects s !!! r)) (end_time (objects s !!! r)) pt)) ∧
       (pt = None ↔ truthy (end_time (objects s !!! r))
                     && truthy (start_time (objects s !!! r)) = false)).
Proof.
  intros Hs. apply reachable_Inv in Hs. unfold get_job_status, py_contains, py_getitem.
  split_and!.
  - intros [Hact Hhist]. rewrite Hact, bool_decide_eq_false_2 by (by intros [? ?]).
    by apply find_in_history_unknown.
  - intros r Hact. rewrite Hact, bool_decide_eq_true_2 by done.
    destruct (inv_active s Hs _ _ Hact) as (j & Hj & Hid).
    rewrite (lookup_total_correct _ _ _ Hj).
    destruct (estimate_never_raises (progress j) (start_time j) t) as (est & -> & Hest).
    exists est. by rewrite Hid.
  - intros h1 r h2 Hact Hh Hh1 Hid.
    rewrite Hact, bool_decide_eq_false_2 by (by intros [? ?]).
    rewrite Hh, find_in_history_app by done. cbn [find_in_history].
    rewrite Hid, String.eqb_refl.
    destruct (processing_time_never_raises (objects s !!! r)) as [pt Hpt].
    rewrite Hpt. exists pt. split; [done|]. by apply processing_time_unknown.
Qed.

Lemma get_job_status_not_found_witness :
  get_job_status one_file_done "batch_7" 9 = Ok None ∧
  ∃ pt, get_job_status one_file_done "batch_1000" 9 =
        Ok (Some (HistoryStatus "batch_1000" "completed" 100 1 1 0 (Some 2%Q) (Some 4%Q) pt)) ∧
        pt ≠ None.
Proof.
  assert (Hr : reachable one_file_done).
  { exists 3%nat, 4%nat, batch_processor. eexists. split; reflexivity. }
  destruct (get_job_status_not_found one_file_done "batch_7" 9 Hr) as (Hu & _ & _).
  destruct (get_job_status_not_found one_file_done "batch_1000" 9 Hr) as (_ & _ & Hh).
  split.
  - apply Hu. split; [vm_compute; reflexivity|].
    intros r Hr0. apply list_elem_of_In in Hr0. vm_compute in Hr0.
    destruct Hr0 as [<-|[]]. vm_compute. discriminate.
  - destruct (Hh [] 0%nat []) as (pt & Hpt & Hnone).
    + vm_compute. reflexivity.
    + vm_compute. reflexivity.
    + intros r' Hr'. by apply elem_of_nil in Hr'.
    + vm_compute. reflexivity.
    + exists pt. split.
      * rewrite Hpt. vm_compute. reflexivity.
      * intros Hn. apply Hnone in Hn. vm_compute in Hn. discriminate Hn.
Defined.

(** ** Active set and history *)

(** C6, as the design document states it, fails: the driver's last step
    completes the terminal transition of the one-file job, and after the
    clean-up thirty-one days later the job is in neither collection. *)
Lemma in_exactly_one_fails :
  terminal_transition one_file_collected (DriverStep 0 (env_ok "" 4)) 0 ∧
  ¬ in_exactly_one one_file_evicted 0.
Proof.
  split.
  - cbn [terminal_transition]. split_and!; [done | | vm_compute; reflexivity].
    exists (AtLoop 4 1). split; [vm_compute; reflexivity | discriminate].
  - assert (Ha : active_jobs one_file_evicted = ∅) by (vm_compute; reflexivity).
    assert (Hh : job_history one_file_evicted = []) by (vm_compute; reflexivity).
    unfold in_exactly_one, in_active, in_history. rewrite Ha, Hh.
    intros [[[k Hk] _] | [Hin _]].
    + by rewrite lookup_empty in Hk.
    + by apply elem_of_nil in Hin.
Qed.

Lemma history_grows (s : BatchProcessor) (ev : Event) (r : nat) :
  Inv s → is_cleanup ev = false →
  r ∈ job_history s → r ∈ job_history (step s ev).
Proof.
  intros HI Hev Hr.
  destruct ev as [fps ats cp t | r0 env | jid t | d t | jid cb | jid cb];
    try discriminate; cbn [step]; try done.
  - by rewrite submit_history.
  - destruct (tasks s !! r0) as [t|] eqn:Ht.
    + destruct (inv_tasks s HI r0) as [j Hj]; [by eexists|].
      destruct (driver_step_summary s r0 env j t Hj Ht)
        as (j' & t' & n & _ & _ & Eh & _).
      rewrite Eh. apply elem_of_app. by left.
    + by rewrite driver_step_idle by auto.
  - rewrite cancel_job_eq. destruct (active_jobs s !! jid); [|done].
    cbn. apply elem_of_app. by left.
Qed.

Lemma terminal_in_history (s : BatchProcessor) (ev : Event) (r : nat) :
  Inv s → terminal_transition s ev r →
  r ∈ job_history (step s ev) ∧ is_Some (objects (step s ev) !! r).
Proof.
  intros HI Hev.
  destruct ev as [fps ats cp t | r0 env | jid t | d t | jid cb | jid cb];
    try done; cbn [terminal_transition] in Hev.
  - destruct Hev as (-> & (t & Ht & Hne) & Hfin). cbn [step] in *.
    destruct (inv_tasks s HI r) as [j Hj]; [by eexists|].
    destruct (driver_step_summary s r env j t Hj Ht)
      as (j' & t' & n & Eo & Et & Eh & _ & _ & _ & _ & Hn & _).
    rewrite Et, lookup_insert_eq in Hfin. injection Hfin as ->.
    rewrite Eh, Eo, lookup_insert_eq. split; [|by eexists].
    apply elem_of_app. right. apply elem_of_replicate. split; [done|].
    specialize (Hn Hne eq_refl). lia.
  - cbn [step]. destruct (inv_active s HI _ _ Hev) as (j & Hj & _).
    rewrite cancel_job_eq, Hev. cbn. split.
    + apply elem_of_app. right. by left.
    + rewrite !lookup_alter_eq, Hj. by eexists.
Qed.

Lemma objects_kept (s : BatchProcessor) (ev : Event) (r : nat) :
  Inv s → is_Some (objects s !! r) → is_Some (objects (step s ev) !! r).
Proof.
  intros HI [j Hj].
  destruct (step_shape s ev HI) as [H | [H | (r0 & j0 & t0 & Hj0 & Ht0 & H)]].
  - destruct H as (Eo & _). rewrite Eo. by eexists.
  - destruct H as (r0 & jid & fps & ats & cp & Hnew & Eo & _).
    rewrite Eo, lookup_insert_ne by congruence. by eexists.
  - destruct H as (j' & t' & n & Eo & _). rewrite Eo, lookup_insert.
    case_decide; by eexists.
Qed.

Lemma not_active_kept (s : BatchProcessor) (ev : Event) (r : nat) :
  Inv s → is_Some (objects s !! r) → ¬ in_active s r → ¬ in_active (step s ev) r.
Proof.
  intros HI [j Hj] Hna [k Hk]. apply Hna.
  destruct (step_shape s ev HI) as [H | [H | (r0 & j0 & t0 & Hj0 & Ht0 & H)]].
  - destruct H as (_ & _ & Ea & _). rewrite Ea in Hk. by exists k.
  - destruct H as (r0 & jid & fps & ats & cp & Hnew & _ & _ & Ea & _).
    rewrite Ea, lookup_insert in Hk. case_decide; [|by exists k].
    injection Hk as ->. congruence.
  - destruct H as (j' & t' & n & _ & _ & _ & Ea & _). rewrite Ea in Hk.
    destruct (n =? 0)%nat; [by exists k|].
    apply lookup_delete_Some in Hk as [_ Hk]. by exists k.
Qed.

Lemma settled_run (evs : list Event) (s : BatchProcessor) (r : nat) :
  Inv s → is_Some (objects s !! r) → ¬ in_active s r →
  ¬ in_active (run s evs) r ∧
  (forallb (λ ev, negb (is_cleanup ev)) evs = true →
   r ∈ job_history s → r ∈ job_history (run s evs)).
Proof.
  revert s. induction evs as [|ev evs IH]; intros s HI Hobj Hna; [done|].
  cbn [run fold_left forallb].
  destruct (IH (step s ev)) as [IH1 IH2].
  - by apply Inv_step.
  - by apply objects_kept.
  - by apply not_active_kept.
  - split; [done|]. intros Hall Hr. apply andb_true_iff in Hall as [Hev Hall].
    apply IH2; [done|]. apply history_grows; [done | | done].
    by destruct (is_cleanup ev).
Qed.

(** C6 (amended): from the moment a job's terminal transition (an accepted
    [cancel_job], or the driver step that finishes the task as Completed or
    Failed) is done, the job object is never in the active set again,
    whatever operations follow; and as long as no [cleanup_old_jobs] is among
    them it stays in the history, hence in exactly one of the two
    collections.  ([cleanup_old_jobs] may evict it from the history, after
    which it is in neither.) *)
Theorem terminal_job_leaves_active_set (s : BatchProcessor) (ev : Event) (r : nat)
    (evs : list Event) :
  reachable s → terminal_transition s ev r →
  ¬ in_active (run (step s ev) evs) r ∧
  (forallb (λ e, negb (is_cleanup e)) evs = true →
   in_history (run (step s ev) evs) r ∧ in_exactly_one (run (step s ev) evs) r).
Proof.
  intros Hs Hev. apply reachable_Inv in Hs.
  destruct (terminal_in_history s ev r Hs Hev) as [Hh Hobj].
  assert (HI : Inv (step s ev)) by (by apply Inv_step).
  assert (Hna : ¬ in_active (step s ev) r).
  { intros [k Hk]. by destruct (inv_history _ HI _ Hh) as [_ Hno]; apply (Hno k). }
  destruct (settled_run evs (step s ev) r HI Hobj Hna) as [H1 H2].
  split; [done|]. intros Hall.
  assert (Hin : in_history (run (step s ev) evs) r) by (by apply H2).
  split; [done|]. right. by split.
Qed.

Lemma terminal_job_leaves_active_set_witness :
  ¬ in_active (run (step first_batch_done (Cancel "batch_1000" 4))
                 [DriverStep 0 (env_ok "" 5); DriverStep 0 (env_ok "e.png" 6)]) 0 ∧
  (forallb (λ e, negb (is_cleanup e))
     [DriverStep 0 (env_ok "" 5); DriverStep 0 (env_ok "e.png" 6)] = true →
   in_history (run (step first_batch_done (Cancel "batch_1000" 4))
                 [DriverStep 0 (env_ok "" 5); DriverStep 0 (env_ok "e.png" 6)]) 0 ∧
   in_exactly_one (run (step first_batch_done (Cancel "batch_1000" 4))
                     [DriverStep 0 (env_ok "" 5); DriverStep 0 (env_ok "e.png" 6)]) 0).
Proof.
  apply terminal_job_leaves_active_set.
  - exists 3%nat, 4%nat, batch_processor. eexists. split; reflexivity.
  - vm_compute. reflexivity.
Defined.

(** ** The driver when nothing goes wrong *)

Section good_path.
Context (s : BatchProcessor) (r : nat) (j : BatchJob) (env : Env).
Hypothesis Hj : objects s !! r = Some j.

Lemma step_start :
  tasks s !! r = Some AtStart → (0 < max_workers s)%nat →
  driver_step r env s =
  (Ok tt, nf s r (started (now env) j) (AtLoop 0 0)
            (job_history s) (active_jobs s) (result_files s)).
Proof.
  intros Ht Hw. rewrite (driver_step_nf s r env j _ Hj Ht).
  unfold try_except. cbn [driver_body]. unfold driver_start.
  rewrite !exec_mutate, exec_reads, batch_size_nf.
  assert (Hbs : (batch_size s =? 0)%nat = false).
  { apply Nat.eqb_neq. unfold batch_size. lia. }
  rewrite Hbs. by rewrite exec_set_task.
Qed.

Lemma step_dispatch (i c : nat) :
  tasks s !! r = Some (AtLoop i c) → (i < length (file_paths j))%nat →
  driver_step r env s =
  (Ok tt, nf s r j (AtCollect i (take (batch_size s) (drop i (file_paths j))) c)
            (job_history s) (active_jobs s) (result_files s)).
Proof.
  intros Ht Hi. rewrite (driver_step_nf s r env j _ Hj Ht).
  unfold try_except. cbn [driver_body]. rewrite exec_deref.
  apply Nat.ltb_lt in Hi. rewrite Hi.
  unfold driver_dispatch. by rewrite exec_deref, exec_reads, batch_size_nf, exec_set_task.
Qed.

Lemma step_collect (i c : nat) (f : string) (rest : list string) :
  tasks s !! r = Some (AtCollect i (f :: rest) c) →
  (0 < length (file_paths j))%nat →
  callbacks_return s (job_id j) →
  driver_step r env s =
  (Ok tt, nf s r (set_progress (nat_Q (S c) / nat_Q (length (file_paths j)) * 100)
                    (record_outcome f (outcome env) j))
            (match rest with
             | [] => AtLoop (i + batch_size s) (S c)
             | _ :: _ => AtCollect i rest (S c)
             end)
            (job_history s) (active_jobs s) (result_files s)).
Proof.
  intros Ht HN [Hcb _].
  rewrite (driver_step_nf s r env j _ Hj Ht).
  unfold try_except. cbn [driver_body]. unfold driver_collect.
  rewrite exec_record_outcome, exec_deref.
  destruct (record_outcome_fields f (outcome env) j) as (Hid & Hfp & _).
  rewrite Hfp. rewrite progress_after_exact.
  assert (HN0 : (length (file_paths j) =? 0)%nat = false) by (apply Nat.eqb_neq; lia).
  rewrite HN0, exec_lift_ok, exec_mutate, exec_deref, exec_reads.
  cbn [progress_callbacks nf].
  change (job_id (set_progress _ (record_outcome f (outcome env) j)))
    with (job_id (record_outcome f (outcome env) j)).
  rewrite Hid.
  destruct (progress_callbacks s !! job_id j) as [cb|] eqn:Hl; unfold call_callback.
  - rewrite (Hcb cb eq_refl), exec_ret, exec_reads, batch_size_nf.
    by destruct rest; rewrite exec_set_task.
  - rewrite exec_ret, exec_reads, batch_size_nf.
    by destruct rest; rewrite exec_set_task.
Qed.

Lemma step_finish (i c : nat) (st : Q) :
  tasks s !! r = Some (AtLoop i c) → (length (file_paths j) ≤ i)%nat →
  active_jobs s !! job_id j = Some r →
  callbacks_return s (job_id j) →
  start_time j = Some st →
  driver_step r env s =
  (Ok tt, nf s r (completed (now env) j) Finished
            (job_history s ++ [r]) (delete (job_id j) (active_jobs s))
            match write_error env with
            | Some _ => result_files s
            | None => <["job_" +:+ job_id j +:+ ".json" :=
                          (now env, make_job_data (completed (now env) j))]>
                        (result_files s)
            end).
Proof.
  intros Ht Hi Hact [_ Hcb] Hst.
  rewrite (driver_step_nf s r env j _ Hj Ht).
  unfold try_except. cbn [driver_body]. rewrite exec_deref.
  assert (Hlt : (i <? length (file_paths j))%nat = false) by (apply Nat.ltb_ge; lia).
  rewrite Hlt. unfold driver_finish.
  rewrite !exec_mutate, exec_save, exec_history, exec_deref.
  unfold del_active_job. rewrite exec_bind, exec_reads. cbn [active_jobs nf].
  fold (completed (now env) j). change (job_id (completed (now env) j)) with (job_id j).
  unfold py_contains. rewrite Hact, bool_decide_eq_true_2 by done.
  rewrite exec_active, exec_reads. cbn [completion_callbacks nf].
  change (end_time (completed (now env) j)) with (Some (now env)).
  change (start_time (completed (now env) j)) with (start_time j).
  rewrite Hst. cbn [py_sub].
  destruct (completion_callbacks s !! job_id j) as [cb|] eqn:Hl; unfold call_callback.
  - by rewrite (Hcb cb eq_refl), exec_ret, exec_lift_ok, exec_set_task.
  - by rewrite exec_ret, exec_lift_ok, exec_set_task.
Qed.
End good_path.

Lemma nf_nf (s : BatchProcessor) (r : nat) j t h a fl j' t' h' a' fl' :
  nf (nf s r j t h a fl) r j' t' h' a' fl' = nf s r j' t' h' a' fl'.
Proof. unfold nf; cbn. by rewrite !insert_insert_eq. Qed.

Lemma nf_objects (s : BatchProcessor) (r : nat) j t h a fl :
  objects (nf s r j t h a fl) !! r = Some j.
Proof. apply lookup_insert_eq. Qed.

Lemma nf_tasks (s : BatchProcessor) (r : nat) j t h a fl :
  tasks (nf s r j t h a fl) !! r = Some t.
Proof. apply lookup_insert_eq. Qed.

(** ** Whole runs *)

Lemma drive_step (w : World) (fuel k r : nat) (s : BatchProcessor) (t : DriverTask) :
  tasks s !! r = Some t → t ≠ Finished →
  drive w (S fuel) k r s = drive w fuel (S k) r (snd (driver_step r (env_at w k t) s)).
Proof. intros Ht Hne. cbn [drive]. rewrite Ht. by destruct t. Qed.

Lemma drive_finished (w : World) (fuel k r : nat) (s : BatchProcessor) :
  tasks s !! r = Some Finished → drive w fuel k r s = s.
Proof. intros Ht. destruct fuel; [done|]. cbn [drive]. by rewrite Ht. Qed.

Lemma collect_all_fields wk n c fs j :
  job_id (collect_all wk n c fs j) = job_id j ∧
  file_paths (collect_all wk n c fs j) = file_paths j ∧
  status (collect_all wk n c fs j) = status j ∧
  start_time (collect_all wk n c fs j) = start_time j.
Proof.
  revert c j. induction fs as [|f fs IH]; intros c j; [done|].
  cbn [collect_all]. destruct (IH (S c) (set_progress (nat_Q (S c) / nat_Q n * 100)
                                        (record_outcome f (wk c f) j))) as (-> & -> & -> & ->).
  destruct (record_outcome_fields f (wk c f) j) as (? & ? & ? & _ & ? & _).
  by cbn.
Qed.

Lemma collect_all_app wk n c l1 l2 j :
  collect_all wk n c (l1 ++ l2) j = collect_all wk n (c + length l1) l2 (collect_all wk n c l1 j).
Proof.
  revert c j. induction l1 as [|f l1 IH]; intros c j; cbn [collect_all app length].
  - by rewrite Nat.add_0_r.
  - rewrite IH. by rewrite Nat.add_succ_r.
Qed.

Lemma collect_all_report wk n c fs j :
  results (collect_all wk n c fs j) = (results j ++ expected_results wk c fs)%list ∧
  errors (collect_all wk n c fs j) = (errors j ++ expected_errors wk c fs)%list.
Proof.
  revert c j. induction fs as [|f fs IH]; intros c j; cbn [collect_all expected_results expected_errors].
  - by rewrite !app_nil_r.
  - destruct (IH (S c) (set_progress (nat_Q (S c) / nat_Q n * 100)
                          (record_outcome f (wk c f) j))) as (-> & ->).
    destruct (wk c f) as [p|e]; cbn; by rewrite <- !app_assoc.
Qed.

Lemma expected_results_length wk c fs : length (expected_results wk c fs) = length fs.
Proof. revert c. induction fs as [|f fs IH]; intros c; cbn; [done | by rewrite IH]. Qed.

Lemma expected_errors_length wk c fs : length (expected_errors wk c fs) = failures wk c fs.
Proof.
  revert c. induction fs as [|f fs IH]; intros c; cbn [expected_errors failures]; [done|].
  rewrite length_app, IH. by destruct (wk c f).
Qed.

Lemma expected_results_tagged wk c fs :
  Forall (λ e, entry_status e = "success" ∨ entry_status e = "error")
    (expected_results wk c fs).
Proof.
  revert c. induction fs as [|f fs IH]; intros c; cbn [expected_results]; constructor.
  - destruct (wk c f); cbn; auto.
  - apply IH.
Qed.

Section runs.
Context (w : World) (r : nat) (jid : string) (fps : list string).

Lemma drive_collect (i : nat) (rest : list string) :
  ∀ (f : string) (c : nat) (j : BatchJob) (s : BatchProcessor) (k fuel : nat),
    objects s !! r = Some j → tasks s !! r = Some (AtCollect i (f :: rest) c) →
    file_paths j = fps → job_id j = jid → (0 < length fps)%nat →
    callbacks_return s jid →
    drive w (S (length rest) + fuel) k r s =
    drive w fuel (k + S (length rest)) r
      (nf s r (collect_all (work w) (length fps) c (f :: rest) j)
         (AtLoop (i + batch_size s) (c + S (length rest)))
         (job_history s) (active_jobs s) (result_files s)).
Proof.
  induction rest as [|f' rest' IH]; intros f c j s k fuel Hj Ht Hfp Hid HN Hcb.
  - cbn [length Nat.add]. rewrite (drive_step w fuel k r s _ Ht) by done.
    rewrite (step_collect s r j _ Hj i c f [] Ht) by (by rewrite ?Hfp, ?Hid).
    cbn [snd env_at outcome collect_all]. rewrite Hfp.
    by rewrite !Nat.add_1_r.
  - cbn [length Nat.add]. rewrite (drive_step w _ k r s _ Ht) by done.
    rewrite (step_collect s r j _ Hj i c f (f' :: rest') Ht) by (by rewrite ?Hfp, ?Hid).
    cbn [snd env_at outcome]. rewrite Hfp.
    set (j2 := set_progress _ (record_outcome f (work w c f) j)).
    destruct (record_outcome_fields f (work w c f) j) as (Hid2 & Hfp2 & _).
    change (S (length rest' + fuel)) with (S (length rest') + fuel)%nat.
    rewrite (IH f' (S c) j2); [| apply nf_objects | apply nf_tasks
                               | by rewrite <- Hfp | by rewrite <- Hid | done | done].
    rewrite nf_nf. cbn [collect_all job_history active_jobs result_files nf].
    rewrite batch_size_nf. fold j2.
    by rewrite <- !Nat.add_succ_comm.
Qed.

Lemma drive_loop (st : Q) :
  ∀ (n c i : nat) (j : BatchJob) (s : BatchProcessor) (k fuel : nat),
    n = (length fps - c)%nat →
    objects s !! r = Some j → tasks s !! r = Some (AtLoop i c) →
    c = Nat.min i (length fps) →
    file_paths j = fps → job_id j = jid → start_time j = Some st →
    active_jobs s !! jid = Some r → callbacks_return s jid →
    (0 < max_workers s)%nat → (2 * n + 1 ≤ fuel)%nat →
    ∃ tfin fl,
      drive w fuel k r s =
      nf s r (completed tfin (collect_all (work w) (length fps) c (drop c fps) j))
        Finished (job_history s ++ [r]) (delete jid (active_jobs s)) fl.
Proof.
  induction n as [n IH] using lt_wf_ind.
  intros c i j s k fuel Hn Hj Ht Hc Hfp Hid Hst Hact Hcb Hw Hfuel.
  destruct (decide (i < length fps)%nat) as [Hi|Hi].
  - (* one more sub-batch *)
    rewrite Nat.min_l in Hc by lia. subst c.
    destruct fuel as [|fuel]; [lia|].
    rewrite (drive_step w fuel k r s _ Ht) by done.
    rewrite (step_dispatch s r j _ Hj i i Ht) by (by rewrite Hfp).
    cbn [snd]. rewrite Hfp.
    assert (Hbs : (0 < batch_size s)%nat) by (unfold batch_size; lia).
    assert (Hlen : length (take (batch_size s) (drop i fps)) =
                   Nat.min (batch_size s) (length fps - i)).
    { by rewrite length_take, length_drop. }
    destruct (take (batch_size s) (drop i fps)) as [|f rest] eqn:Hbatch;
      [cbn in Hlen; lia|].
    cbn [length] in Hlen.
    set (s1 := nf s r j (AtCollect i (f :: rest) i) _ _ _).
    assert (Hfuel' : ∃ fuel', fuel = (S (length rest) + fuel')%nat ∧
                              (2 * (length fps - (i + S (length rest))) + 1 ≤ fuel')%nat).
    { exists (fuel - S (length rest))%nat. lia. }
    destruct Hfuel' as (fuel' & -> & Hfuel').
    rewrite (drive_collect i rest f i j s1 (S k) fuel');
      [| apply nf_objects | apply nf_tasks | done | done | lia | done].
    subst s1. rewrite nf_nf, batch_size_nf.
    cbn [job_history active_jobs result_files nf].
    set (j2 := collect_all (work w) (length fps) i (f :: rest) j).
    set (s2 := nf s r j2 _ _ _ _).
    destruct (collect_all_fields (work w) (length fps) i (f :: rest) j)
      as (Hid2 & Hfp2 & _ & Hst2).
    destruct (IH (length fps - (i + S (length rest)))%nat ltac:(lia)
                (i + S (length rest))%nat (i + batch_size s)%nat j2 s2
                (S k + S (length rest))%nat fuel')
      as (tfin & fl & Hrun); try done.
    + apply nf_objects.
    + apply nf_tasks.
    + lia.
    + fold j2 in Hfp2. congruence.
    + fold j2 in Hid2. congruence.
    + fold j2 in Hst2. congruence.
    + exists tfin, fl. rewrite Hrun. subst s2. rewrite nf_nf.
      cbn [job_history active_jobs nf].
      assert (Hjob : collect_all (work w) (length fps) (i + S (length rest))
                       (drop (i + S (length rest)) fps) j2 =
                     collect_all (work w) (length fps) i (drop i fps) j).
      { subst j2.
        rewrite <- (take_drop (batch_size s) (drop i fps)) at 1.
        rewrite Hbatch, collect_all_app. cbn [length]. f_equal.
        rewrite drop_drop.
        destruct (decide (i + batch_size s ≤ length fps)%nat).
        - f_equal. lia.
        - rewrite !drop_ge; [done | lia | lia]. }
      by rewrite Hjob.
  - (* finalisation *)
    rewrite Nat.min_r in Hc by lia. subst c.
    destruct fuel as [|fuel]; [lia|].
    rewrite (drive_step w fuel k r s _ Ht) by done.
    rewrite (step_finish s r j _ Hj i (length fps) st Ht)
      by (rewrite ?Hfp, ?Hid; first [done | lia]).
    cbn [snd]. rewrite drive_finished by apply nf_tasks.
    rewrite drop_ge by lia. cbn [collect_all]. rewrite Hid.
    by eexists _, _.
Qed.
End runs.

(** C5: per-file failures do not fail the job.  A job of N files has just been
    submitted (it is Pending in the active set, its driver not yet started);
    the callbacks registered for it, if any, return normally, and nothing
    interferes with the driver.  Then, whatever each work unit does, the
    driver run to its end leaves the job Completed and in the history, with
    one entry in [results] per file, in order, tagged success or error, and
    one entry in [errors] per file whose work unit raised: N results and k
    errors when exactly k units raise. *)
Theorem per_file_failures_do_not_fail_job (w : World) (s : BatchProcessor) (r : nat)
    (jid : string) (fps ats : list string) (cp : option string) (k fuel : nat) :
  objects s !! r = Some (new_BatchJob jid fps ats cp) →
  tasks s !! r = Some AtStart →
  active_jobs s !! jid = Some r →
  (0 < max_workers s)%nat →
  callbacks_return s jid →
  (2 * length fps + 2 ≤ fuel)%nat →
  ∃ j', objects (drive w fuel k r s) !! r = Some j' ∧
        tasks (drive w fuel k r s) !! r = Some Finished ∧
        status j' = COMPLETED ∧
        results j' = expected_results (work w) 0 fps ∧
        errors j' = expected_errors (work w) 0 fps ∧
        length (results j') = length fps ∧
        length (errors j') = failures (work w) 0 fps ∧
        Forall (λ e, entry_status e = "success" ∨ entry_status e = "error") (results j') ∧
        in_history (drive w fuel k r s) r ∧
        active_jobs (drive w fuel k r s) !! jid = None.
Proof.
  intros Hj Ht Hact Hw Hcb Hfuel.
  destruct fuel as [|fuel]; [lia|].
  rewrite (drive_step w fuel k r s _ Ht) by done.
  rewrite (step_start s r _ _ Hj Ht Hw). cbn [snd].
  set (j1 := started _ _). set (s1 := nf s r j1 _ _ _ _).
  destruct (drive_loop w r jid fps (now (env_at w k AtStart))
              (length fps) 0 0 j1 s1 (S k) fuel)
    as (tfin & fl & Hrun); try done.
  - lia.
  - apply nf_objects.
  - apply nf_tasks.
  - lia.
  - rewrite Hrun. subst s1. rewrite nf_nf. cbn [job_history active_jobs nf].
    eexists. split; [apply nf_objects|]. split; [apply nf_tasks|].
    destruct (collect_all_report (work w) (length fps) 0 fps j1) as [Hres Herr].
    rewrite drop_0.
    change (results j1) with (@nil ResultEntry) in Hres.
    change (errors j1) with (@nil string) in Herr.
    rewrite app_nil_l in Hres, Herr.
    set (jc := collect_all (work w) (length fps) 0 fps j1) in *.
    change (results (completed tfin jc)) with (results jc).
    change (errors (completed tfin jc)) with (errors jc).
    rewrite Hres, Herr.
    split_and!.
    + done.
    + done.
    + done.
    + apply expected_results_length.
    + apply expected_errors_length.
    + apply expected_results_tagged.
    + apply elem_of_app. right. by left.
    + apply lookup_delete_eq.
Qed.

Lemma per_file_failures_do_not_fail_job_witness :
  ∃ j', objects (drive sample_world 12 0 0 five_submitted) !! 0%nat = Some j' ∧
        tasks (drive sample_world 12 0 0 five_submitted) !! 0%nat = Some Finished ∧
        status j' = COMPLETED ∧
        results j' = expected_results (work sample_world) 0 five_files ∧
        errors j' = expected_errors (work sample_world) 0 five_files ∧
        length (results j') = length five_files ∧
        length (errors j') = failures (work sample_world) 0 five_files ∧
        Forall (λ e, entry_status e = "success" ∨ entry_status e = "error") (results j') ∧
        in_history (drive sample_world 12 0 0 five_submitted) 0 ∧
        active_jobs (drive sample_world 12 0 0 five_submitted) !! "batch_1000" = None.
Proof.
  apply (per_file_failures_do_not_fail_job sample_world five_submitted 0 "batch_1000"
           five_files ["document"] None 0 12).
  - vm_compute. reflexivity.
  - vm_compute. reflexivity.
  - vm_compute. reflexivity.
  - vm_compute. lia.
  - split; intros cb H; vm_compute in H; discriminate H.
  - vm_compute. lia.
Defined.

(** C10: a job with no files.  Its driver takes two steps: the start, after
    which the loop has nothing to dispatch, and the finalisation; no future is
    collected, so the division by [total_files] is never evaluated and no
    exception reaches the handler.  The job ends Completed with progress 100,
    no results and no errors, in the history. *)
Theorem empty_job_completes (s : BatchProcessor) (r : nat) (jid : string)
    (ats : list string) (cp : option string) (env1 env2 : Env) :
  objects s !! r = Some (new_BatchJob jid [] ats cp) →
  tasks s !! r = Some AtStart →
  active_jobs s !! jid = Some r →
  (0 < max_workers s)%nat →
  callbacks_return s jid →
  let s1 := snd (driver_step r env1 s) in
  let s2 := snd (driver_step r env2 s1) in
  tasks s1 !! r = Some (AtLoop 0 0) ∧
  dispatches_next s1 r = false ∧
  tasks s2 !! r = Some Finished ∧
  ∃ j', objects s2 !! r = Some j' ∧
        status j' = COMPLETED ∧ progress j' = 100%Q ∧
        results j' = [] ∧ errors j' = [] ∧
        in_history s2 r.
Proof.
  intros Hj Ht Hact Hw Hcb. cbn zeta.
  rewrite (step_start s r _ env1 Hj Ht Hw). cbn [snd].
  set (j1 := started _ _). set (s1 := nf s r j1 _ _ _ _).
  assert (Hj1 : objects s1 !! r = Some j1) by apply nf_objects.
  assert (Ht1 : tasks s1 !! r = Some (AtLoop 0 0)) by apply nf_tasks.
  split; [done|]. split.
  { unfold dispatches_next. rewrite Ht1, (lookup_total_correct _ _ _ Hj1). done. }
  rewrite (step_finish s1 r j1 env2 Hj1 0 0 (now env1) Ht1); try done.
  cbn [snd]. split; [apply nf_tasks|].
  eexists. split; [apply nf_objects|]. split_and!; try done.
  unfold in_history. cbn [job_history nf]. apply elem_of_app. right. by left.
Qed.

Lemma empty_job_completes_witness :
  tasks (snd (driver_step 0 (env_ok "" 2) empty_submitted)) !! 0%nat = Some (AtLoop 0 0) ∧
  dispatches_next (snd (driver_step 0 (env_ok "" 2) empty_submitted)) 0 = false ∧
  tasks (snd (driver_step 0 (env_ok "" 3)
                (snd (driver_step 0 (env_ok "" 2) empty_submitted)))) !! 0%nat
    = Some Finished ∧
  ∃ j', objects (snd (driver_step 0 (env_ok "" 3)
                        (snd (driver_step 0 (env_ok "" 2) empty_submitted)))) !! 0%nat
          = Some j' ∧
        status j' = COMPLETED ∧ progress j' = 100%Q ∧
        results j' = [] ∧ errors j' = [] ∧
        in_history (snd (driver_step 0 (env_ok "" 3)
                           (snd (driver_step 0 (env_ok "" 2) empty_submitted)))) 0.
Proof.
  apply (empty_job_completes empty_submitted 0 "batch_1000" ["document"] None
           (env_ok "" 2) (env_ok "" 3)).
  - vm_compute. reflexivity.
  - vm_compute. reflexivity.
  - vm_compute. reflexivity.
  - vm_compute. lia.
  - split; intros cb H; vm_compute in H; discriminate H.
Defined.

(** ** One driver step, exactly *)

Ltac case_leaf n :=
  eexists _, _, n; split; cycle 1;
  [ cbn [snd replicate Nat.eqb]; unfold files_after;
    rewrite <- ?app_assoc, ?app_nil_r; cbn [app] | ].

Lemma driver_step_cases (s : BatchProcessor) (r : nat) (env : Env)
    (j : BatchJob) (t : DriverTask) :
  objects s !! r = Some j → tasks s !! r = Some t →
  ∃ j' t' n,
    step_case s env j t j' t' n ∧
    snd (driver_step r env s) =
    nf s r j' t' (job_history s ++ replicate n r)
      (if (n =? 0)%nat then active_jobs s else delete (job_id j) (active_jobs s))
      (files_after s env j t).
Proof.
  intros Hj Ht. rewrite (driver_step_nf s r env j t Hj Ht).
  unfold try_except.
  destruct t as [| i c | i [|f rest] c |]; cbn [driver_body].
  - unfold driver_start. rewrite !exec_mutate, exec_reads, batch_size_nf.
    destruct (batch_size s =? 0)%nat eqn:Hbs.
    + unfold raise. cbv beta iota. rewrite exec_handler.
      case_leaf 1%nat; [reflexivity|].
      apply case_start_raise. by apply Nat.eqb_eq.
    + rewrite exec_set_task. case_leaf 0%nat; [reflexivity|].
      apply case_start. by apply Nat.eqb_neq.
  - rewrite exec_deref.
    destruct (i <? length (file_paths j))%nat eqn:Hlt.
    + unfold driver_dispatch. rewrite exec_deref, exec_reads, batch_size_nf, exec_set_task.
      case_leaf 0%nat; [by rewrite Hlt|].
      apply case_dispatch. by apply Nat.ltb_lt.
    + apply Nat.ltb_ge in Hlt as Hge.
      unfold driver_finish.
      rewrite !exec_mutate, exec_save, exec_history, exec_deref.
      unfold del_active_job. rewrite exec_bind, exec_reads. cbn [active_jobs nf].
      fold (completed (now env) j). change (job_id (completed (now env) j)) with (job_id j).
      unfold py_contains. case_bool_decide as Hin.
      * rewrite exec_active, exec_reads. cbn [completion_callbacks nf].
        change (end_time (completed (now env) j)) with (Some (now env)).
        change (start_time (completed (now env) j)) with (start_time j).
        destruct (completion_callbacks s !! job_id j) as [cb|] eqn:Hcb; unfold call_callback;
          [destruct (cb (completed (now env) j)) as [e|] eqn:Hcbe |].
        -- rewrite exec_raise. cbv beta iota. rewrite exec_handler.
           case_leaf 2%nat; [by rewrite Hlt, delete_delete_eq|].
           by eapply case_finish_callback.
        -- rewrite exec_ret.
           destruct (start_time j) as [st|] eqn:Hst; cbn [py_sub].
           ++ rewrite exec_lift_ok, exec_set_task.
              case_leaf 1%nat; [by rewrite Hlt|].
              eapply case_finish; try done. intros cb' Hcb'; by simplify_eq.
           ++ rewrite exec_lift_raise. cbv beta iota. rewrite exec_handler.
              case_leaf 2%nat; [by rewrite Hlt, delete_delete_eq|].
              eapply case_finish_not_started; try done. intros cb' Hcb'; by simplify_eq.
        -- rewrite exec_ret.
           destruct (start_time j) as [st|] eqn:Hst; cbn [py_sub].
           ++ rewrite exec_lift_ok, exec_set_task.
              case_leaf 1%nat; [by rewrite Hlt|].
              eapply case_finish; try done; intros cb' Hcb'; by simplify_eq.
           ++ rewrite exec_lift_raise. cbv beta iota. rewrite exec_handler.
              case_leaf 2%nat; [by rewrite Hlt, delete_delete_eq|].
              eapply case_finish_not_started; try done; intros cb' Hcb'; by simplify_eq.
      * rewrite exec_raise. cbv beta iota. rewrite exec_handler.
        case_leaf 2%nat; [by rewrite Hlt|].
        apply case_finish_not_active; [done|]. by apply eq_None_not_Some.
  - rewrite exec_reads, batch_size_nf, exec_set_task.
    case_leaf 0%nat; [reflexivity|]. apply case_collect_nil.
  - unfold driver_collect. rewrite exec_record_outcome, exec_deref.
    destruct (record_outcome_fields f (outcome env) j) as (Hid & Hfp & Hst & Hpr & _).
    rewrite Hfp. rewrite progress_after_exact.
    destruct (length (file_paths j) =? 0)%nat eqn:HN0.
    + rewrite exec_lift_raise. cbv beta iota. rewrite exec_handler.
      case_leaf 1%nat; [by rewrite Hid|].
      apply case_collect_no_files. by apply Nat.eqb_eq.
    + apply Nat.eqb_neq in HN0 as HN.
      rewrite exec_lift_ok, exec_mutate, exec_deref, exec_reads.
      cbn [progress_callbacks nf]. fold (collected c f (outcome env) j).
      assert (Hid2 : job_id (collected c f (outcome env) j) = job_id j) by done.
      rewrite Hid2.
      destruct (progress_callbacks s !! job_id j) as [cb|] eqn:Hcb; unfold call_callback;
        [destruct (cb (progress (collected c f (outcome env) j)) (S c)
                     (length (file_paths j))) as [e|] eqn:Hcbe |].
      * rewrite exec_raise. cbv beta iota. rewrite exec_handler.
        case_leaf 1%nat; [by rewrite Hid2|].
        by eapply case_collect_callback.
      * rewrite exec_ret, exec_reads, batch_size_nf.
        assert (Hnext : ∀ s0, (match rest with
                               | [] => set_task r (AtLoop (i + batch_size s) (S c))
                               | _ :: _ => set_task r (AtCollect i rest (S c))
                               end) s0 =
                              set_task r (next_task (batch_size s) i rest c) s0)
          by (by destruct rest).
        rewrite Hnext, exec_set_task.
        case_leaf 0%nat; [reflexivity|].
        apply case_collect; [done|]. intros cb' Hcb'; by simplify_eq.
      * rewrite exec_ret, exec_reads, batch_size_nf.
        assert (Hnext : ∀ s0, (match rest with
                               | [] => set_task r (AtLoop (i + batch_size s) (S c))
                               | _ :: _ => set_task r (AtCollect i rest (S c))
                               end) s0 =
                              set_task r (next_task (batch_size s) i rest c) s0)
          by (by destruct rest).
        rewrite Hnext, exec_set_task.
        case_leaf 0%nat; [reflexivity|].
        apply case_collect; [done|]; intros cb' Hcb'; by simplify_eq.
  - cbv beta iota. unfold ret. case_leaf 0%nat; [reflexivity|]. apply case_finished.
Qed.

(** ** Submission, status and cancellation together *)

Lemma status_after_submit_at (s : BatchProcessor) (fps ats : list string)
    (cp : option string) (t : float) (t' : Q) (jid : string) :
  make_job_id t = Ok jid →
  get_job_status (snd (submit_batch_job fps ats cp t s)) jid t' =
    Ok (Some (ActiveStatus jid "pending" 0 (length fps) 0 0 None None)).
Proof.
  intros Hid. rewrite (submit_batch_job_eq _ _ _ _ _ _ Hid).
  unfold get_job_status, py_contains, py_getitem.
  cbn [snd active_jobs objects with_tasks with_active_jobs with_objects].
  rewrite lookup_insert_eq, bool_decide_eq_true_2 by done.
  by rewrite lookup_total_insert_eq.
Qed.

(** X1: what [submit_batch_job] leaves behind.  Whatever the processor and the
    inputs, when the clock reading gives the identifier [jid] the call
    registers the job and creates its task, and then raises the
    [AttributeError] of its line 105 instead of returning [jid]:
    [UsageAnalytics] has no [track_feature_usage].  [get_job_status] on [jid]
    then answers from the active set: status pending, progress 0, the number
    of files submitted, nothing completed, no errors, no start time and no
    estimate. *)
Theorem status_after_submit (s : BatchProcessor) (fps ats : list string)
    (cp : option string) (t : float) (t' : Q) (jid : string) :
  make_job_id t = Ok jid →
  fst (submit_batch_job fps ats cp t s) =
    Raise (AttributeError "'UsageAnalytics' object has no attribute 'track_feature_usage'") ∧
  get_job_status (snd (submit_batch_job fps ats cp t s)) jid t' =
    Ok (Some (ActiveStatus jid "pending" 0 (length fps) 0 0 None None)).
Proof.
  intros Hid. split; [by rewrite (submit_batch_job_eq _ _ _ _ _ _ Hid)|].
  by apply status_after_submit_at.
Qed.

Lemma status_after_submit_witness :
  fst (submit_batch_job five_files ["document"] None 1 batch_processor) =
    Raise (AttributeError "'UsageAnalytics' object has no attribute 'track_feature_usage'") ∧
  get_job_status (snd (submit_batch_job five_files ["document"] None 1 batch_processor))
    "batch_1000" 2 =
    Ok (Some (ActiveStatus "batch_1000" "pending" 0 (length five_files) 0 0 None None)).
Proof.
  apply (status_after_submit batch_processor five_files ["document"] None 1 2 "batch_1000").
  vm_compute. reflexivity.
Defined.

(** X2: [cancel_job] answers whether the identifier was in the active set, and
    a second cancellation of the same identifier is always refused and
    changes nothing. *)
Theorem cancel_job_twice (s : BatchProcessor) (jid : string) (t1 t2 : Q) :
  fst (cancel_job jid t1 s) = Ok (py_contains (active_jobs s) jid) ∧
  cancel_job jid t2 (snd (cancel_job jid t1 s)) = (Ok false, snd (cancel_job jid t1 s)).
Proof.
  rewrite (cancel_job_eq jid t1 s). unfold py_contains.
  destruct (active_jobs s !! jid) as [r|] eqn:Hr.
  - split; [by rewrite bool_decide_eq_true_2|].
    rewrite cancel_job_eq. cbn [snd active_jobs with_active_jobs with_job_history with_objects].
    by rewrite lookup_delete_eq.
  - split; [rewrite bool_decide_eq_false_2; [done | by intros [? ?]]|].
    cbn [snd]. by rewrite cancel_job_eq, Hr.
Qed.

(** X3: the status of a job just cancelled.  In a reachable state, when
    [cancel_job] accepts an identifier that no job of the history carries,
    [get_job_status] then answers from the history: status cancelled, the
    cancellation time as end time, and the progress, counts and start time the
    job had. *)
Theorem status_after_cancel (s : BatchProcessor) (jid : string) (r : nat) (t t' : Q) :
  reachable s →
  active_jobs s !! jid = Some r →
  (∀ r', r' ∈ job_history s → job_id (objects s !!! r') ≠ jid) →
  ∃ pt,
    get_job_status (snd (cancel_job jid t s)) jid t' =
    Ok (Some (HistoryStatus jid "cancelled" (progress (objects s !!! r))
                (length (file_paths (objects s !!! r)))
                (length (results (objects s !!! r)))
                (length (errors (objects s !!! r)))
                (start_time (objects s !!! r)) (Some t) pt)).
Proof.
  intros Hs Hr Hh. apply reachable_Inv in Hs.
  destruct (inv_active s Hs _ _ Hr) as (j & Hj & Hid).
  rewrite (lookup_total_correct _ _ _ Hj).
  rewrite cancel_job_eq, Hr. unfold get_job_status, py_contains.
  cbn [snd active_jobs objects job_history with_active_jobs with_job_history with_objects].
  rewrite lookup_delete_eq, bool_decide_eq_false_2 by (by intros [? ?]).
  set (objs := alter (set_end_time t) r (alter (set_status CANCELLED) r (objects s))).
  assert (Hobj : objs !!! r = set_end_time t (set_status CANCELLED j)).
  { apply lookup_total_correct. unfold objs. by rewrite !lookup_alter_eq, Hj. }
  assert (Hids : ∀ r', job_id (objs !!! r') = job_id (objects s !!! r')).
  { intros r'. destruct (decide (r' = r)) as [->|Hne].
    - by rewrite Hobj, (lookup_total_correct _ _ _ Hj).
    - unfold objs. by rewrite !lookup_total_alter_ne. }
  rewrite find_in_history_app by (intros r' Hr'; rewrite Hids; by apply Hh).
  cbn [find_in_history]. rewrite Hobj.
  change (job_id (set_end_time t (set_status CANCELLED j))) with (job_id j).
  rewrite Hid, String.eqb_refl.
  destruct (processing_time_never_raises (set_end_time t (set_status CANCELLED j)))
    as [pt ->].
  by exists pt.
Qed.

Lemma status_after_cancel_witness :
  ∃ pt,
    get_job_status (snd (cancel_job "batch_1000" 4 first_batch_done)) "batch_1000" 5 =
    Ok (Some (HistoryStatus "batch_1000" "cancelled"
                (progress (objects first_batch_done !!! 0%nat))
                (length (file_paths (objects first_batch_done !!! 0%nat)))
                (length (results (objects first_batch_done !!! 0%nat)))
                (length (errors (objects first_batch_done !!! 0%nat)))
                (start_time (objects first_batch_done !!! 0%nat)) (Some 4%Q) pt)).
Proof.
  apply (status_after_cancel first_batch_done "batch_1000" 0 4 5).
  - exists 3%nat, 4%nat, batch_processor. eexists. split; reflexivity.
  - vm_compute. reflexivity.
  - intros r' Hr'. apply list_elem_of_In in Hr'. vm_compute in Hr'. destruct Hr'.
Defined.

Lemma float_ltb_leb (x y : float) : (x <? y)%float = true → (x <=? y)%float = true.
Proof.
  rewrite FloatAxioms.ltb_spec, FloatAxioms.leb_spec. unfold SFltb, SFleb.
  by destruct (SFcompare _ _) as [[]|].
Qed.

(** X4: the estimate in doubles.  For every progress, start time and clock
    reading, [_estimate_completion_time] returns [None] exactly when the
    progress is zero or the start time is unset or zero; otherwise it raises
    [ZeroDivisionError] when [progress / 100] is zero (a progress so small
    that the quotient underflows), and else returns
    [max(0, elapsed / (progress / 100) - elapsed)], which is at least 0 and
    never a NaN. *)
Theorem estimate_never_negative (p : float) (st : option float) (t : float) :
  match estimate_completion_time p st t with
  | Ok None => (p =? 0)%float = true ∨ f_truthy st = false
  | Ok (Some x) =>
      (p =? 0)%float = false ∧ (p / 100 =? 0)%float = false ∧
      (∃ st', st = Some st' ∧ (st' =? 0)%float = false ∧
              x = f_max0 ((t - st') / (p / 100) - (t - st'))%float) ∧
      (0 <=? x)%float = true
  | Raise e =>
      e = ZeroDivisionError ∧ (p =? 0)%float = false ∧ f_truthy st = true ∧
      (p / 100 =? 0)%float = true
  end.
Proof.
  unfold estimate_completion_time, f_truediv.
  cbn [f_eqb f_sub f_div binary64].
  change (of_int 0 : float) with 0%float. change (of_int 100 : float) with 100%float.
  destruct (p =? 0)%float eqn:Hp; cbn [orb]; [by left|].
  destruct (f_truthy st) eqn:Hst; cbn [negb]; [|by right].
  destruct st as [st'|]; [|discriminate].
  cbn [f_truthy f_eqb binary64] in Hst. change (of_int 0 : float) with 0%float in Hst.
  apply negb_true_iff in Hst.
  destruct (p / 100 =? 0)%float eqn:Hd; [done|].
  split_and!; try done; [by exists st'|].
  unfold f_max0. cbn [f_ltb binary64]. change (of_int 0 : float) with 0%float.
  destruct (0 <? _)%float eqn:Hlt; [by apply float_ltb_leb | reflexivity].
Qed.

Lemma estimate_underflow_raises :
  estimate_completion_time 0x1p-1074%float (Some 1%float) 5%float = Raise ZeroDivisionError.
Proof. reflexivity. Qed.

(** X5: a second submission within the same millisecond takes the place of the
    first in the active set.  When two clock readings give the same
    identifier, after the two submissions the identifier leads to the second
    job only: the first job object is not in the active set any more (nor in
    the history), although its driver task exists, and [get_job_status]
    reports the second job's file count. *)
Theorem same_millisecond_submission_replaces (s : BatchProcessor)
    (fps1 ats1 : list string) (cp1 : option string) (t1 : float)
    (fps2 ats2 : list string) (cp2 : option string) (t2 : float) (t' : Q) (jid : string) :
  reachable s →
  make_job_id t1 = Ok jid → make_job_id t2 = Ok jid →
  let r1 := fresh (dom (objects s)) in
  let s1 := snd (submit_batch_job fps1 ats1 cp1 t1 s) in
  let s2 := snd (submit_batch_job fps2 ats2 cp2 t2 s1) in
  in_active s1 r1 ∧ ¬ in_active s2 r1 ∧ ¬ in_history s2 r1 ∧
  tasks s2 !! r1 = Some AtStart ∧
  active_jobs s2 !! jid = Some (fresh (dom (objects s1))) ∧
  get_job_status s2 jid t' =
  Ok (Some (ActiveStatus jid "pending" 0 (length fps2) 0 0 None None)).
Proof.
  intros Hs Hid1 Hid2 r1 s1 s2.
  apply reachable_Inv in Hs.
  assert (HI1 : Inv s1) by apply (Inv_step s (Submit fps1 ats1 cp1 t1) Hs).
  assert (Hfresh : objects s1 !! fresh (dom (objects s1)) = None) by apply fresh_ref_unused.
  assert (Hobj1 : objects s1 !! r1 = Some (new_BatchJob jid fps1 ats1 cp1)).
  { unfold s1. rewrite (submit_objects _ _ _ _ _ _ Hid1). apply lookup_insert_eq. }
  assert (Hne : fresh (dom (objects s1)) ≠ r1) by congruence.
  assert (Hact1 : active_jobs s1 !! jid = Some r1).
  { unfold s1. rewrite (submit_active _ _ _ _ _ _ Hid1). apply lookup_insert_eq. }
  assert (Ht1 : tasks s1 !! r1 = Some AtStart).
  { unfold s1. rewrite (submit_tasks _ _ _ _ _ _ Hid1). apply lookup_insert_eq. }
  split_and!.
  - by exists jid.
  - intros [k Hk]. unfold s2 in Hk.
    rewrite (submit_active _ _ _ _ _ _ Hid2), lookup_insert in Hk.
    case_decide as Hk'.
    + congruence.
    + destruct (inv_active s1 HI1 _ _ Hk) as (j & Hj & Hjid).
      rewrite Hobj1 in Hj. injection Hj as <-. by cbn in Hjid.
  - intros Hin. unfold in_history, s2 in Hin. rewrite submit_history in Hin.
    destruct (inv_history s1 HI1 _ Hin) as [_ Hno]. by apply (Hno jid).
  - unfold s2. by rewrite (submit_tasks _ _ _ _ _ _ Hid2), lookup_insert_ne.
  - unfold s2. rewrite (submit_active _ _ _ _ _ _ Hid2). apply lookup_insert_eq.
  - unfold s2. by apply status_after_submit_at.
Qed.

Lemma same_millisecond_submission_replaces_witness :
  let r1 := fresh (dom (objects batch_processor)) in
  let s1 := snd (submit_batch_job ["a.png"] ["table"] None 1 batch_processor) in
  let s2 := snd (submit_batch_job ["b.png"] ["table"] None 1.000244140625 s1) in
  in_active s1 r1 ∧ ¬ in_active s2 r1 ∧ ¬ in_history s2 r1 ∧
  tasks s2 !! r1 = Some AtStart ∧
  active_jobs s2 !! "batch_1000" = Some (fresh (dom (objects s1))) ∧
  get_job_status s2 "batch_1000" 2 =
  Ok (Some (ActiveStatus "batch_1000" "pending" 0 (length ["b.png"]) 0 0 None None)).
Proof.
  apply (same_millisecond_submission_replaces batch_processor
           ["a.png"] ["table"] None 1 ["b.png"] ["table"] None 1.000244140625 2 "batch_1000").
  - exists 3%nat, 4%nat, batch_processor, []. split; reflexivity.
  - vm_compute. reflexivity.
  - vm_compute. reflexivity.
Defined.

(** ** What a driver step does when something raises *)

Lemma nf_proj (s : BatchProcessor) (r : nat) j t h a fl :
  objects (nf s r j t h a fl) !! r = Some j ∧
  tasks (nf s r j t h a fl) !! r = Some t ∧
  job_history (nf s r j t h a fl) = h ∧
  active_jobs (nf s r j t h a fl) = a ∧
  result_files (nf s r j t h a fl) = fl.
Proof. split_and!; try done; apply lookup_insert_eq. Qed.

Lemma some_eq {A} (o : option A) (a b : A) : o = Some a → o = Some b → a = b.
Proof. congruence. Qed.

Ltac same_some :=
  repeat match goal with
         | H1 : ?x = Some ?a, H2 : ?x = Some ?b |- _ =>
             let E := fresh in pose proof (some_eq _ _ _ H1 H2) as E; subst b
         end.

Ltac use_quiet cb Hcb :=
  match goal with
  | H : _ |- _ => let H' := fresh in pose proof (H cb Hcb) as H'; congruence
  end.

(** X6: an exception of the progress callback fails the job.  When the
    callback registered for a job raises on a progress update, that driver
    step records the file just collected, then marks the job Failed with the
    exception's text as last error, moves it to the history and out of the
    active set and ends the task, so that the remaining files are never
    processed; nothing is written to disk. *)
Theorem progress_callback_exception_fails_job (s : BatchProcessor) (r : nat) (env : Env)
    (j : BatchJob) (i c : nat) (f : string) (rest : list string)
    (cb : ProgressCallback) (e : Exn) :
  objects s !! r = Some j →
  tasks s !! r = Some (AtCollect i (f :: rest) c) →
  length (file_paths j) ≠ 0%nat →
  progress_callbacks s !! job_id j = Some cb →
  cb (progress (collected c f (outcome env) j)) (S c) (length (file_paths j)) = Some e →
  ∃ j', objects (snd (driver_step r env s)) !! r = Some j' ∧
        status j' = FAILED ∧
        results j' = (results j ++ [entry_of f (outcome env)])%list ∧
        errors j' = (errors j ++ error_of f (outcome env) ++ [str_exn e])%list ∧
        end_time j' = Some (now_exc env) ∧
        tasks (snd (driver_step r env s)) !! r = Some Finished ∧
        job_history (snd (driver_step r env s)) = (job_history s ++ [r])%list ∧
        active_jobs (snd (driver_step r env s)) = delete (job_id j) (active_jobs s) ∧
        result_files (snd (driver_step r env s)) = result_files s.
Proof.
  intros Hj Ht HN Hcb Hraise.
  destruct (driver_step_cases s r env j _ Hj Ht) as (j' & t' & n & Hcase & ->).
  destruct (nf_proj s r j' t' (job_history s ++ replicate n r)
              (if (n =? 0)%nat then active_jobs s else delete (job_id j) (active_jobs s))
              (files_after s env j (AtCollect i (f :: rest) c)))
    as (-> & -> & -> & -> & ->).
  inversion Hcase; subst.
  - use_quiet cb Hcb.
  - done.
  - same_some.
    eexists. split; [done|].
    split_and!; try done; destruct (outcome env); cbn; by rewrite <- ?app_assoc.
Qed.

Lemma progress_callback_exception_fails_job_witness :
  ∃ j', objects (snd (driver_step 0 (env_ok "a.png" 3) noisy_progress)) !! 0%nat = Some j' ∧
        status j' = FAILED ∧
        results j' = (results (objects noisy_progress !!! 0%nat)
                      ++ [entry_of "a.png" (outcome (env_ok "a.png" 3))])%list ∧
        errors j' = (errors (objects noisy_progress !!! 0%nat)
                     ++ error_of "a.png" (outcome (env_ok "a.png" 3)) ++ [str_exn boom])%list ∧
        end_time j' = Some (now_exc (env_ok "a.png" 3)) ∧
        tasks (snd (driver_step 0 (env_ok "a.png" 3) noisy_progress)) !! 0%nat
          = Some Finished ∧
        job_history (snd (driver_step 0 (env_ok "a.png" 3) noisy_progress))
          = (job_history noisy_progress ++ [0%nat])%list ∧
        active_jobs (snd (driver_step 0 (env_ok "a.png" 3) noisy_progress))
          = delete (job_id (objects noisy_progress !!! 0%nat)) (active_jobs noisy_progress) ∧
        result_files (snd (driver_step 0 (env_ok "a.png" 3) noisy_progress))
          = result_files noisy_progress.
Proof.
  apply (progress_callback_exception_fails_job noisy_progress 0 (env_ok "a.png" 3)
           (objects noisy_progress !!! 0%nat) 0 0 "a.png" [] (λ _ _ _, Some boom) boom).
  - vm_compute. reflexivity.
  - vm_compute. reflexivity.
  - vm_compute. discriminate.
  - vm_compute. reflexivity.
  - reflexivity.
Defined.

(** X7: an exception of the completion callback fails a job that has already
    been completed and saved.  The finalisation step has by then written the
    result file with status completed and moved the job to the history; the
    handler then marks the job Failed, adds the exception's text to its errors
    and appends it to the history a second time. *)
Theorem completion_callback_exception_fails_job (s : BatchProcessor) (r : nat) (env : Env)
    (j : BatchJob) (i c : nat) (cb : CompletionCallback) (e : Exn) :
  objects s !! r = Some j →
  tasks s !! r = Some (AtLoop i c) →
  (length (file_paths j) ≤ i)%nat →
  is_Some (active_jobs s !! job_id j) →
  completion_callbacks s !! job_id j = Some cb →
  cb (completed (now env) j) = Some e →
  write_error env = None →
  ∃ j', objects (snd (driver_step r env s)) !! r = Some j' ∧
        status j' = FAILED ∧ progress j' = 100%Q ∧
        results j' = results j ∧
        errors j' = (errors j ++ [str_exn e])%list ∧
        tasks (snd (driver_step r env s)) !! r = Some Finished ∧
        job_history (snd (driver_step r env s)) = (job_history s ++ [r; r])%list ∧
        active_jobs (snd (driver_step r env s)) = delete (job_id j) (active_jobs s) ∧
        ∃ data, result_files (snd (driver_step r env s)) !! ("job_" +:+ job_id j +:+ ".json")
                  = Some (now env, data) ∧
                d_status data = "completed" ∧ d_errors data = errors j.
Proof.
  intros Hj Ht HN Hact Hcb Hraise Hw.
  destruct (driver_step_cases s r env j _ Hj Ht) as (j' & t' & n & Hcase & ->).
  destruct (nf_proj s r j' t' (job_history s ++ replicate n r)
              (if (n =? 0)%nat then active_jobs s else delete (job_id j) (active_jobs s))
              (files_after s env j (AtLoop i c)))
    as (-> & -> & -> & -> & ->).
  assert (Hfiles : files_after s env j (AtLoop i c) =
                   <["job_" +:+ job_id j +:+ ".json" :=
                       (now env, make_job_data (completed (now env) j))]> (result_files s)).
  { unfold files_after. rewrite Hw. by rewrite (proj2 (Nat.ltb_ge _ _) HN). }
  rewrite Hfiles.
  inversion Hcase; subst; try lia.
  - use_quiet cb Hcb.
  - destruct Hact as [? Hact]. congruence.
  - same_some.
    eexists. split; [done|]. split_and!; try done.
    eexists. split; [apply lookup_insert_eq|]. done.
  - use_quiet cb Hcb.
Qed.

Lemma completion_callback_exception_fails_job_witness :
  ∃ j', objects (snd (driver_step 0 (env_ok "" 4) noisy_completion)) !! 0%nat = Some j' ∧
        status j' = FAILED ∧ progress j' = 100%Q ∧
        results j' = results (objects noisy_completion !!! 0%nat) ∧
        errors j' = (errors (objects noisy_completion !!! 0%nat) ++ [str_exn boom])%list ∧
        tasks (snd (driver_step 0 (env_ok "" 4) noisy_completion)) !! 0%nat = Some Finished ∧
        job_history (snd (driver_step 0 (env_ok "" 4) noisy_completion))
          = (job_history noisy_completion ++ [0; 0]%nat)%list ∧
        active_jobs (snd (driver_step 0 (env_ok "" 4) noisy_completion))
          = delete (job_id (objects noisy_completion !!! 0%nat))
              (active_jobs noisy_completion) ∧
        ∃ data, result_files (snd (driver_step 0 (env_ok "" 4) noisy_completion))
                  !! ("job_" +:+ job_id (objects noisy_completion !!! 0%nat) +:+ ".json")
                  = Some (now (env_ok "" 4), data) ∧
                d_status data = "completed" ∧
                d_errors data = errors (objects noisy_completion !!! 0%nat).
Proof.
  apply (completion_callback_exception_fails_job noisy_completion 0 (env_ok "" 4)
           (objects noisy_completion !!! 0%nat) 4 1 (λ _, Some boom) boom).
  - vm_compute. reflexivity.
  - vm_compute. reflexivity.
  - vm_compute. lia.
  - vm_compute. by eexists.
  - vm_compute. reflexivity.
  - reflexivity.
  - reflexivity.
Defined.

(** X8: a job that is no longer in the active set when its driver finalises
    ends Failed.  All files have been processed and the result file is written
    with status completed, but [del self.active_jobs[job.job_id]] raises
    [KeyError]: the job is marked Failed, the quoted identifier is added to
    its errors, and it is appended to the history twice. *)
Theorem finalisation_outside_active_set_fails_job (s : BatchProcessor) (r : nat) (env : Env)
    (j : BatchJob) (i c : nat) :
  objects s !! r = Some j →
  tasks s !! r = Some (AtLoop i c) →
  (length (file_paths j) ≤ i)%nat →
  active_jobs s !! job_id j = None →
  ∃ j', objects (snd (driver_step r env s)) !! r = Some j' ∧
        status j' = FAILED ∧ progress j' = 100%Q ∧
        results j' = results j ∧
        errors j' = (errors j ++ ["'" +:+ job_id j +:+ "'"])%list ∧
        tasks (snd (driver_step r env s)) !! r = Some Finished ∧
        job_history (snd (driver_step r env s)) = (job_history s ++ [r; r])%list ∧
        active_jobs (snd (driver_step r env s)) = active_jobs s.
Proof.
  intros Hj Ht HN Hact.
  destruct (driver_step_cases s r env j _ Hj Ht) as (j' & t' & n & Hcase & ->).
  destruct (nf_proj s r j' t' (job_history s ++ replicate n r)
              (if (n =? 0)%nat then active_jobs s else delete (job_id j) (active_jobs s))
              (files_after s env j (AtLoop i c)))
    as (-> & -> & -> & -> & _).
  inversion Hcase; subst; try lia;
    try (match goal with H : is_Some _ |- _ => destruct H as [? H]; congruence end).
  eexists. split; [done|]. split_and!; try done.
  cbn [Nat.eqb]. by apply delete_id.
Qed.

Lemma finalisation_outside_active_set_fails_job_witness :
  ∃ j', objects (snd (driver_step 0 (env_ok "" 7)
                        (run cancelled_midway
                           [DriverStep 0 (env_ok "" 5); DriverStep 0 (env_ok "e.png" 6)])))
          !! 0%nat = Some j' ∧
        status j' = FAILED ∧ progress j' = 100%Q ∧
        results j' = results (objects (run cancelled_midway
                           [DriverStep 0 (env_ok "" 5); DriverStep 0 (env_ok "e.png" 6)])
                              !!! 0%nat) ∧
        errors j' = (errors (objects (run cancelled_midway
                           [DriverStep 0 (env_ok "" 5); DriverStep 0 (env_ok "e.png" 6)])
                               !!! 0%nat)
                     ++ ["'" +:+ job_id (objects (run cancelled_midway
                           [DriverStep 0 (env_ok "" 5); DriverStep 0 (env_ok "e.png" 6)])
                                           !!! 0%nat) +:+ "'"])%list ∧
        tasks (snd (driver_step 0 (env_ok "" 7)
                      (run cancelled_midway
                         [DriverStep 0 (env_ok "" 5); DriverStep 0 (env_ok "e.png" 6)])))
          !! 0%nat = Some Finished ∧
        job_history (snd (driver_step 0 (env_ok "" 7)
                      (run cancelled_midway
                         [DriverStep 0 (env_ok "" 5); DriverStep 0 (env_ok "e.png" 6)])))
          = (job_history (run cancelled_midway
                         [DriverStep 0 (env_ok "" 5); DriverStep 0 (env_ok "e.png" 6)])
             ++ [0; 0]%nat)%list ∧
        active_jobs (snd (driver_step 0 (env_ok "" 7)
                      (run cancelled_midway
                         [DriverStep 0 (env_ok "" 5); DriverStep 0 (env_ok "e.png" 6)])))
          = active_jobs (run cancelled_midway
                         [DriverStep 0 (env_ok "" 5); DriverStep 0 (env_ok "e.png" 6)]).
Proof.
  apply (finalisation_outside_active_set_fails_job _ 0 (env_ok "" 7) _ 8 5).
  - vm_compute. reflexivity.
  - vm_compute. reflexivity.
  - vm_compute. lia.
  - vm_compute. reflexivity.
Defined.

(** ** A driver step and the rest of the processor *)

(** X9: a driver step touches its own job only.  In a reachable state, a step
    of the driver of [r] leaves every other job object and every other task
    as they were; it leaves the callbacks alone; it adds nothing but copies of
    [r] to the history; it removes from the active set at most the entry
    under its own job's identifier; and it never changes that identifier or
    the file list. *)
Theorem driver_step_touches_own_job (s : BatchProcessor) (r : nat) (env : Env) :
  reachable s →
  (∀ r', r' ≠ r →
     objects (snd (driver_step r env s)) !! r' = objects s !! r' ∧
     tasks (snd (driver_step r env s)) !! r' = tasks s !! r') ∧
  (∀ k, k ≠ job_id (objects s !!! r) →
     active_jobs (snd (driver_step r env s)) !! k = active_jobs s !! k) ∧
  (∃ n, job_history (snd (driver_step r env s)) = (job_history s ++ replicate n r)%list) ∧
  progress_callbacks (snd (driver_step r env s)) = progress_callbacks s ∧
  completion_callbacks (snd (driver_step r env s)) = completion_callbacks s ∧
  job_id (objects (snd (driver_step r env s)) !!! r) = job_id (objects s !!! r) ∧
  file_paths (objects (snd (driver_step r env s)) !!! r) = file_paths (objects s !!! r).
Proof.
  intros Hs. apply reachable_Inv in Hs.
  destruct (tasks s !! r) as [t|] eqn:Ht.
  - destruct (inv_tasks s Hs r) as [j Hj]; [by eexists|].
    destruct (driver_step_summary s r env j t Hj Ht)
      as (j1 & t1 & n1 & Eo & _ & _ & _ & _ & Hid & Hfp & _).
    destruct (driver_step_cases s r env j t Hj Ht) as (j' & t' & n & _ & E).
    rewrite E in *. cbn [objects tasks active_jobs job_history progress_callbacks
                          completion_callbacks nf] in *.
    rewrite (lookup_total_correct _ _ _ Hj).
    assert (j1 = j') as ->.
    { apply (f_equal (λ m, m !! r)) in Eo. rewrite !lookup_insert_eq in Eo. congruence. }
    split_and!; try done.
    + intros r' Hne. by rewrite !lookup_insert_ne.
    + intros k Hk. destruct (n =? 0)%nat; [done|]. by rewrite lookup_delete_ne.
    + by exists n.
    + by rewrite lookup_total_insert_eq.
    + by rewrite lookup_total_insert_eq.
  - rewrite driver_step_idle by auto. cbn [snd]. split_and!; try done.
    exists 0%nat. by rewrite app_nil_r.
Qed.

Lemma driver_step_touches_own_job_witness :
  (∀ r', r' ≠ 0%nat →
     objects (snd (driver_step 0 (env_ok "" 5) first_batch_done)) !! r'
       = objects first_batch_done !! r' ∧
     tasks (snd (driver_step 0 (env_ok "" 5) first_batch_done)) !! r'
       = tasks first_batch_done !! r') ∧
  (∀ k, k ≠ job_id (objects first_batch_done !!! 0%nat) →
     active_jobs (snd (driver_step 0 (env_ok "" 5) first_batch_done)) !! k
       = active_jobs first_batch_done !! k) ∧
  (∃ n, job_history (snd (driver_step 0 (env_ok "" 5) first_batch_done))
        = (job_history first_batch_done ++ replicate n 0%nat)%list) ∧
  progress_callbacks (snd (driver_step 0 (env_ok "" 5) first_batch_done))
    = progress_callbacks first_batch_done ∧
  completion_callbacks (snd (driver_step 0 (env_ok "" 5) first_batch_done))
    = completion_callbacks first_batch_done ∧
  job_id (objects (snd (driver_step 0 (env_ok "" 5) first_batch_done)) !!! 0%nat)
    = job_id (objects first_batch_done !!! 0%nat) ∧
  file_paths (objects (snd (driver_step 0 (env_ok "" 5) first_batch_done)) !!! 0%nat)
    = file_paths (objects first_batch_done !!! 0%nat).
Proof.
  apply driver_step_touches_own_job.
  exists 3%nat, 4%nat, batch_processor. eexists. split; reflexivity.
Defined.

(** ** The report while the driver runs *)

Lemma error_entries_snoc (j : BatchJob) (x : ResultEntry) :
  length (filter (λ e, is_error e = true) (results j ++ [x])%list) =
  (error_entries j + (if is_error x then 1 else 0))%nat.
Proof.
  unfold error_entries. rewrite filter_app, length_app. f_equal.
  destruct x; reflexivity.
Qed.

Lemma collected_report (c : nat) (f : string) (o : Res Payload) (j : BatchJob) :
  length (results (collected c f o j)) = S (length (results j)) ∧
  (length (errors j) = error_entries j →
   length (errors (collected c f o j)) = error_entries (collected c f o j)) ∧
  file_paths (collected c f o j) = file_paths j.
Proof.
  unfold collected, error_entries.
  destruct o as [p|e]; cbn [results errors file_paths set_progress record_outcome
                             append_result append_error].
  - rewrite length_app, error_entries_snoc. cbn. split_and!; [lia | | done].
    intros ->. unfold error_entries. lia.
  - rewrite !length_app.
    pose proof (error_entries_snoc
                  (append_error ("Error processing " +:+ f +:+ ": " +:+ str_exn e) j)
                  (ErrorEntry f (str_exn e))) as H.
    cbn [results append_error] in H. rewrite H. cbn. split_and!; [lia | | done].
    intros ->. unfold error_entries. cbn. lia.
Qed.

Lemma report_step (s : BatchProcessor) (env : Env) (j j' : BatchJob) (t t' : DriverTask)
    (n : nat) :
  job_ok (batch_size s) j t → report_ok j t → step_case s env j t j' t' n →
  report_ok j' t'.
Proof.
  intros (_ & _ & _ & _ & Hm) [Hle Hrep] Hcase.
  inversion Hcase; subst; unfold report_ok in *;
    cbn [results errors file_paths started completed failed set_start_time set_status
         set_end_time set_progress append_error] in *; try done.
  - destruct Hrep as [Hr He]. unfold error_entries.
    change (results (started (now env) j)) with (results j).
    rewrite Hr, He. cbn. split_and!; [lia | done | done].
  - destruct Hm as (HN & _). destruct Hrep as [Hr He]. cbn [length] in HN.
    destruct (collected_report c f (outcome env) j) as (Hlen & Herr & Hfp).
    rewrite Hfp, Hlen, Hr. split; [lia|].
    destruct rest; cbn [next_task]; (split; [done | by apply Herr]).
  - destruct Hm as (HN & _). cbn [length] in HN. lia.
  - destruct Hm as (HN & _). destruct Hrep as [Hr He]. cbn [length] in HN.
    destruct (collected_report c f (outcome env) j) as (Hlen & Herr & Hfp).
    rewrite Hfp, Hlen, Hr. split; [lia | done].
Qed.

Lemma Inv_report_step (s : BatchProcessor) (ev : Event) :
  Inv s → Inv_report s → Inv_report (step s ev).
Proof.
  intros HI HR r j t.
  destruct ev as [fps ats cp tm | r0 env | jid tm | d tm | jid cb | jid cb]; cbn [step];
    try apply HR.
  - destruct (make_job_id tm) as [jid|e] eqn:Hid;
      [| rewrite (submit_batch_job_no_id _ _ _ _ _ _ Hid); apply HR].
    rewrite (submit_objects _ _ _ _ _ _ Hid), (submit_tasks _ _ _ _ _ _ Hid).
    destruct (decide (fresh (dom (objects s)) = r)) as [<-|Hne].
    + rewrite !lookup_insert_eq. intros [= <-] [= <-].
      unfold report_ok. cbn. split_and!; [lia | done | done].
    + rewrite !lookup_insert_ne by done. apply HR.
  - destruct (tasks s !! r0) as [t0|] eqn:Ht0.
    + destruct (inv_tasks s HI r0) as [j0 Hj0]; [by eexists|].
      destruct (driver_step_cases s r0 env j0 t0 Hj0 Ht0) as (j' & t' & n & Hcase & ->).
      cbn [objects tasks nf].
      destruct (decide (r0 = r)) as [<-|Hne].
      * rewrite !lookup_insert_eq. intros [= <-] [= <-].
        destruct (inv_jobs s HI _ _ Hj0) as (t1 & Ht1 & Hok).
        rewrite Ht0 in Ht1. injection Ht1 as <-.
        eapply report_step; [done | by eapply HR | done].
      * rewrite !lookup_insert_ne by done. apply HR.
    + rewrite driver_step_idle by auto. apply HR.
  - rewrite cancel_job_eq. destruct (active_jobs s !! jid) as [r0|] eqn:Hr0; [|apply HR].
    cbn [snd objects tasks with_active_jobs with_job_history with_objects].
    destruct (decide (r0 = r)) as [<-|Hne].
    + rewrite !lookup_alter_eq.
      destruct (objects s !! r0) as [j0|] eqn:Hj0; [|discriminate].
      intros [= <-] Ht. by apply (HR r0 j0 t).
    + rewrite !lookup_alter_ne by done. apply HR.
Qed.

Lemma Inv_report_run (evs : list Event) (s : BatchProcessor) :
  Inv s → Inv_report s → Inv_report (run s evs).
Proof.
  revert s. induction evs as [|ev evs IH]; intros s HI HR; [done|].
  cbn. apply IH; [by apply Inv_step | by apply Inv_report_step].
Qed.

Lemma reachable_Inv_report (s : BatchProcessor) : reachable s → Inv_report s.
Proof.
  intros (mc & mw & s0 & evs & Hinit & ->).
  apply Inv_report_run; [by apply (Inv_init mc mw)|].
  unfold BatchProcessor_init in Hinit. destruct (mw =? 0)%nat; [discriminate|].
  injection Hinit as <-. intros r j t H. cbn in H. by rewrite lookup_empty in H.
Qed.

(** X10: the report never runs ahead of the input.  In every state the
    processor can reach, a job has at most as many results as files; and while
    its driver is in the loop, the number of results is the driver's
    [completed_files] and the number of errors is the number of results tagged
    error. *)
Theorem results_follow_completed_files (s : BatchProcessor) (r : nat) (j : BatchJob) :
  reachable s → objects s !! r = Some j →
  (length (results j) ≤ length (file_paths j))%nat ∧
  (∀ t c, tasks s !! r = Some t → completed_count t = Some c →
     length (results j) = c ∧
     length (errors j) = error_entries j).
Proof.
  intros Hs Hj.
  pose proof (reachable_Inv_report s Hs) as HR. apply reachable_Inv in Hs.
  destruct (inv_jobs s Hs _ _ Hj) as (t & Ht & Hok).
  destruct (HR _ _ _ Hj Ht) as [Hle Hrep]. split; [done|].
  intros t' c Ht' Hc. rewrite Ht in Ht'. injection Ht' as <-.
  destruct t as [| i c' | i fs c' |]; try discriminate; injection Hc as ->; done.
Qed.

Lemma results_follow_completed_files_witness :
  (length (results (objects first_batch_done !!! 0%nat))
   ≤ length (file_paths (objects first_batch_done !!! 0%nat)))%nat ∧
  (∀ t c, tasks first_batch_done !! 0%nat = Some t → completed_count t = Some c →
     length (results (objects first_batch_done !!! 0%nat)) = c ∧
     length (errors (objects first_batch_done !!! 0%nat))
       = error_entries (objects first_batch_done !!! 0%nat)).
Proof.
  apply (results_follow_completed_files first_batch_done 0).
  - exists 3%nat, 4%nat, batch_processor. eexists. split; reflexivity.
  - vm_compute. reflexivity.
Defined.

(** ** The listings *)

Lemma history_summaries_ok (objs : gmap nat BatchJob) (h : list nat) :
  ∃ xs, history_summaries objs h = Ok xs ∧
        hs_job_id <$> xs = (λ r, job_id (objs !!! r)) <$> h ∧
        hs_status <$> xs = (λ r, status_value (status (objs !!! r))) <$> h.
Proof.
  induction h as [|r h (xs & IH & Hids & Hst)]; [by exists []|].
  cbn [history_summaries]. unfold history_summary.
  destruct (processing_time_never_raises (objs !!! r)) as [pt ->].
  rewrite IH. eexists. split; [done|]. cbn. by rewrite Hids, Hst.
Qed.

Lemma py_slice_from_suffix {A} (start : Z) (l : list A) :
  py_slice_from start l = drop (length l - length (py_slice_from start l)) l.
Proof.
  unfold py_slice_from. destruct (start <? 0)%Z; rewrite length_drop.
  - destruct (decide (Z.to_nat (Z.max (Z.of_nat (length l) + start) 0) ≤ length l)%nat).
    + f_equal. lia.
    + rewrite !drop_ge; [done | lia | lia].
  - destruct (decide (Z.to_nat start ≤ length l)%nat).
    + f_equal. lia.
    + rewrite !drop_ge; [done | lia | lia].
Qed.

(** X11: what [get_job_history(limit)] lists.  It never raises and returns the
    summaries of a suffix of the history, oldest first.  For a positive limit
    that suffix holds the last [limit] jobs (all of them when there are
    fewer); for [limit = 0] it is the whole history, not an empty list; for a
    negative limit it is the history without its first [-limit] jobs. *)
Theorem get_job_history_slice (s : BatchProcessor) (limit : Z) :
  ∃ xs, get_job_history s limit = Ok xs ∧
        hs_job_id <$> xs =
          (λ r, job_id (objects s !!! r)) <$>
            drop (length (job_history s) - length xs) (job_history s) ∧
        ((0 < limit)%Z → length xs = Nat.min (Z.to_nat limit) (length (job_history s))) ∧
        (limit = 0%Z → length xs = length (job_history s)) ∧
        ((limit < 0)%Z → length xs = (length (job_history s) - Z.to_nat (- limit))%nat).
Proof.
  unfold get_job_history.
  destruct (history_summaries_ok (objects s) (py_slice_from (- limit) (job_history s)))
    as (xs & -> & Hids & _).
  assert (Hlen : length xs = length (py_slice_from (- limit) (job_history s))).
  { apply (f_equal length) in Hids. by rewrite !length_fmap in Hids. }
  exists xs. split; [done|]. split.
  - rewrite Hids, Hlen. f_equal. apply py_slice_from_suffix.
  - rewrite Hlen. unfold py_slice_from. split_and!; intros Hl.
    + rewrite (proj2 (Z.ltb_lt _ _)) by lia. rewrite length_drop. lia.
    + subst limit. cbn. by rewrite drop_0.
    + rewrite (proj2 (Z.ltb_ge _ _)) by lia. by rewrite length_drop.
Qed.

(** X12: what [get_active_jobs] lists.  In a reachable state it returns one
    summary per entry of the active set, an identifier is listed exactly when
    it is in the active set, and no listed summary belongs to a job of the
    history. *)
Theorem get_active_jobs_lists_active_set (s : BatchProcessor) :
  reachable s →
  length (get_active_jobs s) = size (active_jobs s) ∧
  (∀ k, k ∈ as_job_id <$> get_active_jobs s ↔ is_Some (active_jobs s !! k)) ∧
  (∀ x, x ∈ get_active_jobs s →
     ∃ r, active_jobs s !! as_job_id x = Some r ∧
          x = active_summary (objects s !!! r) ∧ r ∉ job_history s).
Proof.
  intros Hs. apply reachable_Inv in Hs. unfold get_active_jobs.
  assert (Hx : ∀ x, x ∈ (λ kr : string * nat, active_summary (objects s !!! kr.2))
                          <$> map_to_list (active_jobs s) →
                    ∃ r, active_jobs s !! as_job_id x = Some r ∧
                         x = active_summary (objects s !!! r) ∧ r ∉ job_history s).
  { intros x Hin. apply list_elem_of_fmap in Hin as ([k r] & -> & Hkr).
    apply elem_of_map_to_list in Hkr.
    destruct (inv_active s Hs _ _ Hkr) as (j & Hj & Hid).
    rewrite (lookup_total_correct _ _ _ Hj). cbn [snd as_job_id active_summary].
    exists r. rewrite Hid. split_and!; [done | by rewrite (lookup_total_correct _ _ _ Hj) |].
    intros Hh. by destruct (inv_history s Hs _ Hh) as [_ Hno]; apply (Hno k). }
  split_and!; [| | done].
  - by rewrite length_fmap, length_map_to_list.
  - intros k. split.
    + intros Hin. apply list_elem_of_fmap in Hin as (x & -> & Hin).
      destruct (Hx x Hin) as (r & Hr & _). by eexists.
    + intros [r Hr]. apply list_elem_of_fmap.
      exists (active_summary (objects s !!! r)). split.
      * destruct (inv_active s Hs _ _ Hr) as (j & Hj & Hid).
        by rewrite (lookup_total_correct _ _ _ Hj).
      * apply list_elem_of_fmap. exists (k, r). split; [done|].
        by apply elem_of_map_to_list.
Qed.

Lemma get_active_jobs_lists_active_set_witness :
  length (get_active_jobs first_batch_done) = size (active_jobs first_batch_done) ∧
  (∀ k, k ∈ as_job_id <$> get_active_jobs first_batch_done
        ↔ is_Some (active_jobs first_batch_done !! k)) ∧
  (∀ x, x ∈ get_active_jobs first_batch_done →
     ∃ r, active_jobs first_batch_done !! as_job_id x = Some r ∧
          x = active_summary (objects first_batch_done !!! r) ∧
          r ∉ job_history first_batch_done).
Proof.
  apply get_active_jobs_lists_active_set.
  exists 3%nat, 4%nat, batch_processor. eexists. split; reflexivity.
Defined.

(** ** Clean-up *)

Lemma list_filter_idem {A} (f : A → bool) (l : list A) :
  List.filter f (List.filter f l) = List.filter f l.
Proof.
  induction l as [|x l IH]; [done|]. cbn.
  destruct (f x) eqn:Hx; [|done]. cbn. by rewrite Hx, IH.
Qed.

(** X13: what [cleanup_old_jobs] keeps.  With [cutoff = now - days * 86400]: a
    job stays in the history exactly when its end time is set, non-zero and
    later than the cutoff, and the order of those that stay is kept; a result
    file stays exactly when its modification time is not before the cutoff;
    job objects, active set and tasks are untouched; and running the same
    clean-up again changes nothing. *)
Theorem cleanup_old_jobs_keeps_recent (s : BatchProcessor) (days_old : Z) (t : Q) :
  fst (cleanup_old_jobs days_old t s) = Ok tt ∧
  objects (snd (cleanup_old_jobs days_old t s)) = objects s ∧
  active_jobs (snd (cleanup_old_jobs days_old t s)) = active_jobs s ∧
  tasks (snd (cleanup_old_jobs days_old t s)) = tasks s ∧
  (∀ r, r ∈ job_history (snd (cleanup_old_jobs days_old t s)) ↔
        r ∈ job_history s ∧
        ∃ e, end_time (objects s !!! r) = Some e ∧ ¬ (e == 0)%Q ∧
             (t - inject_Z (days_old * 24 * 3600) < e)%Q) ∧
  job_history (snd (cleanup_old_jobs days_old t s)) `sublist_of` job_history s ∧
  (∀ f x, result_files (snd (cleanup_old_jobs days_old t s)) !! f = Some x ↔
          result_files s !! f = Some x ∧
          (t - inject_Z (days_old * 24 * 3600) <= fst x)%Q) ∧
  cleanup_old_jobs days_old t (snd (cleanup_old_jobs days_old t s)) =
  (Ok tt, snd (cleanup_old_jobs days_old t s)).
Proof.
  unfold cleanup_old_jobs. rewrite exec_reads.
  set (cutoff := (t - inject_Z (days_old * 24 * 3600))%Q).
  set (keep := λ r : nat, match end_time (objects s !!! r) with
                          | Some t0 => negb (Qeq_bool t0 0) && negb (Qle_bool t0 cutoff)
                          | None => false
                          end).
  cbn [fst snd bind modify objects active_jobs tasks job_history result_files
       with_job_history with_result_files].
  split_and!; try done.
  - intros r. rewrite list_elem_of_In, filter_In, <- list_elem_of_In.
    split; intros [Hin Hk]; (split; [done|]).
    + unfold keep in Hk. destruct (end_time (objects s !!! r)) as [e|]; [|done].
      apply andb_true_iff in Hk as [H0 Hc]. exists e. split_and!; [done | |].
      * apply Qeq_bool_neq. by destruct (Qeq_bool e 0).
      * apply Qnot_le_lt. intros Hle. apply Qle_bool_iff in Hle.
        rewrite Hle in Hc. done.
    + destruct Hk as (e & He & H0 & Hc). unfold keep. rewrite He.
      apply andb_true_iff. split.
      * by rewrite Qeq_bool_false.
      * destruct (Qle_bool e cutoff) eqn:Hle; [|done].
        apply Qle_bool_iff in Hle. exfalso. by apply (Qlt_not_le _ _ Hc).
  - induction (job_history s) as [|r h IH]; [done|]. cbn.
    destruct (keep r); [by apply sublist_skip | by apply sublist_cons].
  - intros f [m d]. rewrite map_lookup_filter_Some. cbn [fst snd].
    split; intros [H1 H2]; (split; [done|]); by apply Qle_bool_iff.
  - rewrite exec_reads. cbn [objects]. fold cutoff. fold keep.
    unfold bind, modify. cbn. unfold with_result_files, with_job_history. cbn.
    rewrite list_filter_idem. do 2 f_equal.
    apply map_eq. intros f. apply option_eq. intros x.
    rewrite !map_lookup_filter_Some. tauto.
Qed.

(** X14: a job evicted by the clean-up is unknown afterwards.  When an
    identifier is not in the active set and every history job carrying it has
    an end time at or before the cutoff (or none), [get_job_status] returns
    not-found after [cleanup_old_jobs]. *)
Theorem status_after_cleanup (s : BatchProcessor) (jid : string) (days_old : Z) (t t' : Q) :
  active_jobs s !! jid = None →
  (∀ r, r ∈ job_history s → job_id (objects s !!! r) = jid →
        ∀ e, end_time (objects s !!! r) = Some e →
             (e <= t - inject_Z (days_old * 24 * 3600))%Q) →
  get_job_status (snd (cleanup_old_jobs days_old t s)) jid t' = Ok None.
Proof.
  intros Hact Hold.
  destruct (cleanup_old_jobs_keeps_recent s days_old t)
    as (_ & Eo & Ea & _ & Hh & _).
  unfold get_job_status, py_contains. rewrite Ea, Eo, Hact.
  rewrite bool_decide_eq_false_2 by (by intros [? ?]).
  apply find_in_history_unknown. intros r Hr Hid.
  apply Hh in Hr as (Hr & e & He & _ & Hlt).
  specialize (Hold r Hr Hid e He). by apply (Qlt_not_le _ _ Hlt).
Qed.

Lemma status_after_cleanup_witness :
  get_job_status (snd (cleanup_old_jobs 30 thirty_one_days one_file_done)) "batch_1000" 9
  = Ok None.
Proof.
  apply status_after_cleanup.
  - vm_compute. reflexivity.
  - intros r Hr _ e He. apply list_elem_of_In in Hr. vm_compute in Hr.
    destruct Hr as [<-|[]]. vm_compute in He. injection He as <-.
    vm_compute. discriminate.
Defined.

(** ** The saved record of a run *)

Lemma drive_loop_saved (w : World) (r : nat) (jid : string) (fps : list string) (st : Q) :
  (∀ k, disk w k = None) →
  ∀ (n c i : nat) (j : BatchJob) (s : BatchProcessor) (k fuel : nat),
    n = (length fps - c)%nat →
    objects s !! r = Some j → tasks s !! r = Some (AtLoop i c) →
    c = Nat.min i (length fps) →
    file_paths j = fps → job_id j = jid → start_time j = Some st →
    active_jobs s !! jid = Some r → callbacks_return s jid →
    (0 < max_workers s)%nat → (2 * n + 1 ≤ fuel)%nat →
    ∃ tfin,
      drive w fuel k r s =
      nf s r (completed tfin (collect_all (work w) (length fps) c (drop c fps) j))
        Finished (job_history s ++ [r]) (delete jid (active_jobs s))
        (<["job_" +:+ jid +:+ ".json" :=
             (tfin, make_job_data
                      (completed tfin
                         (collect_all (work w) (length fps) c (drop c fps) j)))]>
           (result_files s)).
Proof.
  intros Hdisk. induction n as [n IH] using lt_wf_ind.
  intros c i j s k fuel Hn Hj Ht Hc Hfp Hid Hst Hact Hcb Hw Hfuel.
  destruct (decide (i < length fps)%nat) as [Hi|Hi].
  - rewrite Nat.min_l in Hc by lia. subst c.
    destruct fuel as [|fuel]; [lia|].
    rewrite (drive_step w fuel k r s _ Ht) by done.
    rewrite (step_dispatch s r j _ Hj i i Ht) by (by rewrite Hfp).
    cbn [snd]. rewrite Hfp.
    assert (Hbs : (0 < batch_size s)%nat) by (unfold batch_size; lia).
    assert (Hlen : length (take (batch_size s) (drop i fps)) =
                   Nat.min (batch_size s) (length fps - i)).
    { by rewrite length_take, length_drop. }
    destruct (take (batch_size s) (drop i fps)) as [|f rest] eqn:Hbatch;
      [cbn in Hlen; lia|].
    cbn [length] in Hlen.
    set (s1 := nf s r j (AtCollect i (f :: rest) i) _ _ _).
    assert (Hfuel' : ∃ fuel', fuel = (S (length rest) + fuel')%nat ∧
                              (2 * (length fps - (i + S (length rest))) + 1 ≤ fuel')%nat).
    { exists (fuel - S (length rest))%nat. lia. }
    destruct Hfuel' as (fuel' & -> & Hfuel').
    rewrite (drive_collect w r jid fps i rest f i j s1 (S k) fuel');
      [| apply nf_objects | apply nf_tasks | done | done | lia | done].
    subst s1. rewrite nf_nf, batch_size_nf.
    cbn [job_history active_jobs result_files nf].
    set (j2 := collect_all (work w) (length fps) i (f :: rest) j).
    set (s2 := nf s r j2 _ _ _ _).
    destruct (collect_all_fields (work w) (length fps) i (f :: rest) j)
      as (Hid2 & Hfp2 & _ & Hst2).
    destruct (IH (length fps - (i + S (length rest)))%nat ltac:(lia)
                (i + S (length rest))%nat (i + batch_size s)%nat j2 s2
                (S k + S (length rest))%nat fuel')
      as (tfin & Hrun); try done.
    + apply nf_objects.
    + apply nf_tasks.
    + lia.
    + fold j2 in Hfp2. congruence.
    + fold j2 in Hid2. congruence.
    + fold j2 in Hst2. congruence.
    + exists tfin. rewrite Hrun. subst s2. rewrite nf_nf.
      cbn [job_history active_jobs result_files nf].
      assert (Hjob : collect_all (work w) (length fps) (i + S (length rest))
                       (drop (i + S (length rest)) fps) j2 =
                     collect_all (work w) (length fps) i (drop i fps) j).
      { subst j2.
        rewrite <- (take_drop (batch_size s) (drop i fps)) at 1.
        rewrite Hbatch, collect_all_app. cbn [length]. f_equal.
        rewrite drop_drop.
        destruct (decide (i + batch_size s ≤ length fps)%nat).
        - f_equal. lia.
        - rewrite !drop_ge; [done | lia | lia]. }
      by rewrite Hjob.
  - rewrite Nat.min_r in Hc by lia. subst c.
    destruct fuel as [|fuel]; [lia|].
    rewrite (drive_step w fuel k r s _ Ht) by done.
    rewrite (step_finish s r j _ Hj i (length fps) st Ht)
      by (rewrite ?Hfp, ?Hid; first [done | lia]).
    cbn [snd env_at write_error now]. rewrite Hdisk.
    rewrite drive_finished by apply nf_tasks.
    rewrite drop_ge by lia. cbn [collect_all]. rewrite Hid.
    by eexists.
Qed.

Lemma expected_results_tags wk c fs :
  length (filter (λ e, is_error e = true) (expected_results wk c fs)) = failures wk c fs ∧
  (length (filter (λ e, is_success e = true) (expected_results wk c fs))
   + failures wk c fs = length fs)%nat.
Proof.
  revert c. induction fs as [|f fs IH]; intros c; [done|].
  cbn [expected_results failures length]. destruct (IH (S c)) as [IH1 IH2].
  destruct (wk c f) as [p|e]; cbn [entry_of is_ok].
  - rewrite filter_cons_False by done. rewrite filter_cons_True by done.
    cbn [length]. lia.
  - rewrite filter_cons_True by done. rewrite filter_cons_False by done.
    cbn [length]. lia.
Qed.

(** X15: the record saved by an undisturbed run.  With the hypotheses of a
    run that nothing interferes with and a disk that accepts the write, the
    file [job_<id>.json] exists at the end; it holds status completed,
    progress 100, the submitted file list, the results and errors of the job,
    and a summary in which [total_files] is the number of files,
    [failed_files] and [total_errors] are both the number of work units that
    raised, and [successful_files] is the rest. *)
Theorem saved_record_of_a_run (w : World) (s : BatchProcessor) (r : nat)
    (jid : string) (fps ats : list string) (cp : option string) (k fuel : nat) :
  objects s !! r = Some (new_BatchJob jid fps ats cp) →
  tasks s !! r = Some AtStart →
  active_jobs s !! jid = Some r →
  (0 < max_workers s)%nat →
  callbacks_return s jid →
  (∀ k, disk w k = None) →
  (2 * length fps + 2 ≤ fuel)%nat →
  ∃ tfin data,
    result_files (drive w fuel k r s) !! ("job_" +:+ jid +:+ ".json") = Some (tfin, data) ∧
    d_job_id data = jid ∧ d_status data = "completed" ∧ d_progress data = 100%Q ∧
    d_file_paths data = fps ∧ d_end_time data = Some tfin ∧
    d_results data = expected_results (work w) 0 fps ∧
    d_errors data = expected_errors (work w) 0 fps ∧
    total_files (d_summary data) = length fps ∧
    failed_files (d_summary data) = failures (work w) 0 fps ∧
    total_errors (d_summary data) = failures (work w) 0 fps ∧
    (successful_files (d_summary data) + failures (work w) 0 fps)%nat = length fps.
Proof.
  intros Hj Ht Hact Hw Hcb Hdisk Hfuel.
  destruct fuel as [|fuel]; [lia|].
  rewrite (drive_step w fuel k r s _ Ht) by done.
  rewrite (step_start s r _ _ Hj Ht Hw). cbn [snd].
  set (j1 := started _ _). set (s1 := nf s r j1 _ _ _ _).
  destruct (drive_loop_saved w r jid fps (now (env_at w k AtStart)) Hdisk
              (length fps) 0 0 j1 s1 (S k) fuel)
    as (tfin & Hrun); try done.
  - lia.
  - apply nf_objects.
  - apply nf_tasks.
  - lia.
  - rewrite Hrun. cbn [result_files nf]. rewrite drop_0.
    set (jc := collect_all (work w) (length fps) 0 fps j1).
    destruct (collect_all_report (work w) (length fps) 0 fps j1) as [Hres Herr].
    destruct (collect_all_fields (work w) (length fps) 0 fps j1) as (Hid & Hfp & _).
    fold jc in Hres, Herr, Hid, Hfp.
    change (results j1) with (@nil ResultEntry) in Hres.
    change (errors j1) with (@nil string) in Herr.
    rewrite app_nil_l in Hres, Herr.
    destruct (expected_results_tags (work w) 0 fps) as [Hfail Hsucc].
    eexists tfin, _. split; [apply lookup_insert_eq|].
    cbn [make_job_data d_job_id d_status d_progress d_file_paths d_end_time d_results
         d_errors d_summary total_files failed_files total_errors successful_files
         completed job_id file_paths status progress end_time results errors
         set_progress set_end_time set_status status_value].
    rewrite Hres, Herr, Hfp, Hid.
    split_and!; try done.
    apply expected_errors_length.
Qed.

Lemma saved_record_of_a_run_witness :
  ∃ tfin data,
    result_files (drive sample_world 12 0 0 five_submitted) !! ("job_" +:+ "batch_1000" +:+ ".json")
      = Some (tfin, data) ∧
    d_job_id data = "batch_1000" ∧ d_status data = "completed" ∧ d_progress data = 100%Q ∧
    d_file_paths data = five_files ∧ d_end_time data = Some tfin ∧
    d_results data = expected_results (work sample_world) 0 five_files ∧
    d_errors data = expected_errors (work sample_world) 0 five_files ∧
    total_files (d_summary data) = length five_files ∧
    failed_files (d_summary data) = failures (work sample_world) 0 five_files ∧
    total_errors (d_summary data) = failures (work sample_world) 0 five_files ∧
    (successful_files (d_summary data) + failures (work sample_world) 0 five_files)%nat
      = length five_files.
Proof.
  apply (saved_record_of_a_run sample_world five_submitted 0 "batch_1000"
           five_files ["document"] None 0 12).
  - vm_compute. reflexivity.
  - vm_compute. reflexivity.
  - vm_compute. reflexivity.
  - vm_compute. lia.
  - split; intros cb H; vm_compute in H; discriminate H.
  - reflexivity.
  - vm_compute. lia.
Defined.

(** ** The analytics sink *)

Lemma last_drop_lt {A} (n : nat) (l : list A) :
  (n < length l)%nat → last (drop n l) = last l.
Proof. intros H. rewrite !last_lookup, lookup_drop, length_drop. f_equal. lia. Qed.

Lemma deque_append_spec (x : Q) (d : list Q) :
  length (deque_append x d) = Nat.min (S (length d)) 1000 ∧
  last (deque_append x d) = Some x ∧
  deque_append x d `suffix_of` (d ++ [x])%list.
Proof.
  unfold deque_append. split_and!.
  - rewrite length_drop, length_app. cbn. lia.
  - rewrite last_drop_lt; [by rewrite last_snoc|]. rewrite length_app. cbn. lia.
  - apply suffix_drop.
Qed.

Lemma track_request_end_counters request_id success execution_time error p :
  total_requests (track_request_end request_id success execution_time error p)
    = total_requests p ∧
  successful_requests (track_request_end request_id success execution_time error p)
    = (successful_requests p + (if success then 1 else 0))%Z ∧
  failed_requests (track_request_end request_id success execution_time error p)
    = (failed_requests p + (if success then 0 else 1))%Z.
Proof.
  unfold track_request_end.
  destruct success, execution_time as [t|]; cbn; try destruct (negb (Qeq_bool t 0)); cbn;
    split_and!; lia.
Qed.

Lemma track_request_end_times request_id success execution_time error p :
  processing_times (track_request_end request_id success execution_time error p) =
  match execution_time with
  | Some t => if Qeq_bool t 0 then processing_times p
              else deque_append t (processing_times p)
  | None => processing_times p
  end.
Proof.
  unfold track_request_end.
  destruct success, execution_time as [t|]; cbn; try destruct (Qeq_bool t 0); done.
Qed.

(** X16: the processing times are a bounded window.  [track_request_end]
    records a time only when it is given and non-zero: the time becomes the
    newest entry, the window is what was there followed by it, cut to its last
    1000 entries, and never holds more than 1000 once it held at most 1000;
    with no time or a zero time (as the batch driver reports a failure) the
    window is unchanged. *)
Theorem processing_times_window (request_id : string) (success : bool)
    (execution_time : option Q) (error : option string) (p : PerformanceTracker) :
  (truthy execution_time = false →
   processing_times (track_request_end request_id success execution_time error p)
     = processing_times p) ∧
  (∀ t, execution_time = Some t → truthy execution_time = true →
     last (processing_times (track_request_end request_id success execution_time error p))
       = Some t ∧
     processing_times (track_request_end request_id success execution_time error p)
       `suffix_of` (processing_times p ++ [t])%list ∧
     length (processing_times (track_request_end request_id success execution_time error p))
       = Nat.min (S (length (processing_times p))) 1000).
Proof.
  rewrite track_request_end_times. split.
  - destruct execution_time as [t|]; [|done]. cbn. by destruct (Qeq_bool t 0).
  - intros t -> Ht. cbn in Ht. destruct (Qeq_bool t 0); [done|].
    destruct (deque_append_spec t (processing_times p)) as (? & ? & ?). done.
Qed.

(** X17: which failures are counted by message.  [track_request_end] adds one
    to [error_counts] under the message only for a failed request with a
    non-empty message, and leaves every other message alone; a failure with no
    message or an empty one (the text of a bare exception) still counts as a
    failed request but leaves [error_counts] unchanged, and so does every
    success. *)
Theorem error_counts_need_a_message (request_id : string) (success : bool)
    (execution_time : option Q) (error : option string) (p : PerformanceTracker) :
  (success = true ∨ truthy_str error = false →
   error_counts (track_request_end request_id success execution_time error p)
     = error_counts p) ∧
  (∀ e, success = false → error = Some e → e ≠ "" →
     error_counts (track_request_end request_id success execution_time error p) !! e
       = Some (default 0%Z (error_counts p !! e) + 1)%Z ∧
     ∀ e', e' ≠ e →
       error_counts (track_request_end request_id success execution_time error p) !! e'
         = error_counts p !! e') ∧
  failed_requests (track_request_end request_id success execution_time error p)
    = (failed_requests p + (if success then 0 else 1))%Z.
Proof.
  split_and!; [| | apply track_request_end_counters].
  - intros H. unfold track_request_end.
    destruct success, execution_time as [t|], error as [e|]; cbn in *;
      try destruct (negb (Qeq_bool t 0)); cbn; try done;
      destruct H as [H|H]; try discriminate; by rewrite H.
  - intros e -> -> He.
    assert (Hne : negb (e =? "")%string = true).
    { apply negb_true_iff. by apply String.eqb_neq. }
    unfold track_request_end.
    destruct execution_time as [t|]; cbn; try destruct (negb (Qeq_bool t 0)); cbn;
      rewrite Hne; unfold add_count;
      (split; [apply lookup_insert_eq | intros e' He'; by apply lookup_insert_ne]).
Qed.

Lemma track_request_end_daily request_id success execution_time error p :
  daily_stats (track_request_end request_id success execution_time error p) = daily_stats p.
Proof.
  unfold track_request_end.
  destruct success, execution_time as [t|]; cbn; try destruct (negb (Qeq_bool t 0)); done.
Qed.

Lemma day_add_count_defaultdict (k : string) (d : DayStats) :
  is_defaultdict d = true →
  day_add_count k d = Ok {| is_defaultdict := true; counts := add_count k (counts d) |}.
Proof. intros H. unfold day_add_count. by rewrite H, orb_true_r. Qed.

Lemma day_add_count_plain (k : string) (d : DayStats) :
  is_defaultdict d = false → counts d !! k = None → day_add_count k d = Raise (KeyError k).
Proof.
  intros H1 H2. unfold day_add_count. rewrite H1, H2, orb_false_r.
  by rewrite bool_decide_eq_false_2 by (by intros [? ?]).
Qed.

(** [track_feature_usage] on a day whose dict is not a plain one. *)
Lemma track_feature_usage_ok (feature today : string) (p : PerformanceTracker) :
  (∀ d, daily_stats p !! today = Some d → is_defaultdict d = true) →
  track_feature_usage feature today p =
  (Ok tt,
   {| stats := add_stat ("feature_" +:+ feature) 1 (stats p);
      processing_times := processing_times p;
      daily_stats :=
        <[today := {| is_defaultdict := true;
                      counts := add_count feature
                                  (counts (default {| is_defaultdict := true; counts := ∅ |}
                                             (daily_stats p !! today))) |}]> (daily_stats p);
      error_counts := error_counts p;
      total_requests := total_requests p;
      successful_requests := successful_requests p;
      failed_requests := failed_requests p |}).
Proof.
  intros Hd. unfold track_feature_usage.
  rewrite day_add_count_defaultdict; [done|].
  destruct (daily_stats p !! today) as [d|] eqn:E; [by apply Hd | done].
Qed.

(** ... and on a day loaded as a plain dict in which the feature was not
    counted. *)
Lemma track_feature_usage_raises (feature today : string) (p : PerformanceTracker)
    (d : DayStats) :
  daily_stats p !! today = Some d → is_defaultdict d = false → counts d !! feature = None →
  track_feature_usage feature today p =
  (Raise (KeyError feature),
   {| stats := add_stat ("feature_" +:+ feature) 1 (stats p);
      processing_times := processing_times p;
      daily_stats := daily_stats p;
      error_counts := error_counts p;
      total_requests := total_requests p;
      successful_requests := successful_requests p;
      failed_requests := failed_requests p |}).
Proof.
  intros E H1 H2. unfold track_feature_usage. rewrite E. cbn [default from_option id].
  by rewrite day_add_count_plain.
Qed.

Lemma never_loaded_insert (today : string) (c : gmap string Z) (m : gmap string DayStats) :
  (∀ day d, m !! day = Some d → is_defaultdict d = true) →
  ∀ day d, <[today := {| is_defaultdict := true; counts := c |}]> m !! day = Some d →
           is_defaultdict d = true.
Proof.
  intros H day d. rewrite lookup_insert. case_decide; [by intros [= <-] | apply H].
Qed.

(** One call of [track_document_processed] on a tracker that loaded nothing,
    at a finite clock reading. *)
Lemma track_document_ok (c : DocCall) (p : PerformanceTracker) :
  never_loaded p → is_ok (py_int (dc_now c * 1000)%float) = true →
  fst (track_document c p) = Ok tt ∧
  never_loaded (snd (track_document c p)) ∧
  total_requests (snd (track_document c p)) = (total_requests p + 1)%Z ∧
  successful_requests (snd (track_document c p))
    = (successful_requests p + (if dc_success c then 1 else 0))%Z ∧
  failed_requests (snd (track_document c p))
    = (failed_requests p + (if dc_success c then 0 else 1))%Z ∧
  (length (processing_times p) ≤ 1000 →
   length (processing_times (snd (track_document c p))) ≤ 1000)%nat.
Proof.
  intros Hp Hclock. unfold track_document, track_document_processed, track_request_start.
  destruct (py_int (dc_now c * 1000)%float) as [ms|e]; [|discriminate].
  rewrite track_feature_usage_ok by (intros d; apply Hp).
  cbn [fst snd]. set (p3 := track_document_type _ _).
  destruct (track_request_end_counters (pretty ms +:+ "_" +:+ "document_processing")
              (dc_success c) (dc_time c) (dc_error c) p3) as (-> & -> & ->).
  unfold never_loaded.
  rewrite track_request_end_times, track_request_end_daily.
  cbn [p3 total_requests successful_requests failed_requests processing_times daily_stats
       track_document_type].
  split_and!; try done.
  - by apply never_loaded_insert.
  - intros Hle. destruct (dc_time c) as [t|]; [|done]. destruct (Qeq_bool t 0); [done|].
    destruct (deque_append_spec t (processing_times p)) as (-> & _). lia.
Qed.

(** ... and on a tracker whose dict of the day was loaded without the
    feature: the request is counted as started and never as ended. *)
Lemma track_document_raises (c : DocCall) (p : PerformanceTracker) (d : DayStats) :
  is_ok (py_int (dc_now c * 1000)%float) = true →
  daily_stats p !! dc_today2 c = Some d → is_defaultdict d = false →
  counts d !! "document_processing" = None →
  fst (track_document c p) = Raise (KeyError "document_processing") ∧
  total_requests (snd (track_document c p)) = (total_requests p + 1)%Z ∧
  successful_requests (snd (track_document c p)) = successful_requests p ∧
  failed_requests (snd (track_document c p)) = failed_requests p.
Proof.
  intros Hclock E H1 H2. unfold track_document, track_document_processed, track_request_start.
  destruct (py_int (dc_now c * 1000)%float) as [ms|e]; [|discriminate].
  by rewrite (track_feature_usage_raises _ _ _ d).
Qed.

Lemma track_documents_cons (c : DocCall) (calls : list DocCall) (p : PerformanceTracker) :
  track_documents (c :: calls) p = track_documents calls (snd (track_document c p)).
Proof. reflexivity. Qed.

Lemma track_features_cons (g : string) (features : list string) (today : string)
    (p : PerformanceTracker) :
  track_features (g :: features) today p =
  track_features features today (snd (track_feature_usage g today p)).
Proof. reflexivity. Qed.

Lemma track_documents_balanced (calls : list DocCall) (p : PerformanceTracker) :
  never_loaded p →
  Forall (λ c, is_ok (py_int (dc_now c * 1000)%float) = true) calls →
  never_loaded (track_documents calls p) ∧
  total_requests (track_documents calls p)
    = (total_requests p + Z.of_nat (length calls))%Z ∧
  successful_requests (track_documents calls p)
    = (successful_requests p + count_if dc_success calls)%Z ∧
  failed_requests (track_documents calls p)
    = (failed_requests p + count_if (λ c, negb (dc_success c)) calls)%Z ∧
  (successful_requests (track_documents calls p) + failed_requests (track_documents calls p)
   - total_requests (track_documents calls p)
   = successful_requests p + failed_requests p - total_requests p)%Z ∧
  (length (processing_times p) ≤ 1000 →
   length (processing_times (track_documents calls p)) ≤ 1000)%nat.
Proof.
  revert p. induction calls as [|c calls IH]; intros p Hp Hclocks.
  - unfold count_if. cbn. split_and!; try done; lia.
  - apply Forall_cons in Hclocks as [Hc Hclocks].
    rewrite track_documents_cons.
    destruct (track_document_ok c p Hp Hc) as (_ & Hp1 & Ht & Hs & Hf & Hw1).
    destruct (IH _ Hp1 Hclocks) as (Hn & E1 & E2 & E3 & E4 & Hw).
    unfold count_if in *. cbn [List.filter].
    destruct (dc_success c); cbn [negb length]; rewrite ?Nat2Z.inj_succ;
      split_and!; try done; lia.
Qed.

(** X18: the request counters stay balanced on a tracker that loaded nothing.
    After any sequence of [track_document_processed] calls (the only way the
    batch driver reports) at finite clock readings, on a tracker none of whose
    per-day dicts is a plain dict: every call returned, the total has grown
    by the number of calls, the successes by the number of successful ones
    and the failures by the number of failed ones, so successes plus failures
    minus total is unchanged (0 for a new tracker), and a window of at most
    1000 processing times stays at most 1000.  On a tracker whose dict of the
    day was loaded from the log without the feature, the call raises
    [KeyError] after the request was counted as started, and the balance is
    off by one. *)
Theorem request_counters_balanced (calls : list DocCall) (p : PerformanceTracker) :
  (never_loaded p →
   Forall (λ c, is_ok (py_int (dc_now c * 1000)%float) = true) calls →
   (∀ l1 c l2, calls = (l1 ++ c :: l2)%list →
      fst (track_document c (track_documents l1 p)) = Ok tt) ∧
   total_requests (track_documents calls p)
     = (total_requests p + Z.of_nat (length calls))%Z ∧
   successful_requests (track_documents calls p)
     = (successful_requests p + count_if dc_success calls)%Z ∧
   failed_requests (track_documents calls p)
     = (failed_requests p + count_if (λ c, negb (dc_success c)) calls)%Z ∧
   (successful_requests (track_documents calls p) + failed_requests (track_documents calls p)
    - total_requests (track_documents calls p)
    = successful_requests p + failed_requests p - total_requests p)%Z ∧
   (length (processing_times p) ≤ 1000 →
    length (processing_times (track_documents calls p)) ≤ 1000)%nat) ∧
  (∀ c d, is_ok (py_int (dc_now c * 1000)%float) = true →
     daily_stats p !! dc_today2 c = Some d → is_defaultdict d = false →
     counts d !! "document_processing" = None →
     fst (track_document c p) = Raise (KeyError "document_processing") ∧
     (successful_requests (snd (track_document c p)) + failed_requests (snd (track_document c p))
      - total_requests (snd (track_document c p))
      = successful_requests p + failed_requests p - total_requests p - 1)%Z).
Proof.
  split.
  - intros Hp Hclocks.
    destruct (track_documents_balanced calls p Hp Hclocks) as (_ & E1 & E2 & E3 & E4 & Hw).
    split_and!; try done.
    intros l1 c l2 ->. apply Forall_app in Hclocks as [H1 H2].
    apply Forall_cons in H2 as [Hc _].
    destruct (track_documents_balanced l1 p Hp H1) as (Hp1 & _).
    by destruct (track_document_ok c _ Hp1 Hc).
  - intros c d Hc E H1 H2.
    destruct (track_document_raises c p d Hc E H1 H2) as (-> & -> & -> & ->).
    split; [done | lia].
Qed.

Lemma request_counters_balanced_witness :
  fst (track_document
         {| dc_doc_type := "batch"; dc_time := Some 2%Q; dc_success := true;
            dc_error := None; dc_now := 1; dc_today1 := "2025-01-15";
            dc_today2 := "2025-01-15" |} loaded_tracker)
    = Raise (KeyError "document_processing") ∧
  (successful_requests
     (snd (track_document
             {| dc_doc_type := "batch"; dc_time := Some 2%Q; dc_success := true;
                dc_error := None; dc_now := 1; dc_today1 := "2025-01-15";
                dc_today2 := "2025-01-15" |} loaded_tracker))
   + failed_requests
       (snd (track_document
               {| dc_doc_type := "batch"; dc_time := Some 2%Q; dc_success := true;
                  dc_error := None; dc_now := 1; dc_today1 := "2025-01-15";
                  dc_today2 := "2025-01-15" |} loaded_tracker))
   - total_requests
       (snd (track_document
               {| dc_doc_type := "batch"; dc_time := Some 2%Q; dc_success := true;
                  dc_error := None; dc_now := 1; dc_today1 := "2025-01-15";
                  dc_today2 := "2025-01-15" |} loaded_tracker))
   = successful_requests loaded_tracker + failed_requests loaded_tracker
     - total_requests loaded_tracker - 1)%Z.
Proof.
  destruct (request_counters_balanced [] loaded_tracker) as [_ H].
  apply (H _ {| is_defaultdict := false; counts := {[ "chat" := 1%Z ]} |});
    vm_compute; reflexivity.
Defined.

Lemma track_feature_usage_stat (f g today : string) (p : PerformanceTracker) :
  (∀ d, daily_stats p !! today = Some d → is_defaultdict d = true) →
  fst (track_feature_usage g today p) = Ok tt ∧
  (∀ d, daily_stats (snd (track_feature_usage g today p)) !! today = Some d →
        is_defaultdict d = true) ∧
  (default 0 (stats (snd (track_feature_usage g today p)) !! ("feature_" +:+ f))
   == default 0 (stats p !! ("feature_" +:+ f)) + (if String.eqb g f then 1 else 0))%Q ∧
  daily_count (snd (track_feature_usage g today p)) today f
  = (daily_count p today f + (if String.eqb g f then 1 else 0))%Z.
Proof.
  intros Hd. rewrite track_feature_usage_ok by done.
  unfold daily_count, add_stat, add_count. cbn [fst snd stats daily_stats].
  rewrite lookup_insert_eq. cbn [counts].
  split_and!; [done | by intros d [= <-] | |].
  - destruct (String.eqb_spec g f) as [->|Hne].
    + rewrite lookup_insert_eq. cbn [default from_option id]. reflexivity.
    + rewrite lookup_insert_ne; [ring|].
      intros H. apply Hne. by apply (inj (String.app "feature_")) in H.
  - destruct (String.eqb_spec g f) as [->|Hne].
    + rewrite lookup_insert_eq. cbn [default from_option id].
      by destruct (daily_stats p !! today).
    + rewrite lookup_insert_ne by done.
      destruct (daily_stats p !! today); cbn [default from_option id counts];
        [lia | by rewrite lookup_empty].
Qed.

Lemma track_features_counted (features : list string) (f today : string)
    (p : PerformanceTracker) :
  (∀ d, daily_stats p !! today = Some d → is_defaultdict d = true) →
  (∀ d, daily_stats (track_features features today p) !! today = Some d →
        is_defaultdict d = true) ∧
  (default 0 (stats (track_features features today p) !! ("feature_" +:+ f))
   == default 0 (stats p !! ("feature_" +:+ f))
      + inject_Z (count_if (λ g, String.eqb g f) features))%Q ∧
  daily_count (track_features features today p) today f
  = (daily_count p today f + count_if (λ g, String.eqb g f) features)%Z.
Proof.
  revert p. induction features as [|g features IH]; intros p Hd.
  - unfold count_if. cbn. split_and!; [done | ring | lia].
  - rewrite track_features_cons.
    destruct (track_feature_usage_stat f g today p Hd) as (_ & Hd1 & H1 & H2).
    destruct (IH _ Hd1) as (Hd2 & IH1 & IH2).
    split; [done|].
    rewrite IH1, IH2, H1, H2. unfold count_if. cbn [List.filter].
    destruct (String.eqb g f); cbn [length].
    + split; [|lia]. rewrite Nat2Z.inj_succ, <- Z.add_1_l, inject_Z_plus.
      change (inject_Z 1) with 1%Q. ring.
    + split; [ring | lia].
Qed.

(** X19: feature counters count calls, on a day that was not loaded.  After a
    sequence of [track_feature_usage] calls on a day whose dict is absent or
    a [defaultdict], every call returned, and the counter
    [stats["feature_" + f]] and the day's counter [daily_stats[today][f]] have
    each grown by exactly the number of calls made for [f]; calls for other
    features do not touch them.  On a day whose dict was loaded from the log
    as a plain dict without [g], the call for [g] raises [KeyError] after
    [stats["feature_" + g]] was counted, and leaves [daily_stats] as it
    was. *)
Theorem feature_counters_count_calls (features : list string) (f today : string)
    (p : PerformanceTracker) :
  ((∀ d, daily_stats p !! today = Some d → is_defaultdict d = true) →
   (∀ l1 g l2, features = (l1 ++ g :: l2)%list →
      fst (track_feature_usage g today (track_features l1 today p)) = Ok tt) ∧
   (default 0 (stats (track_features features today p) !! ("feature_" +:+ f))
    == default 0 (stats p !! ("feature_" +:+ f))
       + inject_Z (count_if (λ g, String.eqb g f) features))%Q ∧
   daily_count (track_features features today p) today f
   = (daily_count p today f + count_if (λ g, String.eqb g f) features)%Z) ∧
  (∀ g d, daily_stats p !! today = Some d → is_defaultdict d = false →
     counts d !! g = None →
     fst (track_feature_usage g today p) = Raise (KeyError g) ∧
     (default 0 (stats (snd (track_feature_usage g today p)) !! ("feature_" +:+ g))
      == default 0 (stats p !! ("feature_" +:+ g)) + 1)%Q ∧
     daily_stats (snd (track_feature_usage g today p)) = daily_stats p).
Proof.
  split.
  - intros Hd. destruct (track_features_counted features f today p Hd) as (_ & H1 & H2).
    split_and!; try done.
    intros l1 g l2 _.
    destruct (track_features_counted l1 f today p Hd) as (Hd1 & _).
    by destruct (track_feature_usage_stat f g today _ Hd1).
  - intros g d E H1 H2. rewrite (track_feature_usage_raises _ _ _ d) by done.
    cbn [fst snd stats daily_stats]. split_and!; try done.
    unfold add_stat. rewrite lookup_insert_eq. reflexivity.
Qed.

Lemma feature_counters_count_calls_witness :
  (∀ l1 g l2, ["chat"; "file_upload"; "chat"] = (l1 ++ g :: l2)%list →
     fst (track_feature_usage g "2025-01-15" (track_features l1 "2025-01-15" new_tracker))
       = Ok tt) ∧
  (default 0 (stats (track_features ["chat"; "file_upload"; "chat"] "2025-01-15" new_tracker)
                !! ("feature_" +:+ "chat"))
   == default 0 (stats new_tracker !! ("feature_" +:+ "chat"))
      + inject_Z (count_if (λ g, String.eqb g "chat") ["chat"; "file_upload"; "chat"]))%Q ∧
  daily_count (track_features ["chat"; "file_upload"; "chat"] "2025-01-15" new_tracker)
    "2025-01-15" "chat"
  = (daily_count new_tracker "2025-01-15" "chat"
     + count_if (λ g, String.eqb g "chat") ["chat"; "file_upload"; "chat"])%Z.
Proof.
  destruct (feature_counters_count_calls ["chat"; "file_upload"; "chat"] "chat" "2025-01-15"
              new_tracker) as [H _].
  apply H. intros d Hd. vm_compute in Hd. discriminate Hd.
Defined.

(** ** Cancellation before the driver starts *)

(** X20: a job cancelled while Pending is started all the same.  In a
    reachable state, when [cancel_job] accepts a job whose driver has not
    started, the job becomes Cancelled and moves to the history; the driver's
    first step then sets it back to Processing with a start time, although it
    stays in the history and out of the active set, and goes on to the
    loop. *)
Theorem cancelled_pending_job_is_started (s : BatchProcessor) (jid : string) (r : nat)
    (t : Q) (env : Env) :
  reachable s →
  active_jobs s !! jid = Some r →
  tasks s !! r = Some AtStart →
  (0 < max_workers s)%nat →
  status (objects (snd (cancel_job jid t s)) !!! r) = CANCELLED ∧
  status (objects (snd (driver_step r env (snd (cancel_job jid t s)))) !!! r) = PROCESSING ∧
  start_time (objects (snd (driver_step r env (snd (cancel_job jid t s)))) !!! r)
    = Some (now env) ∧
  end_time (objects (snd (driver_step r env (snd (cancel_job jid t s)))) !!! r) = Some t ∧
  tasks (snd (driver_step r env (snd (cancel_job jid t s)))) !! r = Some (AtLoop 0 0) ∧
  in_history (snd (driver_step r env (snd (cancel_job jid t s)))) r ∧
  ¬ in_active (snd (driver_step r env (snd (cancel_job jid t s)))) r.
Proof.
  intros Hs Hr Ht Hw. apply reachable_Inv in Hs.
  destruct (inv_active s Hs _ _ Hr) as (j & Hj & Hid).
  assert (HI1 : Inv (snd (cancel_job jid t s))) by apply (Inv_step s (Cancel jid t) Hs).
  assert (HI2 : Inv (snd (driver_step r env (snd (cancel_job jid t s)))))
    by apply (Inv_step _ (DriverStep r env) HI1).
  revert HI1 HI2. rewrite cancel_job_eq, Hr. cbn [snd].
  set (s1 := with_active_jobs _ _). intros HI1 HI2.
  assert (Hj1 : objects s1 !! r = Some (set_end_time t (set_status CANCELLED j))).
  { unfold s1. cbn. by rewrite !lookup_alter_eq, Hj. }
  assert (Ht1 : tasks s1 !! r = Some AtStart) by done.
  assert (Hw1 : (0 < max_workers s1)%nat) by done.
  revert HI2. rewrite (step_start s1 r _ env Hj1 Ht1 Hw1). cbn [snd]. intros HI2.
  rewrite (lookup_total_correct _ _ _ Hj1).
  assert (Hin : in_history (nf s1 r (started (now env) (set_end_time t (set_status CANCELLED j)))
                              (AtLoop 0 0) (job_history s1) (active_jobs s1) (result_files s1)) r).
  { unfold in_history. cbn. apply elem_of_app. right. by left. }
  rewrite (lookup_total_correct _ _ _ (nf_objects _ _ _ _ _ _ _)).
  split_and!; try done.
  - apply nf_tasks.
  - intros [k Hk]. by destruct (inv_history _ HI2 _ Hin) as [_ Hno]; apply (Hno k).
Qed.

Lemma cancelled_pending_job_is_started_witness :
  status (objects (snd (cancel_job "batch_1000" 2 five_submitted)) !!! 0%nat) = CANCELLED ∧
  status (objects (snd (driver_step 0 (env_ok "" 3)
                          (snd (cancel_job "batch_1000" 2 five_submitted)))) !!! 0%nat)
    = PROCESSING ∧
  start_time (objects (snd (driver_step 0 (env_ok "" 3)
                              (snd (cancel_job "batch_1000" 2 five_submitted)))) !!! 0%nat)
    = Some (now (env_ok "" 3)) ∧
  end_time (objects (snd (driver_step 0 (env_ok "" 3)
                            (snd (cancel_job "batch_1000" 2 five_submitted)))) !!! 0%nat)
    = Some 2%Q ∧
  tasks (snd (driver_step 0 (env_ok "" 3)
                (snd (cancel_job "batch_1000" 2 five_submitted)))) !! 0%nat
    = Some (AtLoop 0 0) ∧
  in_history (snd (driver_step 0 (env_ok "" 3)
                     (snd (cancel_job "batch_1000" 2 five_submitted)))) 0 ∧
  ¬ in_active (snd (driver_step 0 (env_ok "" 3)
                      (snd (cancel_job "batch_1000" 2 five_submitted)))) 0.
Proof.
  apply cancelled_pending_job_is_started.
  - exists 3%nat, 4%nat, batch_processor, [Submit five_files ["document"] None 1].
    split; reflexivity.
  - vm_compute. reflexivity.
  - vm_compute. reflexivity.
  - vm_compute. lia.
Defined.
